(** * Boardroom TEE: coordination substrate

    A shallow embedding of the hub's coordination code and the properties
    its specification states about it:

    - [src/shared/secure_messaging.py]       (signed / encrypted envelopes)
    - [src/hub/services/agent_registry.py]   (attestation-gated registry)
    - [src/hub/services/vm_communication_manager.py] (dispatch to agent VMs)
    - [src/hub/services/unified_llm_manager.py]      (router policy, synthesis)
    - [src/hub/services/orchestration_engine.py]     (routing, escalation)

    Python dictionaries that hold JSON data are values of [pyval]; the
    two registry tables and the active-requests table are finite maps
    keyed by strings.  Wall-clock readings, random tokens and the result
    of a network exchange are explicit inputs of the operations that
    consume them.  The third-party libraries the code calls (json, base64,
    AES-GCM, datetime) and the two collaborators whose files are not part
    of the sources (the key manager and the attestation client) are taken
    as interfaces; [Ref] gives executable instances used to run the model
    on concrete inputs. *)

From Stdlib Require Import ZArith QArith String Ascii List Bool Lia.
From Stdlib Require Import DecimalString.
From stdpp Require Import base option list gmap strings.

Set Warnings "-register-all".
Local Open Scope string_scope.
Local Open Scope Z_scope.

(* ===================================================================== *)
(** * Python values *)
(* ===================================================================== *)

Module PyVal.

(** JSON-shaped Python values.  A [PDict] lists its items in insertion
    order, as a Python [dict] does. *)
Inductive pyval : Type :=
| PNone
| PBool (b : bool)
| PInt (n : Z)
| PFloat (q : Q)
| PStr (s : string)
| PList (l : list pyval)
| PDict (d : list (string * pyval)).

Abbreviation pydict := (list (string * pyval)).

(** [d.get(k)] as an option: [None] when the key is absent. *)
Fixpoint lookup_key (k : string) (d : pydict) : option pyval :=
  match d with
  | [] => None
  | (k', v) :: d' => if String.eqb k k' then Some v else lookup_key k d'
  end.

(** [d.get(k, dflt)] *)
Definition get_default (k : string) (dflt : pyval) (d : pydict) : pyval :=
  match lookup_key k d with
  | Some v => v
  | None => dflt
  end.

(** [d.get(k)]: a missing key reads as Python's [None]. *)
Definition get (k : string) (d : pydict) : pyval := get_default k PNone d.

(** [k in d] *)
Definition has_key (k : string) (d : pydict) : bool :=
  match lookup_key k d with Some _ => true | None => false end.

(** [d[k] = v]: replaces the value in place when the key exists, appends
    the item otherwise. *)
Fixpoint set_key (k : string) (v : pyval) (d : pydict) : pydict :=
  match d with
  | [] => [(k, v)]
  | (k', v') :: d' =>
      if String.eqb k k' then (k, v) :: d' else (k', v') :: set_key k v d'
  end.

(** Python truthiness, the test behind [if x:] and [not x]. *)
Definition truthy (v : pyval) : bool :=
  match v with
  | PNone => false
  | PBool b => b
  | PInt n => negb (n =? 0)
  | PFloat q => negb (Qeq_bool q 0)
  | PStr s => negb (String.eqb s "")
  | PList l => match l with [] => false | _ => true end
  | PDict d => match d with [] => false | _ => true end
  end.

(** The numeric value of a Python number; [bool] is a subclass of [int].
    [None] for values that do not order against a float. *)
Definition as_number (v : pyval) : option Q :=
  match v with
  | PBool b => Some (if b then 1%Q else 0%Q)
  | PInt n => Some (inject_Z n)
  | PFloat q => Some q
  | _ => None
  end.

(** [x < y] on numbers. *)
Definition Qlt_bool (x y : Q) : bool := negb (Qle_bool y x).

(** Whether a value can be a member of a Python [set]. *)
Definition hashable (v : pyval) : bool :=
  match v with
  | PList _ | PDict _ => false
  | _ => true
  end.

(** [s == v] for a string [s] and any value [v]. *)
Definition str_eq (s : string) (v : pyval) : bool :=
  match v with
  | PStr s' => String.eqb s s'
  | _ => false
  end.

(** Insertion of an item before the first one whose key is not smaller:
    a stable sort by key. *)
Fixpoint insert_item {A} (kv : string * A) (l : list (string * A))
    : list (string * A) :=
  match l with
  | [] => [kv]
  | kv' :: l' =>
      if String.leb (fst kv) (fst kv') then kv :: l
      else kv' :: insert_item kv l'
  end.

Definition sort_items {A} (l : list (string * A)) : list (string * A) :=
  foldr insert_item [] l.

(** The same value with the keys of every dictionary in sorted order:
    two values with the same image are equal as Python values. *)
Fixpoint canon (v : pyval) : pyval :=
  match v with
  | PList l => PList (map canon l)
  | PDict d =>
      PDict (sort_items
               (map (fun kv : string * pyval =>
                       let (k, x) := kv in (k, canon x)) d))
  | _ => v
  end.

(** Equality of two values up to the order in which their dictionaries
    list their keys, which Python's [==] on dictionaries ignores. *)
Definition same_value (v w : pyval) : Prop := canon v = canon w.

End PyVal.
Export PyVal.

(* ===================================================================== *)
(** * Strings *)
(* ===================================================================== *)

Module PyStr.

(** [s.endswith(c)] for a one-character suffix. *)
Fixpoint endswith_char (s : string) (c : ascii) : bool :=
  match s with
  | EmptyString => false
  | String a EmptyString => Ascii.eqb a c
  | String _ s' => endswith_char s' c
  end.

(** [s[:-1]] *)
Fixpoint drop_last (s : string) : string :=
  match s with
  | EmptyString => EmptyString
  | String _ EmptyString => EmptyString
  | String a s' => String a (drop_last s')
  end.

(** [s.replace(c, r)] for a one-character pattern. *)
Fixpoint replace_char (c : ascii) (r : string) (s : string) : string :=
  match s with
  | EmptyString => EmptyString
  | String a s' =>
      if Ascii.eqb a c then r +:+ replace_char c r s'
      else String a (replace_char c r s')
  end.

(** [c.lower()] on ASCII letters. *)
Definition lower_ascii (a : ascii) : ascii :=
  let n := nat_of_ascii a in
  if ((65 <=? n) && (n <=? 90))%nat then ascii_of_nat (n + 32) else a.

(** [s.lower()] *)
Fixpoint lower (s : string) : string :=
  match s with
  | EmptyString => EmptyString
  | String a s' => String (lower_ascii a) (lower s')
  end.

(** [w in s] on strings: substring test. *)
Fixpoint contains (w s : string) : bool :=
  String.prefix w s ||
  match s with
  | EmptyString => false
  | String _ s' => contains w s'
  end.

(** [any(word in s for word in words)] *)
Definition any_word_in (words : list string) (s : string) : bool :=
  existsb (fun w => contains w s) words.

(** [str(n)] for an integer. *)
Definition str_int (n : Z) : string :=
  NilZero.string_of_int (Z.to_int n).

(** [sep.join(l)] *)
Fixpoint join (sep : string) (l : list string) : string :=
  match l with
  | [] => ""
  | [x] => x
  | x :: l' => x +:+ sep +:+ join sep l'
  end.

(** [list(s)]: the one-character strings of [s]. *)
Fixpoint chars (s : string) : list string :=
  match s with
  | EmptyString => []
  | String a s' => String a EmptyString :: chars s'
  end.

End PyStr.

(* ===================================================================== *)
(** * Interfaces of the libraries and of the absent collaborators *)
(* ===================================================================== *)

(** The standard-library and third-party functions the sources call.
    [None] stands for a raised exception.

    - [py_str v] is the built-in [str(v)], also what an f-string prints;
    - [json_dumps sort_keys v] is [json.dumps(v, sort_keys=sort_keys)];
    - [fromisoformat s] is [datetime.fromisoformat(s)], read as the count
      of microseconds of its wall-clock fields: [_verify_timestamp] gives
      the current time the message's own [tzinfo] before subtracting, and
      Python then subtracts the wall-clock fields and ignores the offset;
    - [isoformat t] is [datetime.isoformat()] of the naive datetime [t];
    - [aes_gcm_encrypt key iv plaintext] returns ciphertext and tag;
      [aes_gcm_decrypt key iv tag ciphertext] returns the decoded
      plaintext, or [None] when the tag, the key or the text is bad. *)
Record PyLib : Type := {
  py_str : pyval -> string;
  json_dumps : bool -> pyval -> option string;
  json_loads : string -> option pyval;
  b64encode : string -> string;
  b64decode : string -> option string;
  aes_gcm_encrypt : string -> string -> string -> string * string;
  aes_gcm_decrypt : string -> string -> string -> string -> option string;
  isoformat : Z -> string;
  fromisoformat : string -> option Z
}.

(** [shared/tee_key_manager.py] is not among the sources; these are the
    four methods [SecureMessaging] calls on it. *)
Record KeyManager : Type := {
  sign_message : string -> string;
  verify_signature : string -> pyval -> pyval -> bool;
  get_public_key_pem : string;
  get_key_fingerprint : string
}.

(** [shared/attestation_client.py] is not among the sources; the registry
    calls [verify_attestation_quote(quote)], which returns a flag and a
    result dictionary ([None] when it raises). *)
Record AttestationClient : Type := {
  verify_attestation_quote : pyval -> option (bool * pydict)
}.

(** Microseconds in a second: times are counts of microseconds, the
    resolution of Python's [datetime]. *)
Definition usec : Z := 1000000.

(* ===================================================================== *)
(** * shared/secure_messaging.py *)
(* ===================================================================== *)

Module SecureMessaging.

(** What [verify_secure_message] returns: [(True, message)], or
    [(False, {"error": text})] with one of the texts the function spells
    out, or the same pair with the text of an exception caught by its
    [except Exception] handler. *)
Inductive verify_result : Type :=
| Verified (message : pyval)
| Rejected (error : string)
| Raised.

(** The values drawn while building one envelope: the clock reading of
    [_get_timestamp], [secrets.token_hex(16)], and the two
    [secrets.token_bytes] draws of [_encrypt_payload]. *)
Record draws : Type := {
  clock : Z;
  token_hex : string;
  aes_key : string;
  aes_iv : string
}.

Section WithLibraries.

Context (lib : PyLib) (key_manager : KeyManager).

(** [_get_timestamp] *)
Definition _get_timestamp (now : Z) : string :=
  isoformat lib now +:+ "Z".

(** The parsing steps of [_verify_timestamp]: a final [Z] becomes
    [+00:00], every remaining [Z] too, and the text goes to
    [fromisoformat].  [None] when one of them raises: the timestamp is not
    a string, or does not parse. *)
Definition msg_time_of (timestamp : pyval) : option Z :=
  match timestamp with
  | PStr ts =>
      let ts := if PyStr.endswith_char ts "Z"
                then PyStr.drop_last ts +:+ "+00:00" else ts in
      fromisoformat lib (PyStr.replace_char "Z" "+00:00" ts)
  | _ => None
  end.

(** [_verify_timestamp]: any exception is caught and gives [False]. *)
Definition _verify_timestamp (now : Z) (timestamp : pyval)
    (max_age_seconds : Z) : bool :=
  match msg_time_of timestamp with
  | Some msg_time =>
      let age := now - msg_time in
      (0 <=? age) && (age <=? max_age_seconds * usec)
  | None => false
  end.

(** The dictionary [_encrypt_payload] packages. *)
Definition encrypted_data (key iv ciphertext tag : string) : pyval :=
  PDict [("key", PStr (b64encode lib key));
         ("iv", PStr (b64encode lib iv));
         ("ciphertext", PStr (b64encode lib ciphertext));
         ("tag", PStr (b64encode lib tag))].

(** [_encrypt_payload]; [None] when it raises. *)
Definition _encrypt_payload (key iv plaintext : string) : option string :=
  let '(ciphertext, tag) := aes_gcm_encrypt lib key iv plaintext in
  b64encode lib
    <$> json_dumps lib false (encrypted_data key iv ciphertext tag).

(** [base64.b64decode(v)] on a value: only a string decodes. *)
Definition b64decode_val (v : option pyval) : option string :=
  match v with
  | Some (PStr s) => b64decode lib s
  | _ => None
  end.

(** [_decrypt_payload]: every failure is caught and gives [None]. *)
Definition _decrypt_payload (encrypted_payload : pyval) : option string :=
  raw ← b64decode_val (Some encrypted_payload);
  encrypted_data ← json_loads lib raw;
  match encrypted_data with
  | PDict d =>
      key ← b64decode_val (lookup_key "key" d);
      iv ← b64decode_val (lookup_key "iv" d);
      ciphertext ← b64decode_val (lookup_key "ciphertext" d);
      tag ← b64decode_val (lookup_key "tag" d);
      aes_gcm_decrypt lib key iv tag ciphertext
  | _ => None
  end.

(** The inner message of [create_secure_message]. *)
Definition inner_message (agent_id recipient_id message_type : string)
    (payload : pyval) (r : draws) : pyval :=
  PDict [("sender_id", PStr agent_id);
         ("recipient_id", PStr recipient_id);
         ("message_type", PStr message_type);
         ("timestamp", PStr (_get_timestamp (clock r)));
         ("nonce", PStr (token_hex r));
         ("payload", payload)].

(** [if recipient_public_key:] *)
Definition encrypts (recipient_public_key : option string) : bool :=
  match recipient_public_key with
  | Some k => negb (String.eqb k "")
  | None => false
  end.

(** [create_secure_message]; [agent_id] is [os.getenv('AGENT_ID',
    'unknown')].  [None] when an exception is re-raised. *)
Definition create_secure_message (agent_id : string) (r : draws)
    (recipient_id message_type : string) (payload : pyval)
    (recipient_public_key : option string) : option pydict :=
  let message := inner_message agent_id recipient_id message_type payload r in
  message_json ← json_dumps lib true message;
  let signature := sign_message key_manager message_json in
  if encrypts recipient_public_key
  then
    encrypted_payload ← _encrypt_payload (aes_key r) (aes_iv r) message_json;
    Some [("encrypted", PBool true);
          ("encrypted_payload", PStr encrypted_payload);
          ("signature", PStr signature);
          ("sender_public_key", PStr (get_public_key_pem key_manager));
          ("sender_fingerprint", PStr (get_key_fingerprint key_manager))]
  else
    Some [("encrypted", PBool false);
          ("message", message);
          ("signature", PStr signature);
          ("sender_public_key", PStr (get_public_key_pem key_manager));
          ("sender_fingerprint", PStr (get_key_fingerprint key_manager))].

(** The tail of [verify_secure_message], from the signature check on:
    [message] is the parsed message and [message_json] the text the
    signature is checked against. *)
Definition check_message (now : Z) (signature sender_public_key : pyval)
    (message : pyval) (message_json : string) : verify_result :=
  if negb (verify_signature key_manager message_json signature
             sender_public_key)
  then Rejected "Invalid signature"
  else
    match message with
    | PDict m =>
        if negb (_verify_timestamp now (get "timestamp" m) 300)
        then Rejected "Message timestamp too old"
        else if negb (truthy (get "nonce" m))
        then Rejected "Missing message nonce"
        else Verified message
    | _ => Raised
    end.

(** [verify_secure_message].  The function keeps no state: there is no
    table of nonces, and the nonce is only required to be present. *)
Definition verify_secure_message (now : Z) (secure_message : pydict)
    : verify_result :=
  let signature := get "signature" secure_message in
  let sender_public_key := get "sender_public_key" secure_message in
  if negb (truthy signature) || negb (truthy sender_public_key)
  then Rejected "Missing signature or public key"
  else if truthy (get "encrypted" secure_message)
  then
    match lookup_key "encrypted_payload" secure_message with
    | None => Raised
    | Some encrypted_payload =>
        match _decrypt_payload encrypted_payload with
        | None => Rejected "Failed to decrypt message"
        | Some decrypted_json =>
            if String.eqb decrypted_json ""
            then Rejected "Failed to decrypt message"
            else
              match json_loads lib decrypted_json with
              | None => Raised
              | Some message =>
                  check_message now signature sender_public_key
                    message decrypted_json
              end
        end
    end
  else
    let message := get "message" secure_message in
    if negb (truthy message)
    then Rejected "Missing message content"
    else
      match json_dumps lib true message with
      | None => Raised
      | Some message_json =>
          check_message now signature sender_public_key message message_json
      end.

(** ** What a round trip asks of the libraries and of the key store *)

(** [json.loads] reads back what [json.dumps] wrote for [v]. *)
Definition json_round_trip (sort_keys : bool) (v : pyval) (text : string)
    : Prop :=
  json_dumps lib sort_keys v = Some text
  ∧ ∃ v', json_loads lib text = Some v' ∧ same_value v' v.

(** [b64decode] reads back what [b64encode] wrote for [x]. *)
Definition b64_round_trip (x : string) : Prop :=
  b64decode lib (b64encode lib x) = Some x.

(** Decryption under the same key, IV and tag gives the plaintext back,
    and the four parts survive their packaging. *)
Definition cipher_round_trip (key iv plaintext : string) : Prop :=
  let '(ciphertext, tag) := aes_gcm_encrypt lib key iv plaintext in
  aes_gcm_decrypt lib key iv tag ciphertext = Some plaintext
  ∧ b64_round_trip key ∧ b64_round_trip iv
  ∧ b64_round_trip ciphertext ∧ b64_round_trip tag
  ∧ ∃ text, json_round_trip false (encrypted_data key iv ciphertext tag) text
            ∧ b64_round_trip text.

(** The key store verifies its own signature of [message_json] under its
    own public key, and both are non-empty texts. *)
Definition key_store_correct (message_json : string) : Prop :=
  verify_signature key_manager message_json
    (PStr (sign_message key_manager message_json))
    (PStr (get_public_key_pem key_manager)) = true
  ∧ sign_message key_manager message_json ≠ ""
  ∧ get_public_key_pem key_manager ≠ "".

(** [fromisoformat] reads back the timestamp written for the clock
    reading [t]. *)
Definition clock_round_trip (t : Z) : Prop :=
  msg_time_of (PStr (_get_timestamp t)) = Some t.

End WithLibraries.

End SecureMessaging.

(* ===================================================================== *)
(** * hub/models/agent.py and hub/services/agent_registry.py *)
(* ===================================================================== *)

Module AgentRegistry.

(** [AgentStatus] *)
Inductive AgentStatus : Type := VERIFIED | UNVERIFIED | INACTIVE | FAILED.

#[global] Instance AgentStatus_eq_dec : EqDecision AgentStatus.
Proof. solve_decision. Defined.

(** [AgentRegistration], the validated body of a registration request. *)
Record AgentRegistration : Type := {
  reg_agent_id : string;
  reg_agent_type : string;
  reg_capabilities : list string;
  reg_endpoint : string;
  reg_attestation_endpoint : string;
  reg_attestation_data : pydict
}.

(** The agent record built by [register_agent].  [registered_at] and
    [last_seen] hold the clock reading itself; the code stores its
    [isoformat()] text and parses it back with [fromisoformat]. *)
Record agent : Type := {
  agent_id : string;
  agent_type : string;
  capabilities : list string;
  endpoint : string;
  attestation_endpoint : string;
  public_key : pyval;
  attestation_quote : pyval;
  status : AgentStatus;
  registered_at : Z;
  last_seen : Z;
  client_id : string;
  measurements : pyval
}.

Definition set_last_seen (t : Z) (a : agent) : agent :=
  {| agent_id := agent_id a; agent_type := agent_type a;
     capabilities := capabilities a; endpoint := endpoint a;
     attestation_endpoint := attestation_endpoint a;
     public_key := public_key a; attestation_quote := attestation_quote a;
     status := status a; registered_at := registered_at a;
     last_seen := t; client_id := client_id a;
     measurements := measurements a |}.

Definition set_status (s : AgentStatus) (a : agent) : agent :=
  {| agent_id := agent_id a; agent_type := agent_type a;
     capabilities := capabilities a; endpoint := endpoint a;
     attestation_endpoint := attestation_endpoint a;
     public_key := public_key a; attestation_quote := attestation_quote a;
     status := s; registered_at := registered_at a;
     last_seen := last_seen a; client_id := client_id a;
     measurements := measurements a |}.

(** The two tables of [AgentRegistry]: [self.agents], keyed by agent id
    alone, and [self.client_agents], a list of agent ids per client. *)
Record registry : Type := {
  agents : gmap string agent;
  client_agents : gmap string (list string)
}.

(** [AgentRegistry.__init__] *)
Definition empty_registry : registry :=
  {| agents := ∅; client_agents := ∅ |}.

(** The dictionary [register_agent] returns; [RegRaised] is the one built
    by its [except Exception] handler. *)
Inductive register_result : Type :=
| Registered (id : string) (meas : pyval)
| RegRejected (error : pyval)
| RegRaised.

(** [self.client_agents.get(client_id, [])] *)
Definition ids_of (r : registry) (client : string) : list string :=
  default [] (client_agents r !! client).

(** The record [register_agent] creates. *)
Definition new_record (now : Z) (registration_data : AgentRegistration)
    (client : string) (verification_result : pydict) : agent :=
  {| agent_id := reg_agent_id registration_data;
     agent_type := reg_agent_type registration_data;
     capabilities := reg_capabilities registration_data;
     endpoint := reg_endpoint registration_data;
     attestation_endpoint := reg_attestation_endpoint registration_data;
     public_key := get "public_key" (reg_attestation_data registration_data);
     attestation_quote := get "quote" (reg_attestation_data registration_data);
     status := VERIFIED;
     registered_at := now;
     last_seen := now;
     client_id := client;
     measurements :=
       get_default "measurements" (PDict []) verification_result |}.

Section WithAttestation.

Context (attestation_client : AttestationClient).

(** [register_agent]; [now] is the reading of [datetime.utcnow()]. *)
Definition register_agent (r : registry) (now : Z)
    (registration_data : AgentRegistration) (client : string)
    : registry * register_result :=
  let id := reg_agent_id registration_data in
  let attestation_data := reg_attestation_data registration_data in
  let quote := get "quote" attestation_data in
  let pk := get "public_key" attestation_data in
  if negb (truthy quote) || negb (truthy pk)
  then (r, RegRejected (PStr "Missing attestation data"))
  else
    match verify_attestation_quote attestation_client quote with
    | None => (r, RegRaised)
    | Some (false, verification_result) =>
        (r, RegRejected
              (get_default "error" (PStr "Attestation verification failed")
                 verification_result))
    | Some (true, verification_result) =>
      let a := new_record now registration_data client verification_result in
      ({| agents := <[id := a]> (agents r);
          client_agents :=
            <[client := (ids_of r client ++ [id])%list]> (client_agents r) |},
       Registered id (measurements a))
    end.

End WithAttestation.

(** [get_agent] *)
Definition get_agent (r : registry) (id client : string) : option agent :=
  match agents r !! id with
  | Some a => if String.eqb (client_id a) client then Some a else None
  | None => None
  end.

(** [get_agents_by_capability] *)
Definition get_agents_by_capability (r : registry) (capability : string)
    (client : string) : list agent :=
  omap (fun id =>
          match agents r !! id with
          | Some a =>
              if existsb (String.eqb capability) (capabilities a)
                 && bool_decide (status a = VERIFIED)
              then Some a else None
          | None => None
          end)
       (ids_of r client).

(** [get_all_agents] *)
Definition get_all_agents (r : registry) (client : string) : list agent :=
  omap (fun id => agents r !! id) (ids_of r client).

(** [update_agent_heartbeat] *)
Definition update_agent_heartbeat (r : registry) (now : Z)
    (id client : string) : registry * bool :=
  match get_agent r id client with
  | Some a =>
      ({| agents := <[id := set_last_seen now a]> (agents r);
          client_agents := client_agents r |}, true)
  | None => (r, false)
  end.

(** One entry of a health bucket. *)
Record health_entry : Type := {
  h_agent_id : string;
  h_agent_type : string;
  h_last_seen : Z
}.

Record health_status : Type := {
  healthy : list health_entry;
  unhealthy : list health_entry;
  inactive : list health_entry
}.

Definition minutes (n : Z) : Z := n * 60 * usec.

(** The body of the loop of [check_agent_health] for one agent id. *)
Definition check_one (now : Z) (acc : registry * health_status)
    (id : string) : registry * health_status :=
  let '(r, h) := acc in
  match agents r !! id with
  | None => acc
  | Some a =>
      let e := {| h_agent_id := id; h_agent_type := agent_type a;
                  h_last_seen := last_seen a |} in
      let time_since_seen := now - last_seen a in
      if time_since_seen <? minutes 5
      then (r, {| healthy := (healthy h ++ [e])%list; unhealthy := unhealthy h;
                  inactive := inactive h |})
      else if time_since_seen <? minutes 15
      then (r, {| healthy := healthy h; unhealthy := (unhealthy h ++ [e])%list;
                  inactive := inactive h |})
      else ({| agents := <[id := set_status INACTIVE a]> (agents r);
               client_agents := client_agents r |},
            {| healthy := healthy h; unhealthy := unhealthy h;
               inactive := (inactive h ++ [e])%list |})
  end.

(** [check_agent_health] *)
Definition check_agent_health (r : registry) (now : Z) (client : string)
    : registry * health_status :=
  fold_left (check_one now) (ids_of r client)
    (r, {| healthy := []; unhealthy := []; inactive := [] |}).

(** [list.remove(x)]: drops the first occurrence; [None] is the
    [ValueError] raised when there is none. *)
Fixpoint list_remove (x : string) (l : list string) : option (list string) :=
  match l with
  | [] => None
  | y :: l' =>
      if String.eqb x y then Some l'
      else cons y <$> list_remove x l'
  end.

(** [remove_agent]; the flag is [None] when the list update raises, which
    happens after the record has been deleted. *)
Definition remove_agent (r : registry) (id client : string)
    : registry * option bool :=
  match get_agent r id client with
  | Some _ =>
      let agents' := delete id (agents r) in
      match client_agents r !! client ≫= list_remove id with
      | Some l =>
          ({| agents := agents';
              client_agents := <[client := l]> (client_agents r) |},
           Some true)
      | None =>
          ({| agents := agents'; client_agents := client_agents r |}, None)
      end
  | None => (r, Some false)
  end.

(** [_is_agent_online] *)
Definition _is_agent_online (now : Z) (a : agent) : bool :=
  now - last_seen a <? minutes 5.

(** One entry of the directory view. *)
Record directory_entry : Type := {
  d_agent_id : string;
  d_agent_type : string;
  d_capabilities : list string;
  d_endpoint : string;
  d_status : string
}.

(** [get_agent_directory] *)
Definition get_agent_directory (r : registry) (now : Z) (client : string)
    : list directory_entry :=
  omap (fun id =>
          match agents r !! id with
          | Some a =>
              if bool_decide (status a = VERIFIED)
              then Some {| d_agent_id := id;
                           d_agent_type := agent_type a;
                           d_capabilities := capabilities a;
                           d_endpoint := endpoint a;
                           d_status := if _is_agent_online now a
                                       then "online" else "offline" |}
              else None
          | None => None
          end)
       (ids_of r client).

(** ** Histories of registry calls *)

(** One call on the registry, with the clock reading it observes. *)
Inductive call : Type :=
| CallRegister (now : Z) (registration_data : AgentRegistration)
    (client : string)
| CallHeartbeat (now : Z) (id client : string)
| CallHealth (now : Z) (client : string)
| CallRemove (id client : string).

Definition run_call (ac : AttestationClient) (r : registry) (c : call)
    : registry :=
  match c with
  | CallRegister now d client => fst (register_agent ac r now d client)
  | CallHeartbeat now id client => fst (update_agent_heartbeat r now id client)
  | CallHealth now client => fst (check_agent_health r now client)
  | CallRemove id client => fst (remove_agent r id client)
  end.

(** The registry after a history of calls on a fresh one. *)
Definition run (ac : AttestationClient) (h : list call) : registry :=
  fold_left (run_call ac) h empty_registry.

(** Whether a call is a registration of [id] under [client] that the
    attestation client admits. *)
Definition admits (ac : AttestationClient) (id client : string) (c : call)
    : bool :=
  match c with
  | CallRegister now d cl =>
      String.eqb (reg_agent_id d) id && String.eqb cl client
      && truthy (get "quote" (reg_attestation_data d))
      && truthy (get "public_key" (reg_attestation_data d))
      && match verify_attestation_quote ac
                 (get "quote" (reg_attestation_data d)) with
         | Some (true, _) => true
         | _ => false
         end
  | _ => false
  end.

(** ** Two relations used to reason about histories *)

(** Every id listed for a client satisfies [P] with that client, and
    every stored record sits under its own id and is listed for the
    client that owns it. *)
Definition listed_and_owned (P : string -> string -> Prop) (r : registry)
    : Prop :=
  (forall c id, id ∈ ids_of r c -> P id c)
  /\ (forall id a, agents r !! id = Some a ->
        agent_id a = id /\ id ∈ ids_of r (client_id a)).

(** [r'] has the index of [r], and each of its records has the id and
    the owner of the record [r] stores under the same key. *)
Definition keeps_owners (r r' : registry) : Prop :=
  client_agents r' = client_agents r
  /\ forall id a', agents r' !! id = Some a' ->
       exists a, agents r !! id = Some a
                 /\ agent_id a' = agent_id a /\ client_id a' = client_id a.

End AgentRegistry.

(* ===================================================================== *)
(** * hub/services/vm_communication_manager.py *)
(* ===================================================================== *)

Module VMCommunication.

(** How the HTTP exchange of [send_to_agent] ends: a 200 reply whose body
    parsed, another status with its text, a timeout, or any other
    exception with its text. *)
Inductive http_outcome : Type :=
| HttpOk (body : pyval)
| HttpStatus (code : Z) (text : string)
| HttpTimeout
| HttpFailed (reason : string).

(** [send_to_agent]; [spoke_endpoints] is [self.spoke_endpoints].  No
    request is made for an agent type that has no endpoint. *)
Definition send_to_agent (spoke_endpoints : gmap string string)
    (agent_type : string) (data : pydict) (outcome : http_outcome) : pyval :=
  match spoke_endpoints !! agent_type with
  | None =>
      PDict [("error", PStr ("Agent VM " +:+ agent_type +:+ " not configured"))]
  | Some _ =>
      match outcome with
      | HttpOk result => result
      | HttpStatus code error_text =>
          PDict [("error", PStr ("Agent VM returned " +:+ PyStr.str_int code));
                 ("details", PStr error_text)]
      | HttpTimeout =>
          PDict [("error",
                  PStr ("Timeout communicating with " +:+ agent_type +:+ " VM"))]
      | HttpFailed reason =>
          PDict [("error", PStr ("Communication failed: " +:+ reason))]
      end
  end.

(** The dispatch failed: the agent type has no endpoint, or the exchange
    did not end in a 200 reply. *)
Definition dispatch_failed (spoke_endpoints : gmap string string)
    (agent_type : string) (outcome : http_outcome) : bool :=
  match spoke_endpoints !! agent_type, outcome with
  | Some _, HttpOk _ => false
  | _, _ => true
  end.

End VMCommunication.

(* ===================================================================== *)
(** * hub/services/unified_llm_manager.py *)
(* ===================================================================== *)

Module UnifiedLLMManager.

Import AgentRegistry.

(** The dictionary [route_to_agent] returns. *)
Record routing_decision : Type := {
  best_agent : string;
  reasoning : string;
  priority : string;
  estimated_time : Z;
  confidence : Q
}.

Definition set_reasoning (s : string) (d : routing_decision)
    : routing_decision :=
  {| best_agent := best_agent d; reasoning := s; priority := priority d;
     estimated_time := estimated_time d; confidence := confidence d |}.

(** [_mock_route_to_agent]; [rand_time] and [rand_conf] are its two
    draws from [random]. *)
Definition _mock_route_to_agent (rand_time : Z) (rand_conf : Q)
    (query : string) (available_agents : list agent) : routing_decision :=
  let query_lower := PyStr.lower query in
  let '(best, why, prio) :=
    if PyStr.any_word_in ["roi"; "budget"; "financial"; "revenue"; "cost"]
         query_lower
    then ("finance",
          "Query contains financial terms requiring specialized analysis",
          "high")
    else if PyStr.any_word_in ["campaign"; "marketing"; "customer"; "brand"]
              query_lower
    then ("marketing",
          "Query relates to marketing activities and campaigns", "medium")
    else if PyStr.any_word_in ["sales"; "pipeline"; "leads"; "deals"]
              query_lower
    then ("sales", "Query involves sales data and pipeline analysis", "medium")
    else (match available_agents with
          | a :: _ => agent_type a
          | [] => "finance"
          end,
          "General business query routed to available specialist", "low") in
  let agent_found :=
    existsb (fun a => String.eqb (agent_type a) best) available_agents in
  let '(best', why') :=
    match agent_found, available_agents with
    | false, a :: _ =>
        (agent_type a,
         "Preferred agent not available, routing to " +:+ agent_type a)
    | _, _ => (best, why)
    end in
  {| best_agent := best'; reasoning := why'; priority := prio;
     estimated_time := rand_time; confidence := rand_conf |}.

(** [route_to_agent]: both the development and the production branch end
    in [_mock_route_to_agent]. *)
Definition route_to_agent := _mock_route_to_agent.

(** Round to two decimals, ties to even: [round(q, 2)]. *)
Definition round2 (q : Q) : Q :=
  let n := (Qnum q * 100)%Z in
  let d := Zpos (Qden q) in
  let lo := (n / d)%Z in
  let twice_rem := (2 * (n mod d))%Z in
  let r := if (twice_rem <? d)%Z then lo
           else if (d <? twice_rem)%Z then (lo + 1)%Z
           else if Z.even lo then lo else (lo + 1)%Z in
  Qmake r 100.

(** What [list.extend(v)] appends: the items of a list, the characters
    of a string, the keys of a dictionary; other values are not iterable. *)
Definition iterate (v : pyval) : option (list pyval) :=
  match v with
  | PList l => Some l
  | PStr s => Some (PStr <$> PyStr.chars s)
  | PDict d => Some ((fun kv => PStr (fst kv)) <$> d)
  | _ => None
  end.

Section WithLibraries.

Context (lib : PyLib).

(** The loop of [_mock_synthesize_results]: collects the summaries and
    the recommendations. *)
Fixpoint collect (results : list pydict) (summaries : list string)
    (recommendations : list pyval) : option (list string * list pyval) :=
  match results with
  | [] => Some (summaries, recommendations)
  | result :: rest =>
      let summaries' :=
        match lookup_key "summary" result with
        | Some s =>
            (summaries ++
             [py_str lib (get_default "agent_type" (PStr "Unknown") result)
              +:+ ": " +:+ py_str lib s])%list
        | None => summaries
        end in
      match lookup_key "recommendations" result with
      | Some v =>
          items ← iterate v;
          collect rest summaries' (recommendations ++ items)%list
      | None => collect rest summaries' recommendations
      end
  end.

(** [sum(r.get('confidence_score', 0.8) for r in results)] *)
Fixpoint sum_confidence (results : list pydict) (acc : Q) : option Q :=
  match results with
  | [] => Some acc
  | r :: rest =>
      c ← as_number (get_default "confidence_score" (PFloat (8 # 10)) r);
      sum_confidence rest (acc + c)%Q
  end.

(** [_mock_synthesize_results]; [None] when it raises. *)
Definition _mock_synthesize_results (results : list pydict)
    : option pydict :=
  match results with
  | [] =>
      Some [("executive_summary", PStr "No results to synthesize");
            ("recommendations", PList []);
            ("confidence_score", PFloat 0)]
  | _ =>
      '(summaries, recommendations) ← collect results [] [];
      total ← sum_confidence results 0%Q;
      let executive_summary :=
        "Multi-agent analysis completed. "
        +:+ PyStr.join " " (take 2 summaries) in
      Some [("executive_summary", PStr executive_summary);
            ("recommendations", PList (take 3 recommendations));
            ("confidence_score",
             PFloat (round2 (total / inject_Z (Z.of_nat (length results)))));
            ("areas_of_agreement",
             PList [PStr "Data accuracy confirmed"; PStr "Trends identified"]);
            ("areas_of_disagreement", PList []);
            ("synthesis_timestamp", PStr "2024-01-01T00:00:00Z")]
  end.

(** [synthesize_results]: both branches end in
    [_mock_synthesize_results]. *)
Definition synthesize_results := _mock_synthesize_results.

End WithLibraries.

End UnifiedLLMManager.

(* ===================================================================== *)
(** * hub/models/orchestration.py and hub/services/orchestration_engine.py *)
(* ===================================================================== *)

Module OrchestrationEngine.

Import AgentRegistry VMCommunication UnifiedLLMManager.

(** [OrchestrationRequest], the validated body of a routing request; its
    [dict()] is the [request_data] of [route_request]. *)
Record OrchestrationRequest : Type := {
  query : string;
  requesting_agent : option string;
  context : pydict;
  data_requirements : list string;
  req_priority : string;
  timeout_seconds : Z
}.

(** One value of [self.active_requests].  [responses] is [None] until the
    key ["responses"] is added by the first response. *)
Record active_request : Type := {
  routing_id : string;
  request_data : OrchestrationRequest;
  target_agent : agent;
  ar_client_id : string;
  started_at : Z;
  responses : option (list pydict)
}.

Definition set_responses (rs : list pydict) (a : active_request)
    : active_request :=
  {| routing_id := routing_id a; request_data := request_data a;
     target_agent := target_agent a; ar_client_id := ar_client_id a;
     started_at := started_at a; responses := Some rs |}.

(** [active_request.get("responses", [])] *)
Definition responses_of (a : active_request) : list pydict :=
  default [] (responses a).

(** What one call of [route_request] reads from outside: the clock (the
    readings within one call are taken as one), [uuid.uuid4().hex], the
    two random draws of the router policy and the way the HTTP exchange
    with the agent ends. *)
Record route_inputs : Type := {
  now : Z;
  uuid_hex : string;
  rand_time : Z;
  rand_conf : Q;
  outcome : http_outcome
}.

(** The routing id [route_request] assigns:
    [f"route_{uuid.uuid4().hex[:8]}"]. *)
Definition new_routing_id (i : route_inputs) : string :=
  "route_" +:+ String.substring 0 8 (uuid_hex i).

(** The dictionary [route_request] returns. *)
Inductive route_result : Type :=
| NoAgents
| RoutingFailed
| Routed (rid : string) (target_id : string) (target_type : string)
    (why : string) (estimated_time_minutes : Z) (size : Z) (routed_at : Z)
    (collaboration_result : pyval).

(** The dictionary [process_collaboration_response] returns. *)
Inductive response_result : Type :=
| UnknownRoutingId
| ResponseFailed
| Rerouted (r : route_result)
| Completed (rid : string) (synthesis : pydict) (all_responses : list pydict)
    (completed_at : Z).

Section WithLibraries.

Context (lib : PyLib).

(** [_prepare_data_package] *)
Definition _prepare_data_package (now : Z) (request_data : OrchestrationRequest)
    (client : string) : pydict :=
  let reqs := data_requirements request_data in
  let ctx := context request_data in
  let relevant_data : pydict :=
    [("client_id", PStr client);
     ("request_context", PDict ctx);
     ("data_types", PList (PStr <$> reqs));
     ("documents", PList [])] in
  let relevant_data :=
    if existsb (String.eqb "financial_data") reqs
    then set_key "financial_data"
           (PDict [("revenue", get_default "revenue" (PInt 1000000) ctx);
                   ("expenses", get_default "expenses" (PInt 800000) ctx);
                   ("period", get_default "period" (PStr "Q4 2024") ctx)])
           relevant_data
    else relevant_data in
  let relevant_data :=
    if existsb (String.eqb "marketing_data") reqs
    then set_key "marketing_data"
           (PDict [("campaign_name",
                    get_default "campaign_name" (PStr "Holiday Campaign") ctx);
                   ("spend", get_default "marketing_spend" (PInt 50000) ctx);
                   ("impressions",
                    get_default "impressions" (PInt 1000000) ctx)])
           relevant_data
    else relevant_data in
  [("encrypted", PBool false);
   ("data", PDict relevant_data);
   ("prepared_at", PStr (isoformat lib now))].

(** The agents [route_request] chooses from: the client's agents other
    than the requesting one whose status is [verified]. *)
Definition candidates (reg : registry) (requesting : option string)
    (client : string) : list agent :=
  filter (fun a => Some (agent_id a) ≠ requesting ∧ status a = VERIFIED)
         (get_all_agents reg client).

(** The search for the agent of the chosen type, with its fallback to
    the first candidate. *)
Definition pick_target (available : list agent) (d : routing_decision)
    (first : agent) : agent * routing_decision :=
  match find (fun a => String.eqb (agent_type a) (best_agent d)) available with
  | Some a => (a, d)
  | None => (first, set_reasoning "Primary agent not found, using fallback" d)
  end.

(** The request posted to the agent. *)
Definition dispatch_data (rid : string) (request_data : OrchestrationRequest)
    (data_package : pydict) (d : routing_decision) : pydict :=
  [("routing_id", PStr rid);
   ("query", PStr (query request_data));
   ("context", PDict (context request_data));
   ("data_package", PDict data_package);
   ("requesting_agent",
    match requesting_agent request_data with
    | Some a => PStr a
    | None => PNone
    end);
   ("priority", PStr (priority d))].

(** [route_request].  The state is [self.active_requests]. *)
Definition route_request (spoke_endpoints : gmap string string)
    (reg : registry) (i : route_inputs)
    (active_requests : gmap string active_request)
    (request_data : OrchestrationRequest) (client : string)
    : gmap string active_request * route_result :=
  match candidates reg (requesting_agent request_data) client with
  | [] => (active_requests, NoAgents)
  | (first :: _) as available_agents =>
      let decision :=
        route_to_agent (rand_time i) (rand_conf i) (query request_data)
          available_agents in
      let '(target, decision) := pick_target available_agents decision first in
      let rid := new_routing_id i in
      let data_package := _prepare_data_package (now i) request_data client in
      let active_requests' :=
        <[rid := {| routing_id := rid; request_data := request_data;
                    target_agent := target; ar_client_id := client;
                    started_at := now i; responses := None |}]>
          active_requests in
      let collaboration_result :=
        send_to_agent spoke_endpoints (agent_type target)
          (dispatch_data rid request_data data_package decision)
          (outcome i) in
      match json_dumps lib false (PDict data_package) with
      | None => (active_requests', RoutingFailed)
      | Some text =>
          (active_requests',
           Routed rid (agent_id target) (agent_type target)
             (reasoning decision) (estimated_time decision)
             (Z.of_nat (String.length text)) (now i) collaboration_result)
      end
  end.

(** [_needs_additional_collaboration]; [None] when it raises: the result
    is not a dictionary, or the confidence does not compare with a
    float. *)
Definition _needs_additional_collaboration (a : active_request)
    (response_data : pydict) : option bool :=
  match get_default "result" (PDict []) response_data with
  | PDict result =>
      let confidence := get_default "confidence_score" (PFloat 1) result in
      if (2 <=? length (responses_of a))%nat then Some false
      else
        c ← as_number confidence;
        Some (Qlt_bool c (7 # 10))
  | _ => None
  end.

(** [_determine_next_agent]; the outer [None] is the [TypeError] of a set
    built from an unhashable agent id. *)
Definition _determine_next_agent (reg : registry) (a : active_request)
    : option (option agent) :=
  let responded_agents := get "agent_id" <$> responses_of a in
  if forallb hashable responded_agents
  then
    let remaining_agents :=
      filter (fun ag => existsb (str_eq (agent_id ag)) responded_agents = false)
             (get_all_agents reg (ar_client_id a)) in
    Some (head remaining_agents)
  else None.

(** The entry appended to the response history. *)
Definition response_entry (now : Z) (response_data : pydict) : pydict :=
  [("agent_id", get "agent_id" response_data);
   ("agent_type", get "agent_type" response_data);
   ("result", get "result" response_data);
   ("received_at", PStr (isoformat lib now))].

(** The last part of [process_collaboration_response]: synthesis and
    removal of the entry. *)
Definition finalize (now : Z) (active_requests : gmap string active_request)
    (rid : string) (a : active_request)
    : gmap string active_request * response_result :=
  let all_responses := responses_of a in
  match synthesize_results lib all_responses with
  | None => (active_requests, ResponseFailed)
  | Some synthesis =>
      (delete rid active_requests,
       Completed rid synthesis all_responses now)
  end.

(** [process_collaboration_response].  [i] feeds the nested
    [route_request] of an escalation; its clock also stamps the entry. *)
Definition process_collaboration_response
    (spoke_endpoints : gmap string string) (reg : registry) (i : route_inputs)
    (active_requests : gmap string active_request)
    (rid : string) (response_data : pydict)
    : gmap string active_request * response_result :=
  match active_requests !! rid with
  | None => (active_requests, UnknownRoutingId)
  | Some a0 =>
      let a :=
        set_responses
          (responses_of a0 ++ [response_entry (now i) response_data])%list a0 in
      let active_requests := <[rid := a]> active_requests in
      match _needs_additional_collaboration a response_data with
      | None => (active_requests, ResponseFailed)
      | Some false => finalize (now i) active_requests rid a
      | Some true =>
          match _determine_next_agent reg a with
          | None => (active_requests, ResponseFailed)
          | Some None => finalize (now i) active_requests rid a
          | Some (Some next_agent) =>
              let '(active_requests', r) :=
                route_request spoke_endpoints reg i active_requests
                  (request_data a) (ar_client_id a) in
              (active_requests', Rerouted r)
          end
      end
  end.

(** ** Histories of engine calls *)

(** One call on the engine, with the registry and the endpoints it sees
    and what it reads from outside. *)
Inductive call : Type :=
| CallRoute (spoke_endpoints : gmap string string) (reg : registry)
    (i : route_inputs) (request_data : OrchestrationRequest) (client : string)
| CallResponse (spoke_endpoints : gmap string string) (reg : registry)
    (i : route_inputs) (rid : string) (response_data : pydict).

Definition run_call (active_requests : gmap string active_request) (c : call)
    : gmap string active_request * (route_result + response_result) :=
  match c with
  | CallRoute eps reg i d client =>
      let '(s, r) := route_request eps reg i active_requests d client in
      (s, inl r)
  | CallResponse eps reg i rid d =>
      let '(s, r) :=
        process_collaboration_response eps reg i active_requests rid d in
      (s, inr r)
  end.

(** The table after a history of calls on a fresh engine. *)
Definition run (h : list call) : gmap string active_request :=
  fold_left (fun s c => fst (run_call s c)) h ∅.

(** A call that is not a response for [rid] that ended in the
    [except Exception] handler of [process_collaboration_response]. *)
Definition handled (rid : string)
    (active_requests : gmap string active_request) (c : call) : bool :=
  match c with
  | CallRoute _ _ _ _ _ => true
  | CallResponse eps reg i rid' d =>
      if String.eqb rid' rid then
        match snd (process_collaboration_response eps reg i active_requests
                     rid' d) with
        | ResponseFailed => false
        | _ => true
        end
      else true
  end.

(** Every response for [rid] in the history was handled. *)
Fixpoint all_handled (rid : string)
    (active_requests : gmap string active_request) (h : list call) : bool :=
  match h with
  | [] => true
  | c :: h' =>
      handled rid active_requests c
      && all_handled rid (fst (run_call active_requests c)) h'
  end.

End WithLibraries.

(** The entry of [rid], if there is one, holds at most one response. *)
Definition at_most_one_response (rid : string)
    (active_requests : gmap string active_request) : Prop :=
  forall a,
    active_requests !! rid = Some a -> (length (responses_of a) <= 1)%nat.

End OrchestrationEngine.

(* ===================================================================== *)
(** * Executable instances of the interfaces *)
(* ===================================================================== *)

(** Instances of [PyLib], [KeyManager] and [AttestationClient] on which
    the model runs.  [dumps], [loads], [b64enc], [b64dec], [isoformat]
    and [fromisoformat] follow the Python functions on ASCII text,
    integers, short decimal fractions and the timestamp shapes that
    [isoformat()] prints; the cipher, the signature and the attestation
    check are stand-ins with the same interface, not the algorithms. *)
Module Ref.

Definition dquote : ascii := ascii_of_nat 34.
Definition backslash : ascii := ascii_of_nat 92.
Definition quoted (s : string) : string :=
  String dquote (s +:+ String dquote EmptyString).

(** ** Decimal text *)

Definition digit_val (a : ascii) : option Z :=
  let n := Z.of_nat (nat_of_ascii a) in
  if (48 <=? n) && (n <=? 57) then Some (n - 48) else None.

(** Reads a run of digits; returns its value, its length and the rest. *)
Fixpoint read_digits (s : string) (acc : Z) (len : nat)
    : Z * nat * string :=
  match s with
  | String a s' =>
      match digit_val a with
      | Some d => read_digits s' (10 * acc + d) (S len)
      | None => (acc, len, s)
      end
  | EmptyString => (acc, len, s)
  end.

(** [n] in decimal, padded with zeros to [width] characters. *)
Definition pad (width : nat) (n : Z) : string :=
  let t := PyStr.str_int n in
  PyStr.join "" (replicate (width - String.length t) "0") +:+ t.

(** The digits of a fraction [n/d] with [0 <= n < d], at most [k] of
    them, stopping when the expansion ends. *)
Fixpoint frac_digits (k : nat) (n d : Z) : string :=
  match k with
  | O => ""
  | S k' =>
      if n =? 0 then ""
      else PyStr.str_int (10 * n / d) +:+ frac_digits k' (10 * n mod d) d
  end.

(** [repr] of a float, in positional notation. *)
Definition float_repr (q : Q) : string :=
  let n := Qnum q in
  let d := Zpos (Qden q) in
  let a := Z.abs n in
  let f := frac_digits 17 (a mod d) d in
  (if n <? 0 then "-" else "") +:+ PyStr.str_int (a / d) +:+ "."
  +:+ (if String.eqb f "" then "0" else f).

(** ** json *)

Definition hex_digit (n : Z) : ascii :=
  match String.get (Z.to_nat n) "0123456789abcdef" with
  | Some c => c
  | None => "0"%char
  end.

(** The escape of one character under [ensure_ascii]. *)
Definition escape_char (a : ascii) : string :=
  let n := Z.of_nat (nat_of_ascii a) in
  if Ascii.eqb a dquote then String backslash (String dquote "")
  else if Ascii.eqb a backslash then String backslash (String backslash "")
  else if n =? 10 then "\n"
  else if n =? 13 then "\r"
  else if n =? 9 then "\t"
  else if n =? 8 then "\b"
  else if n =? 12 then "\f"
  else if (n <? 32) || (126 <? n)
  then "\u00" +:+ String (hex_digit (n / 16)) (String (hex_digit (n mod 16)) "")
  else String a "".

Fixpoint escape (s : string) : string :=
  match s with
  | EmptyString => ""
  | String a s' => escape_char a +:+ escape s'
  end.

(** [json.dumps(v, sort_keys=sort_keys)] *)
Fixpoint dumps (sort_keys : bool) (v : pyval) : string :=
  match v with
  | PNone => "null"
  | PBool true => "true"
  | PBool false => "false"
  | PInt n => PyStr.str_int n
  | PFloat q => float_repr q
  | PStr s => quoted (escape s)
  | PList l => "[" +:+ PyStr.join ", " (map (dumps sort_keys) l) +:+ "]"
  | PDict d =>
      let items :=
        map (fun kv : string * pyval =>
               let (k, x) := kv in (k, dumps sort_keys x)) d in
      let items := if sort_keys then sort_items items else items in
      "{" +:+ PyStr.join ", "
                (map (fun kt : string * string =>
                        quoted (escape (fst kt)) +:+ ": " +:+ snd kt) items)
      +:+ "}"
  end.

Definition is_ws (a : ascii) : bool :=
  let n := nat_of_ascii a in
  ((n =? 32) || (n =? 9) || (n =? 10) || (n =? 13))%nat.

Fixpoint skip_ws (s : string) : string :=
  match s with
  | String a s' => if is_ws a then skip_ws s' else s
  | EmptyString => s
  end.

Definition hex_val (a : ascii) : option Z :=
  let n := Z.of_nat (nat_of_ascii a) in
  if (48 <=? n) && (n <=? 57) then Some (n - 48)
  else if (97 <=? n) && (n <=? 102) then Some (n - 87)
  else if (65 <=? n) && (n <=? 70) then Some (n - 55)
  else None.

Definition ascii_of_Z (n : Z) : ascii := ascii_of_nat (Z.to_nat n).

(** The character an escape letter stands for. *)
Definition unescape (b : ascii) : option ascii :=
  if Ascii.eqb b dquote then Some dquote
  else if Ascii.eqb b backslash then Some backslash
  else if Ascii.eqb b "/" then Some "/"%char
  else if Ascii.eqb b "n" then Some (ascii_of_nat 10)
  else if Ascii.eqb b "r" then Some (ascii_of_nat 13)
  else if Ascii.eqb b "t" then Some (ascii_of_nat 9)
  else if Ascii.eqb b "b" then Some (ascii_of_nat 8)
  else if Ascii.eqb b "f" then Some (ascii_of_nat 12)
  else None.

(** Reads a string literal after its opening quote. *)
Fixpoint read_string (s : string) : option (string * string) :=
  match s with
  | EmptyString => None
  | String a s' =>
      if Ascii.eqb a dquote then Some ("", s')
      else if Ascii.eqb a backslash then
        match s' with
        | String "u" (String h1 (String h2 (String h3 (String h4 s'')))) =>
            v1 ← hex_val h1; v2 ← hex_val h2;
            v3 ← hex_val h3; v4 ← hex_val h4;
            if (v1 =? 0) && (v2 =? 0) then
              '(t, r) ← read_string s'';
              Some (String (ascii_of_Z (16 * v3 + v4)) t, r)
            else None
        | String b s'' =>
            c ← unescape b;
            '(t, r) ← read_string s'';
            Some (String c t, r)
        | EmptyString => None
        end
      else
        '(t, r) ← read_string s';
        Some (String a t, r)
  end.

(** Reads a number: an integer, or a decimal fraction. *)
Definition read_number (s : string) : option (pyval * string) :=
  let '(neg, s1) :=
    match s with
    | String "-" s' => (true, s')
    | _ => (false, s)
    end in
  let '(n, len, s2) := read_digits s1 0 0 in
  let sign := if neg then -1 else 1 in
  if (len =? 0)%nat then None
  else
    match s2 with
    | String "." s3 =>
        let '(f, flen, s4) := read_digits s3 0 0 in
        if (flen =? 0)%nat then None
        else
          let scale := 10 ^ Z.of_nat flen in
          Some (PFloat (Qmake (sign * (n * scale + f)) (Z.to_pos scale)), s4)
    | _ => Some (PInt (sign * n), s2)
    end.

(** The recursive-descent reader; [fuel] bounds the nesting and the
    number of items. *)
Fixpoint read_value (fuel : nat) (s : string) : option (pyval * string) :=
  match fuel with
  | O => None
  | S f =>
      match skip_ws s with
      | EmptyString => None
      | String c rest =>
          if Ascii.eqb c "[" then
            match skip_ws rest with
            | String "]" r => Some (PList [], r)
            | _ => read_elements f rest []
            end
          else if Ascii.eqb c "{" then
            match skip_ws rest with
            | String "}" r => Some (PDict [], r)
            | _ => read_members f rest []
            end
          else if Ascii.eqb c dquote then
            '(t, r) ← read_string rest; Some (PStr t, r)
          else if String.prefix "null" (String c rest)
          then Some (PNone, String.substring 3 (String.length rest) rest)
          else if String.prefix "true" (String c rest)
          then Some (PBool true, String.substring 3 (String.length rest) rest)
          else if String.prefix "false" (String c rest)
          then Some (PBool false, String.substring 4 (String.length rest) rest)
          else read_number (String c rest)
      end
  end
with read_elements (fuel : nat) (s : string) (acc : list pyval)
    : option (pyval * string) :=
  match fuel with
  | O => None
  | S f =>
      '(v, r) ← read_value f s;
      match skip_ws r with
      | String "," r' => read_elements f r' (acc ++ [v])%list
      | String "]" r' => Some (PList (acc ++ [v])%list, r')
      | _ => None
      end
  end
with read_members (fuel : nat) (s : string) (acc : pydict)
    : option (pyval * string) :=
  match fuel with
  | O => None
  | S f =>
      match skip_ws s with
      | String q r =>
          if Ascii.eqb q dquote then
            '(k, r1) ← read_string r;
            match skip_ws r1 with
            | String ":" r2 =>
                '(v, r3) ← read_value f r2;
                match skip_ws r3 with
                | String "," r4 => read_members f r4 (set_key k v acc)
                | String "}" r4 => Some (PDict (set_key k v acc), r4)
                | _ => None
                end
            | _ => None
            end
          else None
      | EmptyString => None
      end
  end.

(** [json.loads(s)] *)
Definition loads (s : string) : option pyval :=
  '(v, r) ← read_value (2 * String.length s + 2) s;
  if String.eqb (skip_ws r) "" then Some v else None.

(** ** base64 *)

Definition b64_char (n : Z) : ascii :=
  if n <? 26 then ascii_of_Z (65 + n)
  else if n <? 52 then ascii_of_Z (97 + (n - 26))
  else if n <? 62 then ascii_of_Z (48 + (n - 52))
  else if n =? 62 then "+"%char
  else "/"%char.

Definition b64_val (a : ascii) : option Z :=
  let n := Z.of_nat (nat_of_ascii a) in
  if (65 <=? n) && (n <=? 90) then Some (n - 65)
  else if (97 <=? n) && (n <=? 122) then Some (n - 97 + 26)
  else if (48 <=? n) && (n <=? 57) then Some (n - 48 + 52)
  else if n =? 43 then Some 62
  else if n =? 47 then Some 63
  else None.

Definition code (a : ascii) : Z := Z.of_nat (nat_of_ascii a).

(** [base64.b64encode] *)
Fixpoint b64enc (s : string) : string :=
  match s with
  | EmptyString => ""
  | String a EmptyString =>
      String (b64_char (code a / 4))
        (String (b64_char (code a mod 4 * 16)) "==")
  | String a (String b EmptyString) =>
      String (b64_char (code a / 4))
        (String (b64_char (code a mod 4 * 16 + code b / 16))
           (String (b64_char (code b mod 16 * 4)) "="))
  | String a (String b (String c rest)) =>
      String (b64_char (code a / 4))
        (String (b64_char (code a mod 4 * 16 + code b / 16))
           (String (b64_char (code b mod 16 * 4 + code c / 64))
              (String (b64_char (code c mod 64)) (b64enc rest))))
  end.

(** [base64.b64decode] on text made of whole groups of four characters. *)
Fixpoint b64dec (s : string) : option string :=
  match s with
  | EmptyString => Some ""
  | String a (String b (String c (String d rest))) =>
      va ← b64_val a;
      vb ← b64_val b;
      let b1 := ascii_of_Z (va * 4 + vb / 16) in
      if Ascii.eqb c "=" then
        if Ascii.eqb d "=" && String.eqb rest "" then Some (String b1 "")
        else None
      else
        vc ← b64_val c;
        let b2 := ascii_of_Z (vb mod 16 * 16 + vc / 4) in
        if Ascii.eqb d "=" then
          if String.eqb rest "" then Some (String b1 (String b2 "")) else None
        else
          vd ← b64_val d;
          t ← b64dec rest;
          Some (String b1 (String b2 (String (ascii_of_Z (vc mod 4 * 64 + vd)) t)))
  | _ => None
  end.

(** ** A stand-in for AES-GCM *)

Definition byte_at (i : nat) (s : string) : Z :=
  match String.get (i mod String.length s) s with
  | Some a => code a
  | None => 0
  end.

(** Combines every byte with a byte that depends on the key, the IV
    and the position. *)
Fixpoint mask (key iv : string) (i : nat) (s : string) : string :=
  match s with
  | EmptyString => ""
  | String a s' =>
      String (ascii_of_Z
                (Z.lxor (code a)
                   ((byte_at i key + 2 * byte_at i iv + Z.of_nat i) mod 256)))
             (mask key iv (S i) s')
  end.

Fixpoint digest (s : string) (acc : Z) : Z :=
  match s with
  | EmptyString => acc
  | String a s' => digest s' ((acc * 31 + code a + 1) mod 65521)
  end.

(** A 16-byte tag over key, IV and ciphertext. *)
Definition tag_of (key iv ciphertext : string) : string :=
  let h := digest ciphertext (digest iv (digest key 7)) in
  string_of_list_ascii
    (map (fun j => ascii_of_Z ((h * (Z.of_nat j + 3) + Z.of_nat j) mod 256))
       (seq 0 16)).

Definition gcm_encrypt (key iv plaintext : string) : string * string :=
  let ciphertext := mask key iv 0 plaintext in
  (ciphertext, tag_of key iv ciphertext).

(** Rejects a key that is not 16, 24 or 32 bytes long, an empty IV and a
    tag that does not match. *)
Definition gcm_decrypt (key iv tag ciphertext : string) : option string :=
  let klen := String.length key in
  if negb ((klen =? 16) || (klen =? 24) || (klen =? 32))%nat then None
  else if (String.length iv =? 0)%nat then None
  else if negb (String.eqb tag (tag_of key iv ciphertext)) then None
  else Some (mask key iv 0 ciphertext).

(** ** datetime *)

(** Days since 1970-01-01 of a date of the proleptic Gregorian calendar. *)
Definition days_from_civil (y m d : Z) : Z :=
  let y := if m <=? 2 then y - 1 else y in
  let era := y / 400 in
  let yoe := y - era * 400 in
  let doy := (153 * (if 2 <? m then m - 3 else m + 9) + 2) / 5 + d - 1 in
  let doe := yoe * 365 + yoe / 4 - yoe / 100 + doy in
  era * 146097 + doe - 719468.

(** The date of a count of days since 1970-01-01. *)
Definition civil_from_days (z : Z) : Z * Z * Z :=
  let z := z + 719468 in
  let era := z / 146097 in
  let doe := z - era * 146097 in
  let yoe := (doe - doe / 1460 + doe / 36524 - doe / 146096) / 365 in
  let y := yoe + era * 400 in
  let doy := doe - (365 * yoe + yoe / 4 - yoe / 100) in
  let mp := (5 * doy + 2) / 153 in
  let d := doy - (153 * mp + 2) / 5 + 1 in
  let m := if mp <? 10 then mp + 3 else mp - 9 in
  (if m <=? 2 then y + 1 else y, m, d).

Definition usec_per_day : Z := 86400 * usec.

(** [datetime.isoformat()] of the naive datetime that lies [t]
    microseconds after 1970-01-01T00:00:00. *)
Definition datetime_isoformat (t : Z) : string :=
  let '(y, m, d) := civil_from_days (t / usec_per_day) in
  let r := t mod usec_per_day in
  let s := r / usec in
  let us := r mod usec in
  pad 4 y +:+ "-" +:+ pad 2 m +:+ "-" +:+ pad 2 d +:+ "T"
  +:+ pad 2 (s / 3600) +:+ ":" +:+ pad 2 (s / 60 mod 60) +:+ ":"
  +:+ pad 2 (s mod 60)
  +:+ (if us =? 0 then "" else "." +:+ pad 6 us).

(** Reads exactly [k] digits. *)
Definition read_fixed (k : nat) (s : string) : option (Z * string) :=
  let '(n, len, r) := read_digits (String.substring 0 k s) 0 0 in
  if (len =? k)%nat
  then Some (n, String.substring k (String.length s) s) else None.

(** Reads one given character. *)
Definition expect (c : ascii) (s : string) : option string :=
  match s with
  | String a s' => if Ascii.eqb a c then Some s' else None
  | EmptyString => None
  end.

Definition is_leap (y : Z) : bool :=
  ((y mod 4 =? 0) && negb (y mod 100 =? 0)) || (y mod 400 =? 0).

Definition days_in_month (y m : Z) : Z :=
  if m =? 2 then (if is_leap y then 29 else 28)
  else if (m =? 4) || (m =? 6) || (m =? 9) || (m =? 11) then 30
  else 31.

(** The optional UTC offset at the end of a timestamp: [+HH:MM] or
    [-HH:MM]. *)
Definition read_offset (s : string) : option unit :=
  match s with
  | EmptyString => Some tt
  | String c s1 =>
      if Ascii.eqb c "+" || Ascii.eqb c "-" then
        '(hh, s2) ← read_fixed 2 s1;
        s3 ← expect ":" s2;
        '(mm, s4) ← read_fixed 2 s3;
        if (hh <? 24) && (mm <? 60) && String.eqb s4 "" then Some tt else None
      else None
  end.

(** [datetime.fromisoformat(s)] as the count of microseconds of its
    wall-clock fields, for [YYYY-MM-DD?HH:MM:SS[.fff[fff]][+HH:MM]]. *)
Definition datetime_fromisoformat (s : string) : option Z :=
  '(y, s) ← read_fixed 4 s;
  s ← expect "-" s;
  '(m, s) ← read_fixed 2 s;
  s ← expect "-" s;
  '(d, s) ← read_fixed 2 s;
  match s with
  | EmptyString => None
  | String _ s =>
      '(hh, s) ← read_fixed 2 s;
      s ← expect ":" s;
      '(mi, s) ← read_fixed 2 s;
      s ← expect ":" s;
      '(ss, s) ← read_fixed 2 s;
      '(us, s) ←
        match s with
        | String "." s' =>
            match read_fixed 6 s' with
            | Some r => Some r
            | None => '(ms, r) ← read_fixed 3 s'; Some (ms * 1000, r)
            end
        | _ => Some (0, s)
        end;
      _ ← read_offset s;
      if (1 <=? y) && (1 <=? m) && (m <=? 12) && (1 <=? d)
         && (d <=? days_in_month y m) && (hh <? 24) && (mi <? 60)
         && (ss <? 60)
      then Some (days_from_civil y m d * usec_per_day
                 + ((hh * 60 + mi) * 60 + ss) * usec + us)
      else None
  end.

(** ** str *)

(** [str(v)]; strings inside containers are shown in single quotes. *)
Fixpoint repr (v : pyval) : string :=
  match v with
  | PNone => "None"
  | PBool true => "True"
  | PBool false => "False"
  | PInt n => PyStr.str_int n
  | PFloat q => float_repr q
  | PStr s => "'" +:+ s +:+ "'"
  | PList l => "[" +:+ PyStr.join ", " (map repr l) +:+ "]"
  | PDict d =>
      "{" +:+ PyStr.join ", "
                (map (fun kv : string * pyval =>
                        let (k, x) := kv in "'" +:+ k +:+ "': " +:+ repr x) d)
      +:+ "}"
  end.

Definition str (v : pyval) : string :=
  match v with
  | PStr s => s
  | _ => repr v
  end.

(** ** The instances *)

Definition lib : PyLib :=
  {| py_str := str;
     json_dumps := fun sort_keys v => Some (dumps sort_keys v);
     json_loads := loads;
     b64encode := b64enc;
     b64decode := b64dec;
     aes_gcm_encrypt := gcm_encrypt;
     aes_gcm_decrypt := gcm_decrypt;
     isoformat := datetime_isoformat;
     fromisoformat := datetime_fromisoformat |}.

Definition pem : string :=
  "-----BEGIN PUBLIC KEY-----REFERENCE-----END PUBLIC KEY-----".

(** A stand-in for the signature: the encoded digest of the text under a
    fixed secret. *)
Definition sign (message : string) : string :=
  b64enc (pad 5 (digest message 40503) +:+ pad 5 (digest message 1)).

Definition key_manager : KeyManager :=
  {| sign_message := sign;
     verify_signature := fun message signature public_key =>
       str_eq (sign message) signature && str_eq pem public_key;
     get_public_key_pem := pem;
     get_key_fingerprint := b64enc (pad 5 (digest pem 5)) |}.

(** A development-mode verifier: admits the quotes that start with
    [tdx:] and reports one measurement. *)
Definition attestation_client : AttestationClient :=
  {| verify_attestation_quote := fun quote =>
       match quote with
       | PStr q =>
           if String.prefix "tdx:" q
           then Some (true, [("measurements", PDict [("mrtd", PStr q)])])
           else Some (false, [("error", PStr "Invalid attestation quote")])
       | _ => None
       end |}.

End Ref.

(* ===================================================================== *)
(** * Concrete data *)
(* ===================================================================== *)

Module Scenario.

Import SecureMessaging.

(** 2024-01-01T12:00:00 *)
Definition noon : Z := 1704110400000000.

Definition seconds (n : Z) : Z := n * usec.

Definition draws0 : draws :=
  {| clock := noon;
     token_hex := "00112233445566778899aabbccddeeff";
     aes_key := "0123456789abcdef0123456789abcdef";
     aes_iv := "abcdefghijkl" |}.

Definition payload0 : pyval :=
  PDict [("task_description", PStr "Compute Q4 ROI");
         ("context", PDict [("marketing_spend", PInt 50000)]);
         ("data_requirements", PList [PStr "financial_data"]);
         ("priority", PStr "normal");
         ("timeout_seconds", PInt 60)].

(** The inner message of the envelopes below. *)
Definition message0 : pyval :=
  inner_message Ref.lib "fin-1" "hub" "collaboration_request" payload0 draws0.

(** An envelope as [create_secure_message] builds it without a recipient
    key, and one built with a recipient key. *)
Definition signed0 : option pydict :=
  create_secure_message Ref.lib Ref.key_manager "fin-1" draws0
    "hub" "collaboration_request" payload0 None.

Definition sealed0 : option pydict :=
  create_secure_message Ref.lib Ref.key_manager "fin-1" draws0
    "hub" "collaboration_request" payload0 (Some Ref.pem).

(** The same message stamped 100 seconds after [noon]. *)
Definition draws_ahead : draws :=
  {| clock := noon + seconds 100;
     token_hex := token_hex draws0;
     aes_key := aes_key draws0;
     aes_iv := aes_iv draws0 |}.

Definition signed_ahead : option pydict :=
  create_secure_message Ref.lib Ref.key_manager "fin-1" draws_ahead
    "hub" "collaboration_request" payload0 None.

(** An encrypted envelope from a sender that serializes the message
    without sorting its keys, signs that text and encrypts it. *)
Definition unsorted_text : string := Ref.dumps false message0.

Definition sealed_unsorted : option pydict :=
  encrypted_payload ←
    _encrypt_payload Ref.lib (aes_key draws0) (aes_iv draws0) unsorted_text;
  Some [("encrypted", PBool true);
        ("encrypted_payload", PStr encrypted_payload);
        ("signature", PStr (Ref.sign unsorted_text));
        ("sender_public_key", PStr Ref.pem);
        ("sender_fingerprint",
         PStr (get_key_fingerprint Ref.key_manager))].

(** The same ciphertext with a signature over the sorted serialization
    of the message instead. *)
Definition sealed_unsorted_sorted_sig : option pydict :=
  set_key "signature" (PStr (Ref.sign (Ref.dumps true message0)))
    <$> sealed_unsorted.

(** The envelopes themselves. *)
Definition signed0_env : pydict := default [] signed0.
Definition signed_ahead_env : pydict := default [] signed_ahead.
Definition sealed_unsorted_env : pydict := default [] sealed_unsorted.
Definition sealed_unsorted_sorted_sig_env : pydict :=
  default [] sealed_unsorted_sorted_sig.

(** ** Registrations *)

Import AgentRegistry VMCommunication OrchestrationEngine.

Definition reg_fin : AgentRegistration :=
  {| reg_agent_id := "fin-1";
     reg_agent_type := "finance";
     reg_capabilities := ["roi_calculation"; "financial_analysis"];
     reg_endpoint := "http://localhost:8081";
     reg_attestation_endpoint := "http://localhost:29344";
     reg_attestation_data :=
       [("quote", PStr "tdx:finance"); ("public_key", PStr "pem:finance")] |}.

Definition reg_mkt : AgentRegistration :=
  {| reg_agent_id := "mkt-1";
     reg_agent_type := "marketing";
     reg_capabilities := ["campaign_performance"];
     reg_endpoint := "http://localhost:8082";
     reg_attestation_endpoint := "http://localhost:29345";
     reg_attestation_data :=
       [("quote", PStr "tdx:marketing");
        ("public_key", PStr "pem:marketing")] |}.

(** Client [acme] registers a finance agent. *)
Definition one_agent : list AgentRegistry.call :=
  [AgentRegistry.CallRegister noon reg_fin "acme"].

(** Client [acme] registers the same finance agent twice. *)
Definition same_agent_twice : list AgentRegistry.call :=
  [AgentRegistry.CallRegister noon reg_fin "acme";
   AgentRegistry.CallRegister (noon + seconds 1) reg_fin "acme"].

(** Client [acme] registers a finance and a marketing agent. *)
Definition two_agents : list AgentRegistry.call :=
  [AgentRegistry.CallRegister noon reg_fin "acme";
   AgentRegistry.CallRegister noon reg_mkt "acme"].

Definition acme2 : registry :=
  AgentRegistry.run Ref.attestation_client two_agents.

(** ** Routing *)

(** The endpoints of a development deployment. *)
Definition endpoints : gmap string string :=
  {[ "finance" := "http://localhost:8081";
     "marketing" := "http://localhost:8082" ]}.

Definition roi_request : OrchestrationRequest :=
  {| query := "Compute Q4 ROI";
     requesting_agent := None;
     context := [("marketing_spend", PInt 50000)];
     data_requirements := ["financial_data"];
     req_priority := "normal";
     timeout_seconds := 60 |}.

Definition accepted : http_outcome :=
  HttpOk (PDict [("status", PStr "accepted")]).

Definition inputs1 : route_inputs :=
  {| now := noon + seconds 10;
     uuid_hex := "0a1b2c3d4e5f60718293a4b5c6d7e8f9";
     rand_time := 3; rand_conf := 9 # 10; outcome := accepted |}.

Definition inputs2 : route_inputs :=
  {| now := noon + seconds 20;
     uuid_hex := "f9e8d7c6b5a4938271605f4e3d2c1b0a";
     rand_time := 2; rand_conf := 85 # 100; outcome := accepted |}.

Definition inputs3 : route_inputs :=
  {| now := noon + seconds 30;
     uuid_hex := "00000000111111112222222233333333";
     rand_time := 4; rand_conf := 8 # 10; outcome := accepted |}.

(** The response of the finance agent with confidence 0.6, and a second
    response with confidence 0.85. *)
Definition low_confidence : pydict :=
  [("agent_id", PStr "fin-1"); ("agent_type", PStr "finance");
   ("result", PDict [("confidence_score", PFloat (6 # 10));
                     ("summary", PStr "ROI is 25%")])].

Definition high_confidence : pydict :=
  [("agent_id", PStr "mkt-1"); ("agent_type", PStr "marketing");
   ("result", PDict [("confidence_score", PFloat (85 # 100));
                     ("summary", PStr "ROI is 27%")])].

(** Scenario S2 up to the second response: the request is routed, and
    the first response comes back with low confidence. *)
Definition escalated : list OrchestrationEngine.call :=
  [CallRoute endpoints acme2 inputs1 roi_request "acme";
   CallResponse endpoints acme2 inputs2 "route_0a1b2c3d" low_confidence].

(** The same routing inputs with an exchange that times out. *)
Definition inputs_timeout : route_inputs :=
  {| now := now inputs1; uuid_hex := uuid_hex inputs1;
     rand_time := rand_time inputs1; rand_conf := rand_conf inputs1;
     outcome := HttpTimeout |}.

(** A response whose [result] is [null]. *)
Definition null_result : pydict :=
  [("agent_id", PStr "fin-1"); ("agent_type", PStr "finance");
   ("result", PNone)].

(** The two entries of the response history at the end of S2. *)
Definition history2 : list pydict :=
  [response_entry Ref.lib (noon + seconds 20) low_confidence;
   response_entry Ref.lib (noon + seconds 30) high_confidence].

End Scenario.

(* ===================================================================== *)
(** * Notions used to state further properties of the registry *)
(* ===================================================================== *)

Module RegistryNotions.

Import AgentRegistry.

(** The ids of a list that have a record, each with its record, in the
    order of the list: what the loops over
    [self.client_agents.get(client_id, [])] visit. *)
Definition records_of (r : registry) (ids : list string)
    : list (string * agent) :=
  omap (fun id => pair id <$> agents r !! id) ids.

(** The time since an agent was last seen. *)
Definition age (now : Z) (a : agent) : Z := now - last_seen a.

(** The three buckets of [check_agent_health]. *)
Inductive health_class : Type := Healthy | Unhealthy | Inactive.

#[global] Instance health_class_eq_dec : EqDecision health_class.
Proof. solve_decision. Defined.

(** The bucket of an agent by its age: under 5 minutes, under 15
    minutes, or more. *)
Definition classify (now : Z) (a : agent) : health_class :=
  if age now a <? minutes 5 then Healthy
  else if age now a <? minutes 15 then Unhealthy
  else Inactive.

(** The entries of one bucket for a list of ids. *)
Definition bucket (c : health_class) (now : Z) (r : registry)
    (ids : list string) : list health_entry :=
  (fun p => {| h_agent_id := fst p; h_agent_type := agent_type (snd p);
               h_last_seen := last_seen (snd p) |})
    <$> filter (fun p => classify now (snd p) = c) (records_of r ids).

(** [cur] is what a sweep of [r] over the ids [swept] leaves: the same
    index, and every record as [r] has it, marked inactive when its id
    was swept and its bucket is the inactive one. *)
Definition swept_to (now : Z) (r : registry) (swept : list string)
    (cur : registry) : Prop :=
  client_agents cur = client_agents r
  /\ forall k,
       agents cur !! k
       = (fun a => if decide (k ∈ swept /\ classify now a = Inactive)
                   then set_status INACTIVE a else a) <$> agents r !! k.

(** A record as an admitted registration leaves it, up to heartbeats and
    sweeps: it carries a quote and a key, the attestation client accepts
    the quote and the measurements are the ones it reported, and the
    status is [verified] or [inactive]. *)
Definition attested (ac : AttestationClient) (a : agent) : Prop :=
  truthy (attestation_quote a) = true
  /\ truthy (public_key a) = true
  /\ (exists vr,
        verify_attestation_quote ac (attestation_quote a) = Some (true, vr)
        /\ measurements a = get_default "measurements" (PDict []) vr)
  /\ (status a = VERIFIED \/ status a = INACTIVE).

(** The directory entry of a record. *)
Definition directory_entry_of (now : Z) (a : agent) : directory_entry :=
  {| d_agent_id := agent_id a; d_agent_type := agent_type a;
     d_capabilities := capabilities a; d_endpoint := endpoint a;
     d_status := if _is_agent_online now a then "online" else "offline" |}.

(** Whether a call can replace or delete the record of [id]: a
    registration of that id, or its removal. *)
Definition touches_record (id : string) (c : call) : bool :=
  match c with
  | CallRegister _ d _ => String.eqb (reg_agent_id d) id
  | CallRemove k _ => String.eqb k id
  | _ => false
  end.

End RegistryNotions.

(* ===================================================================== *)
(** * shared/secure_messaging.py: payloads that hold tuples *)
(* ===================================================================== *)

Module JsonObjects.

Import SecureMessaging.

(** The Python values [json.dumps] accepts, with dictionaries keyed by
    texts: the JSON-shaped values, and tuples. *)
Inductive pyobj : Type :=
| ONone
| OBool (b : bool)
| OInt (n : Z)
| OFloat (q : Q)
| OStr (s : string)
| OList (l : list pyobj)
| OTuple (l : list pyobj)
| ODict (d : list (string * pyobj)).

(** The value [json.dumps] writes for an object: a tuple is written as
    a list, everything else as it is. *)
Fixpoint json_image (o : pyobj) : pyval :=
  match o with
  | ONone => PNone
  | OBool b => PBool b
  | OInt n => PInt n
  | OFloat q => PFloat q
  | OStr s => PStr s
  | OList l => PList (map json_image l)
  | OTuple l => PList (map json_image l)
  | ODict d =>
      PDict (map (fun kv : string * pyobj =>
                    let (k, x) := kv in (k, json_image x)) d)
  end.

(** A JSON-shaped value as an object: what [json.loads] returns holds
    lists and no tuples. *)
Fixpoint of_json (v : pyval) : pyobj :=
  match v with
  | PNone => ONone
  | PBool b => OBool b
  | PInt n => OInt n
  | PFloat q => OFloat q
  | PStr s => OStr s
  | PList l => OList (map of_json l)
  | PDict d =>
      ODict (map (fun kv : string * pyval =>
                    let (k, x) := kv in (k, of_json x)) d)
  end.

(** The envelope [create_secure_message] builds: signed, holding the
    message object itself, or encrypted, holding texts only. *)
Inductive envelope : Type :=
| Plain (message : pyobj) (signature sender_public_key fingerprint : string)
| Sealed (secure_message : pydict).

Section WithLibraries.

Context (lib : PyLib) (key_manager : KeyManager).

(** The message [create_secure_message] builds around a payload. *)
Definition message_object (agent_id recipient_id message_type : string)
    (payload : pyobj) (r : draws) : pyobj :=
  ODict [("sender_id", OStr agent_id);
         ("recipient_id", OStr recipient_id);
         ("message_type", OStr message_type);
         ("timestamp", OStr (_get_timestamp lib (clock r)));
         ("nonce", OStr (token_hex r));
         ("payload", payload)].

(** [create_secure_message] for a payload that may hold tuples.
    [json.dumps(message, sort_keys=True)] is the text of the JSON image
    of the message. *)
Definition create_secure_message (agent_id : string) (r : draws)
    (recipient_id message_type : string) (payload : pyobj)
    (recipient_public_key : option string) : option envelope :=
  let message := message_object agent_id recipient_id message_type payload r in
  message_json ← json_dumps lib true (json_image message);
  let signature := sign_message key_manager message_json in
  if encrypts recipient_public_key
  then
    encrypted_payload ← _encrypt_payload lib (aes_key r) (aes_iv r) message_json;
    Some (Sealed
            [("encrypted", PBool true);
             ("encrypted_payload", PStr encrypted_payload);
             ("signature", PStr signature);
             ("sender_public_key", PStr (get_public_key_pem key_manager));
             ("sender_fingerprint", PStr (get_key_fingerprint key_manager))])
  else
    Some (Plain message signature (get_public_key_pem key_manager)
            (get_key_fingerprint key_manager)).

End WithLibraries.

End JsonObjects.

(* ===================================================================== *)
(** * shared/secure_messaging.py: the collaboration messages *)
(* ===================================================================== *)

Module CollaborationMessages.

Import SecureMessaging.

Section WithLibraries.

Context (lib : PyLib) (key_manager : KeyManager).

(** [create_secure_message] called without [recipient_public_key], for a
    recipient that is any value: [create_collaboration_response] passes
    what it finds under [requester_id].  Only the branch that signs and
    does not encrypt is taken. *)
Definition create_signed_message (agent_id : string) (r : draws)
    (recipient_id : pyval) (message_type : string) (payload : pyval)
    : option pydict :=
  let message :=
    PDict [("sender_id", PStr agent_id);
           ("recipient_id", recipient_id);
           ("message_type", PStr message_type);
           ("timestamp", PStr (_get_timestamp lib (clock r)));
           ("nonce", PStr (token_hex r));
           ("payload", payload)] in
  message_json ← json_dumps lib true message;
  Some [("encrypted", PBool false);
        ("message", message);
        ("signature", PStr (sign_message key_manager message_json));
        ("sender_public_key", PStr (get_public_key_pem key_manager));
        ("sender_fingerprint", PStr (get_key_fingerprint key_manager))].

(** The payload of [create_collaboration_request]. *)
Definition request_payload (task_description : string) (context : pydict)
    (data_requirements : list string) : pyval :=
  PDict [("task_description", PStr task_description);
         ("context", PDict context);
         ("data_requirements", PList (PStr <$> data_requirements));
         ("priority", get_default "priority" (PStr "normal") context);
         ("timeout_seconds", get_default "timeout" (PInt 60) context)].

(** [create_collaboration_request] *)
Definition create_collaboration_request (agent_id : string) (r : draws)
    (target_agent task_description : string) (context : pydict)
    (data_requirements : list string) : option pydict :=
  create_secure_message lib key_manager agent_id r target_agent
    "collaboration_request"
    (request_payload task_description context data_requirements) None.

(** The payload of [create_collaboration_response]. *)
Definition response_payload (request_id : pyval) (result : pydict)
    (status : string) : pyval :=
  PDict [("request_id", request_id);
         ("status", PStr status);
         ("result", PDict result);
         ("processing_time_ms",
          get_default "processing_time_ms" (PInt 0) result);
         ("confidence_score",
          get_default "confidence_score" (PFloat 0) result)].

(** [create_collaboration_response] *)
Definition create_collaboration_response (agent_id : string) (r : draws)
    (request_id : pyval) (result : pydict) (status : string)
    : option pydict :=
  create_signed_message agent_id r
    (get_default "requester_id" (PStr "hub") result)
    "collaboration_response" (response_payload request_id result status).

End WithLibraries.

End CollaborationMessages.

(* ===================================================================== *)
(** * shared/agent_communication.py *)
(* ===================================================================== *)

Module AgentCommunication.

Import SecureMessaging CollaborationMessages.

(** What a registered handler does with a payload: it returns a result
    dictionary, as its type [Callable[[Dict], Dict]] says, or raises an
    exception whose text is [text]. *)
Inductive handler_outcome : Type :=
| Returned (result : pydict)
| HandlerRaised (text : string).

Definition handler : Type := pyval -> handler_outcome.

(** [self.collaboration_handlers.get(message_type)]: the handlers are
    registered under strings; a list or a dictionary is not hashable and
    makes the lookup raise. *)
Inductive handler_lookup : Type :=
| Found (h : handler)
| NoHandler
| LookupRaised.

Definition handler_for (handlers : gmap string handler)
    (message_type : pyval) : handler_lookup :=
  match message_type with
  | PStr s => match handlers !! s with Some h => Found h | None => NoHandler end
  | PList _ | PDict _ => LookupRaised
  | _ => NoHandler
  end.

(** What one call of [handle_collaboration_request] observes besides its
    argument: the clock when the envelope is verified, the measured
    processing time, the draws of the envelope that answers, and the
    texts [str(e)] of the exceptions the library calls raise, in the
    order in which they are caught. *)
Record handle_inputs : Type := {
  verified_at : Z;
  processing_time_ms : Z;
  answer_draws : draws;
  first_exception : string;
  second_exception : string
}.

Section WithLibraries.

(** [env_agent_id] is [os.getenv('AGENT_ID', 'unknown')], the sender the
    envelopes name; [agent_id] is [self.agent_id], the constructor's
    argument. *)
Context (lib : PyLib) (key_manager : KeyManager)
        (env_agent_id agent_id : string).

(** [_create_error_response] *)
Definition _create_error_response (r : draws) (error_message : string)
    : option pydict :=
  create_secure_message lib key_manager env_agent_id r "requester" "error"
    (PDict [("error", PStr error_message)]) None.

(** The metadata [handle_collaboration_request] writes into the result
    of the handler. *)
Definition with_metadata (i : handle_inputs) (sender_id : pyval)
    (result : pydict) : pydict :=
  set_key "requester_id" sender_id
    (set_key "agent_id" (PStr agent_id)
       (set_key "processing_time_ms" (PInt (processing_time_ms i)) result)).

(** The outer [except Exception] handler: an error response with the
    text of the exception.  [None] when building it raises as well, an
    exception the function does not catch. *)
Definition outer_handler (i : handle_inputs) (text : string)
    : option pydict :=
  _create_error_response (answer_draws i) text.

(** [handle_collaboration_request].  The second component records the
    call of a handler: the message type it was registered under and the
    payload it was given. *)
Definition handle_collaboration_request (handlers : gmap string handler)
    (i : handle_inputs) (secure_message : pydict)
    : option pydict * option (string * pyval) :=
  match verify_secure_message lib key_manager (verified_at i) secure_message
  with
  | Verified (PDict message) =>
      let message_type := get "message_type" message in
      let payload := get_default "payload" (PDict []) message in
      let sender_id := get "sender_id" message in
      match handler_for handlers message_type with
      | LookupRaised => (outer_handler i (first_exception i), None)
      | NoHandler =>
          (match _create_error_response (answer_draws i)
                   ("No handler for message type: "
                    +:+ py_str lib message_type) with
           | Some e => Some e
           | None => outer_handler i (first_exception i)
           end, None)
      | Found h =>
          let called :=
            match message_type with
            | PStr s => Some (s, payload)
            | _ => None
            end in
          match h payload with
          | Returned result =>
              match create_collaboration_response lib key_manager
                      env_agent_id (answer_draws i)
                      (get_default "nonce" (PStr "unknown") message)
                      (with_metadata i sender_id result) "completed" with
              | Some e => (Some e, called)
              | None =>
                  (match _create_error_response (answer_draws i)
                           ("Handler error: " +:+ first_exception i) with
                   | Some e => Some e
                   | None => outer_handler i (second_exception i)
                   end, called)
              end
          | HandlerRaised text =>
              (match _create_error_response (answer_draws i)
                       ("Handler error: " +:+ text) with
               | Some e => Some e
               | None => outer_handler i (first_exception i)
               end, called)
          end
      end
  | Verified _ => (outer_handler i (first_exception i), None)
  | _ =>
      (match _create_error_response (answer_draws i)
               "Invalid message signature" with
       | Some e => Some e
       | None => outer_handler i (first_exception i)
       end, None)
  end.

(** [_get_agent_port] *)
Definition _get_agent_port (agent_type : string) : Z :=
  if String.eqb agent_type "hub" then 8080
  else if String.eqb agent_type "finance" then 8081
  else if String.eqb agent_type "marketing" then 8082
  else if String.eqb agent_type "sales" then 8083
  else if String.eqb agent_type "ceo" then 8084
  else 8080.

(** [_get_attestation_port] *)
Definition _get_attestation_port (agent_type : string) : Z :=
  if String.eqb agent_type "hub" then 29343
  else if String.eqb agent_type "finance" then 29344
  else if String.eqb agent_type "marketing" then 29345
  else if String.eqb agent_type "sales" then 29346
  else if String.eqb agent_type "ceo" then 29347
  else 29343.

End WithLibraries.

End AgentCommunication.

(* ===================================================================== *)
(** * agents/base_agent.py *)
(* ===================================================================== *)

Module BaseAgent.

Import AgentCommunication.

(** What [process_collaboration_request], which every agent overrides,
    does with a task, a context and a data package. *)
Inductive process_outcome : Type :=
| Processed (result : pyval)
| ProcessRaised (text : string).

Section WithLibraries.

Context (lib : PyLib) (agent_id agent_type : string)
        (process_collaboration_request :
           pyval -> pyval -> pyval -> process_outcome).

(** [BaseAgent.handle_collaboration_request], the handler every agent
    registers for [collaboration_request].  [now] is the clock it reads
    and [attribute_error] the text of the exception raised when the
    payload is not a dictionary.  Every exception is caught. *)
Definition handle_collaboration_request (now : Z) (attribute_error : string)
    (payload : pyval) : pydict :=
  match payload with
  | PDict p =>
      match process_collaboration_request
              (get_default "task_description" (PStr "") p)
              (get_default "context" (PDict []) p)
              (get_default "data_package" (PDict []) p) with
      | Processed result =>
          [("status", PStr "completed");
           ("result", result);
           ("agent_id", PStr agent_id);
           ("agent_type", PStr agent_type);
           ("processed_at", PStr (isoformat lib now))]
      | ProcessRaised text =>
          [("status", PStr "failed");
           ("error", PStr text);
           ("agent_id", PStr agent_id);
           ("agent_type", PStr agent_type)]
      end
  | _ =>
      [("status", PStr "failed");
       ("error", PStr attribute_error);
       ("agent_id", PStr agent_id);
       ("agent_type", PStr agent_type)]
  end.

(** The handlers [register_handlers] gives to the communication layer. *)
Definition register_handlers (now : Z) (attribute_error : string)
    : gmap string handler :=
  {[ "collaboration_request" :=
       fun payload =>
         Returned (handle_collaboration_request now attribute_error payload) ]}.

End WithLibraries.

End BaseAgent.

(* ===================================================================== *)
(** * hub/services/vm_communication_manager.py: the endpoints *)
(* ===================================================================== *)

Module SpokeEndpoints.

Import VMCommunication.

(** The environment variables [VMCommunicationManager.__init__] reads;
    [None] for a variable that is not set. *)
Record environment : Type := {
  FINANCE_ENDPOINT : option string;
  MARKETING_ENDPOINT : option string;
  SALES_ENDPOINT : option string;
  DEVELOPMENT_MODE : option string
}.

(** [os.getenv('DEVELOPMENT_MODE', 'false').lower() == 'true'] *)
Definition development_mode (env : environment) : bool :=
  String.eqb (PyStr.lower (default "false" (DEVELOPMENT_MODE env))) "true".

(** [if endpoint: self.spoke_endpoints[kind] = endpoint] *)
Definition set_endpoint (kind : string) (endpoint : option string)
    (spoke_endpoints : gmap string string) : gmap string string :=
  match endpoint with
  | Some e => if String.eqb e "" then spoke_endpoints
              else <[kind := e]> spoke_endpoints
  | None => spoke_endpoints
  end.

(** [if kind not in self.spoke_endpoints: self.spoke_endpoints[kind] = e] *)
Definition set_default (kind e : string)
    (spoke_endpoints : gmap string string) : gmap string string :=
  match spoke_endpoints !! kind with
  | Some _ => spoke_endpoints
  | None => <[kind := e]> spoke_endpoints
  end.

(** [load_spoke_endpoints_from_env], on the empty table of [__init__]. *)
Definition load_spoke_endpoints_from_env (env : environment)
    : gmap string string :=
  let spoke_endpoints :=
    set_endpoint "sales" (SALES_ENDPOINT env)
      (set_endpoint "marketing" (MARKETING_ENDPOINT env)
         (set_endpoint "finance" (FINANCE_ENDPOINT env) ∅)) in
  if development_mode env
  then set_default "marketing" "http://localhost:8082"
         (set_default "finance" "http://localhost:8081" spoke_endpoints)
  else spoke_endpoints.

(** What a variable supplies: its value, unless it is unset or empty. *)
Definition supplied (endpoint : option string) : option string :=
  match endpoint with
  | Some e => if String.eqb e "" then None else Some e
  | None => None
  end.

(** [is_agent_configured] *)
Definition is_agent_configured (spoke_endpoints : gmap string string)
    (agent_type : string) : bool :=
  bool_decide (is_Some (spoke_endpoints !! agent_type)).

End SpokeEndpoints.

(* ===================================================================== *)
(** * Notions used to state properties of the engine *)
(* ===================================================================== *)

Module OrchestrationNotions.

Import UnifiedLLMManager OrchestrationEngine.

(** An item of a response history has none of the three keys the
    synthesis reads. *)
Definition bare (e : pydict) : Prop :=
  lookup_key "summary" e = None
  /\ lookup_key "recommendations" e = None
  /\ lookup_key "confidence_score" e = None.

(** Every response history of the table holds bare items only. *)
Definition entries_bare (s : gmap string active_request) : Prop :=
  forall rid a, s !! rid = Some a -> Forall bare (responses_of a).

(** The synthesis of a list of bare items. *)
Definition plain_synthesis : pydict :=
  [("executive_summary", PStr "Multi-agent analysis completed. ");
   ("recommendations", PList []);
   ("confidence_score", PFloat (80 # 100));
   ("areas_of_agreement",
    PList [PStr "Data accuracy confirmed"; PStr "Trends identified"]);
   ("areas_of_disagreement", PList []);
   ("synthesis_timestamp", PStr "2024-01-01T00:00:00Z")].


End OrchestrationNotions.

(* ===================================================================== *)
(** * hub/services/unified_llm_manager.py: document categorization *)
(* ===================================================================== *)

Module DocumentCategorization.

(** The dictionary [categorize_document] returns. *)
Record categorization : Type := {
  department : string;
  document_type : string;
  key_terms : list string;
  time_period : option string;
  summary : string;
  confidence_score : Q
}.

(** The terms the loop over key terms looks for, in its order. *)
Definition candidate_terms : list string :=
  ["budget"; "revenue"; "campaign"; "Q4"; "analysis"; "report"; "forecast"].

(** [_mock_categorize_document]; [rand_conf] is the value of
    [round(random.uniform(0.85, 0.95), 2)]. *)
Definition _mock_categorize_document (rand_conf : Q)
    (text_content filename : string) : categorization :=
  let text_lower := PyStr.lower text_content in
  let filename_lower := PyStr.lower filename in
  let department :=
    if PyStr.any_word_in ["revenue"; "expense"; "budget"; "financial"; "roi"]
         text_lower
    then "Finance"
    else if PyStr.any_word_in ["campaign"; "marketing"; "customer"; "brand"]
              text_lower
    then "Marketing"
    else if PyStr.any_word_in ["sales"; "pipeline"; "leads"; "quota"]
              text_lower
    then "Sales"
    else "Operations" in
  let doc_type :=
    if PyStr.contains "xlsx" filename_lower
       || PyStr.contains "xls" filename_lower
    then "Data/Spreadsheet"
    else if PyStr.contains "pdf" filename_lower then "Report"
    else if PyStr.contains "docx" filename_lower
            || PyStr.contains "doc" filename_lower
    then "Document"
    else if PyStr.contains "eml" filename_lower
            || PyStr.contains "msg" filename_lower
    then "Email"
    else "Other" in
  let found :=
    List.filter (fun term => PyStr.contains term text_lower) candidate_terms in
  let key_terms :=
    match found with
    | [] => ["business"; "data"; "analysis"]
    | _ => found
    end in
  let time_period :=
    (fun quarter => quarter +:+ " 2024")
      <$> List.find (fun quarter => PyStr.contains quarter text_content)
            ["Q1"; "Q2"; "Q3"; "Q4"] in
  {| department := department;
     document_type := doc_type;
     key_terms := take 5 key_terms;
     time_period := time_period;
     summary := "Business " +:+ PyStr.lower doc_type +:+ " containing "
                +:+ PyStr.lower department +:+ " data";
     confidence_score := rand_conf |}.

(** [categorize_document]: both branches end in
    [_mock_categorize_document]. *)
Definition categorize_document := _mock_categorize_document.

End DocumentCategorization.

(* ===================================================================== *)
(** * hub/services/document_processor.py *)
(* ===================================================================== *)

Module DocumentProcessor.

Import DocumentCategorization.

(** The record [process_upload] stores for a document.  The two dates
    hold the [isoformat()] text, which [search_documents] compares as
    text. *)
Record document : Type := {
  document_id : string;
  upload_id : string;
  filename : string;
  file_type : string;
  file_size : Z;
  status : string;
  upload_date : string;
  processing_date : string;
  metadata : pydict;
  doc_categorization : categorization;
  content_hash : string;
  storage_path : string;
  client_id : string
}.

(** [self.documents_db]: a dictionary from document ids to records, in
    insertion order. *)
Definition documents_db : Type := list (string * document).

(** [self.documents_db.get(document_id)] *)
Fixpoint db_get (id : string) (db : documents_db) : option document :=
  match db with
  | [] => None
  | (k, doc) :: db' => if String.eqb id k then Some doc else db_get id db'
  end.

(** [self.documents_db[document_id] = document] *)
Fixpoint db_set (id : string) (doc : document) (db : documents_db)
    : documents_db :=
  match db with
  | [] => [(id, doc)]
  | (k, x) :: db' =>
      if String.eqb id k then (id, doc) :: db' else (k, x) :: db_set id doc db'
  end.

(** [s.split('.')[-1]]: what follows the last dot, the whole text when
    there is none. *)
Fixpoint after_last_dot (s acc : string) : string :=
  match s with
  | EmptyString => acc
  | String a s' =>
      if Ascii.eqb a "." then after_last_dot s' ""
      else after_last_dot s' (acc +:+ String a "")
  end.

(** [_detect_file_type] *)
Definition _detect_file_type (filename : string) : string :=
  let ext := after_last_dot (PyStr.lower filename) "" in
  if String.eqb ext "pdf" then "pdf"
  else if String.eqb ext "docx" then "word"
  else if String.eqb ext "doc" then "word"
  else if String.eqb ext "xlsx" then "excel"
  else if String.eqb ext "xls" then "excel"
  else if String.eqb ext "csv" then "csv"
  else if String.eqb ext "txt" then "text"
  else if String.eqb ext "eml" then "email"
  else if String.eqb ext "msg" then "email"
  else "other".

(** What one call of [process_upload] reads from outside: the two
    [uuid.uuid4().hex] draws, whether the upload could be written to
    disk, the text [_extract_text_content] got out of it (empty when the
    extraction failed), whether the processed data could be written, the
    clock (the readings within one call are taken as one), the draw of
    the categorizer, and the text of the exception when a write fails. *)
Record upload_inputs : Type := {
  upload_uuid : string;
  document_uuid : string;
  upload_saved : bool;
  extracted_text : string;
  processed_saved : bool;
  clock : Z;
  rand_conf : Q;
  exception_text : string
}.

(** The dictionary [process_upload] returns. *)
Inductive upload_result : Type :=
| UploadCompleted (upload_id document_id : string) (c : categorization)
    (processing_time : string)
| UploadFailed (error : string) (upload_id : string)
    (processing_time : string).

(** The filters of [search_documents], as the route builds them: a
    filter that is absent or empty is not applied. *)
Record filters : Type := {
  f_department : option string;
  f_document_type : option string;
  f_date_from : option string;
  f_date_to : option string
}.

(** [filters.get(k)] is given and not empty, and the document fails the
    test [bad]. *)
Definition rejected_by (f : option string) (bad : string -> bool) : bool :=
  match f with
  | Some v => negb (String.eqb v "") && bad v
  | None => false
  end.

Section WithLibraries.

(** [sha256_hex] is [hashlib.sha256(content).hexdigest()], and
    [path_join] is [os.path.join] of the storage path, a directory and
    a file name. *)
Context (lib : PyLib) (sha256_hex : string -> string)
        (path_join : string -> string -> string -> string)
        (storage_path_root : string).

(** [process_upload] *)
Definition process_upload (db : documents_db) (i : upload_inputs)
    (file_content filename : string) (metadata : pydict) (client : string)
    : documents_db * upload_result :=
  let upload_id := "upload_" +:+ String.substring 0 12 (upload_uuid i) in
  let document_id := "doc_" +:+ String.substring 0 12 (document_uuid i) in
  let now := isoformat lib (clock i) in
  if negb (upload_saved i)
  then (db, UploadFailed (exception_text i) upload_id now)
  else
    let content_hash := sha256_hex file_content in
    let text_content := extracted_text i in
    if String.eqb text_content ""
    then (db, UploadFailed "Failed to extract text content from document"
                upload_id now)
    else
      let categorization :=
        categorize_document (rand_conf i) text_content filename in
      let processed_path :=
        path_join storage_path_root "processed" (document_id +:+ ".json") in
      if negb (processed_saved i)
      then (db, UploadFailed (exception_text i) upload_id now)
      else
        let document :=
          {| document_id := document_id;
             upload_id := upload_id;
             filename := filename;
             file_type := _detect_file_type filename;
             file_size := Z.of_nat (String.length file_content);
             status := "completed";
             upload_date := now;
             processing_date := now;
             metadata := metadata;
             doc_categorization := categorization;
             content_hash := content_hash;
             storage_path := processed_path;
             client_id := client |} in
        (db_set document_id document db,
         UploadCompleted upload_id document_id categorization now).

End WithLibraries.

(** [get_document] *)
Definition get_document (db : documents_db) (document_id : string)
    : option document :=
  db_get document_id db.

(** The body of the loop of [search_documents]: whether the document is
    appended to the results. *)
Definition appended (client : string) (f : filters) (doc : document)
    : bool :=
  if negb (String.eqb (client_id doc) client) then false
  else if rejected_by (f_department f)
            (fun v => negb (String.eqb (department (doc_categorization doc)) v))
  then false
  else if rejected_by (f_document_type f)
            (fun v =>
               negb (String.eqb (document_type (doc_categorization doc)) v))
  then false
  else if rejected_by (f_date_from f) (fun v => String.ltb (upload_date doc) v)
  then false
  else if rejected_by (f_date_to f) (fun v => String.ltb v (upload_date doc))
  then false
  else true.

(** [search_documents] *)
Definition search_documents (db : documents_db) (client : string)
    (f : filters) : list document :=
  List.filter (appended client f) (snd <$> db).

End DocumentProcessor.

(* ===================================================================== *)
(** * hub/api/routes.py: the document routes *)
(* ===================================================================== *)

Module DocumentRoutes.

Import DocumentProcessor.

(** The outcome of a route: the body of a 200 reply, or the
    [HTTPException] it raises. *)
Inductive reply (A : Type) : Type :=
| Ok (body : A)
| HttpError (status_code : Z) (detail : string).

Arguments Ok {A} body.
Arguments HttpError {A} status_code detail.

(** [get_client_id]: the value of the [X-Client-ID] header. *)
Definition get_client_id (x_client_id : option string) : reply string :=
  match x_client_id with
  | Some c => if String.eqb c "" then HttpError 400 "X-Client-ID header required"
              else Ok c
  | None => HttpError 400 "X-Client-ID header required"
  end.

(** The route [GET /documents/{document_id}]. *)
Definition get_document (db : documents_db) (document_id : string)
    (x_client_id : option string) : reply document :=
  match get_client_id x_client_id with
  | HttpError code detail => HttpError code detail
  | Ok client =>
      match DocumentProcessor.get_document db document_id with
      | None => HttpError 404 "Document not found"
      | Some document =>
          if negb (String.eqb (client_id document) client)
          then HttpError 403 "Access denied"
          else Ok document
      end
  end.

(** The route [GET /documents]: a query parameter that is absent or
    empty sets no filter. *)
Definition search_documents (db : documents_db)
    (department document_type date_from date_to : option string)
    (x_client_id : option string) : reply (list document) :=
  match get_client_id x_client_id with
  | HttpError code detail => HttpError code detail
  | Ok client =>
      let given (v : option string) :=
        match v with
        | Some x => if String.eqb x "" then None else Some x
        | None => None
        end in
      Ok (DocumentProcessor.search_documents db client
            {| f_department := given department;
               f_document_type := given document_type;
               f_date_from := given date_from;
               f_date_to := given date_to |})
  end.

End DocumentRoutes.

(* ===================================================================== *)
(** * hub/api/routes.py: the directory route *)
(* ===================================================================== *)

Module DirectoryRoute.

Import AgentRegistry DocumentRoutes.

Definition status_text (s : AgentStatus) : string :=
  match s with
  | VERIFIED => "verified"
  | UNVERIFIED => "unverified"
  | INACTIVE => "inactive"
  | FAILED => "failed"
  end.

Section WithLibraries.

Context (lib : PyLib).

(** An agent record as the dictionary the registry holds. *)
Definition agent_dict (a : agent) : pyval :=
  PDict [("agent_id", PStr (agent_id a));
         ("agent_type", PStr (agent_type a));
         ("capabilities", PList (PStr <$> capabilities a));
         ("endpoint", PStr (endpoint a));
         ("attestation_endpoint", PStr (attestation_endpoint a));
         ("public_key", public_key a);
         ("attestation_quote", attestation_quote a);
         ("status", PStr (status_text (status a)));
         ("registered_at", PStr (isoformat lib (registered_at a)));
         ("last_seen", PStr (isoformat lib (last_seen a)));
         ("client_id", PStr (client_id a));
         ("measurements", measurements a)].

(** An entry of the directory view as a dictionary. *)
Definition entry_dict (e : directory_entry) : pyval :=
  PDict [("agent_id", PStr (d_agent_id e));
         ("agent_type", PStr (d_agent_type e));
         ("capabilities", PList (PStr <$> d_capabilities e));
         ("endpoint", PStr (d_endpoint e));
         ("status", PStr (d_status e))].

(** The route [GET /agents/directory]: the body is a dictionary with the
    one key [agents]. *)
Definition get_agent_directory (r : registry) (now : Z)
    (capability : option string) (x_client_id : option string)
    : reply pyval :=
  match get_client_id x_client_id with
  | HttpError code detail => HttpError code detail
  | Ok client =>
      let agents :=
        match capability with
        | Some c =>
            if String.eqb c "" then
              entry_dict <$> AgentRegistry.get_agent_directory r now client
            else agent_dict <$> get_agents_by_capability r c client
        | None => entry_dict <$> AgentRegistry.get_agent_directory r now client
        end in
      Ok (PDict [("agents", PList agents)])
  end.

(** A reply as the client of the route sees it: a 200 reply with its
    parsed body, or another status with the text of its body. *)
Definition over_http (x : reply pyval) : VMCommunication.http_outcome :=
  match x with
  | Ok body => VMCommunication.HttpOk body
  | HttpError code detail =>
      VMCommunication.HttpStatus code
        (default "" (json_dumps lib false (PDict [("detail", PStr detail)])))
  end.

End WithLibraries.

End DirectoryRoute.

(* ===================================================================== *)
(** * shared/agent_communication.py: discovery and requests *)
(* ===================================================================== *)

Module AgentDiscovery.

Import SecureMessaging CollaborationMessages VMCommunication.

(** Equality of two dictionary keys: texts by their characters, numbers
    and booleans by their value. *)
Definition key_eqb (k1 k2 : pyval) : bool :=
  match k1, k2 with
  | PStr a, PStr b => String.eqb a b
  | PNone, PNone => true
  | _, _ =>
      match as_number k1, as_number k2 with
      | Some x, Some y => Qeq_bool x y
      | _, _ => false
      end
  end.

(** [self.registered_agents]: a dictionary from agent ids to the
    dictionaries received from the directory. *)
Definition registered_agents : Type := list (pyval * pyval).

(** [self.registered_agents.get(k)] *)
Fixpoint reg_get (k : pyval) (registered : registered_agents)
    : option pyval :=
  match registered with
  | [] => None
  | (k', v) :: rest => if key_eqb k k' then Some v else reg_get k rest
  end.

(** [self.registered_agents[k] = v] *)
Fixpoint reg_set (k v : pyval) (registered : registered_agents)
    : registered_agents :=
  match registered with
  | [] => [(k, v)]
  | (k', v') :: rest =>
      if key_eqb k k' then (k', v) :: rest else (k', v') :: reg_set k v rest
  end.

(** The loop of [discover_agents] over the items of the reply:
    [self.registered_agents[agent["agent_id"]] = agent].  The flag is
    [false] when an item makes the loop raise; what was stored before
    stays stored. *)
Fixpoint store_agents (registered : registered_agents) (items : list pyval)
    : registered_agents * bool :=
  match items with
  | [] => (registered, true)
  | agent :: rest =>
      match agent with
      | PDict d =>
          match lookup_key "agent_id" d with
          | Some id =>
              if hashable id then store_agents (reg_set id agent registered) rest
              else (registered, false)
          | None => (registered, false)
          end
      | _ => (registered, false)
      end
  end.

(** [discover_agents]; [hub_endpoint] is [self.hub_endpoint] and
    [outcome] the way the request to the directory ends.  Every
    exception is caught and gives the empty list. *)
Definition discover_agents (hub_endpoint : option string)
    (registered : registered_agents) (outcome : http_outcome)
    : registered_agents * pyval :=
  match hub_endpoint with
  | None => (registered, PList [])
  | Some ep =>
      if String.eqb ep "" then (registered, PList [])
      else
        match outcome with
        | HttpOk agents =>
            match UnifiedLLMManager.iterate agents with
            | Some items =>
                let '(registered', ok) := store_agents registered items in
                (registered', if ok then agents else PList [])
            | None => (registered, PList [])
            end
        | _ => (registered, PList [])
        end
  end.

(** What one call of [send_collaboration_request] observes: how the
    directory request of its discovery ends, the draws of its envelope,
    how the exchange with the target ends, the clock when the answer is
    verified, and the text of an exception raised on the way. *)
Record send_inputs : Type := {
  discovery : http_outcome;
  request_draws : draws;
  exchange : http_outcome;
  received_at : Z;
  raised_text : string
}.

Definition error_dict (text : string) : pyval :=
  PDict [("error", PStr text)].

(** [not target_agent] for the result of a lookup. *)
Definition missing (target_agent : option pyval) : bool :=
  match target_agent with
  | Some v => negb (truthy v)
  | None => true
  end.

Section WithLibraries.

Context (lib : PyLib) (key_manager : KeyManager) (env_agent_id : string).

(** The part of [send_collaboration_request] after the target has been
    found. *)
Definition send_to_target (i : send_inputs) (target_agent : pyval)
    (target_agent_id task_description : string) (context : pydict)
    (data_requirements : list string) : pyval :=
  match create_collaboration_request lib key_manager env_agent_id
          (request_draws i) target_agent_id task_description context
          data_requirements with
  | None => error_dict (raised_text i)
  | Some secure_message =>
      match target_agent with
      | PDict t =>
          match lookup_key "endpoint" t with
          | None => error_dict (raised_text i)
          | Some _ =>
              match exchange i with
              | HttpOk response_data =>
                  match response_data with
                  | PDict rd =>
                      match verify_secure_message lib key_manager
                              (received_at i) rd with
                      | Verified (PDict m) =>
                          match lookup_key "payload" m with
                          | Some payload => payload
                          | None => error_dict (raised_text i)
                          end
                      | Verified _ => error_dict (raised_text i)
                      | _ => error_dict "Invalid response signature"
                      end
                  | _ => error_dict "Invalid response signature"
                  end
              | HttpStatus code error_text =>
                  error_dict ("Collaboration failed: " +:+ PyStr.str_int code
                              +:+ " - " +:+ error_text)
              | HttpTimeout => error_dict "Collaboration request timed out"
              | HttpFailed reason => error_dict reason
              end
          end
      | _ => error_dict (raised_text i)
      end
  end.

(** [send_collaboration_request] *)
Definition send_collaboration_request (hub_endpoint : option string)
    (registered : registered_agents) (i : send_inputs)
    (target_agent_id task_description : string) (context : pydict)
    (data_requirements : list string) : registered_agents * pyval :=
  let target_agent := reg_get (PStr target_agent_id) registered in
  if missing target_agent
  then
    let registered' :=
      fst (discover_agents hub_endpoint registered (discovery i)) in
    match reg_get (PStr target_agent_id) registered' with
    | Some v =>
        if truthy v
        then (registered',
              send_to_target i v target_agent_id task_description context
                data_requirements)
        else (registered',
              error_dict ("Target agent " +:+ target_agent_id +:+ " not found"))
    | None =>
        (registered',
         error_dict ("Target agent " +:+ target_agent_id +:+ " not found"))
    end
  else
    (registered,
     send_to_target i (default PNone target_agent) target_agent_id
       task_description context data_requirements).

End WithLibraries.

End AgentDiscovery.

(* ===================================================================== *)
(** * Registration of an agent at the hub *)
(* ===================================================================== *)

(** [register_agent] of hub/api/routes.py and [register_with_hub] of
    shared/agent_communication.py, the two ends of one request. *)
Module HubRegistration.

Import AgentRegistry AgentCommunication.

(** The outcome of the route: the 201 reply with the dictionary of the
    registry, or the [HTTPException] raised. *)
Inductive register_reply : Type :=
| Created (agent_id : string) (measurements : pyval)
| Refused (status_code : Z) (detail : pyval).

(** [if x_attestation_quote and x_public_key:] the two headers replace
    the quote and the key of the body. *)
Definition with_headers (registration : AgentRegistration)
    (x_attestation_quote x_public_key : option string) : AgentRegistration :=
  match x_attestation_quote, x_public_key with
  | Some q, Some k =>
      if negb (String.eqb q "") && negb (String.eqb k "")
      then {| reg_agent_id := reg_agent_id registration;
              reg_agent_type := reg_agent_type registration;
              reg_capabilities := reg_capabilities registration;
              reg_endpoint := reg_endpoint registration;
              reg_attestation_endpoint := reg_attestation_endpoint registration;
              reg_attestation_data :=
                set_key "public_key" (PStr k)
                  (set_key "quote" (PStr q)
                     (reg_attestation_data registration)) |}
      else registration
  | _, _ => registration
  end.

(** The request [register_with_hub] sends: its headers and its body. *)
Record registration_request : Type := {
  rq_headers : pydict;
  rq_body : AgentRegistration
}.

(** The value a route parameter declared with [Header(None)] receives:
    the header of that name, when the request has it.  Header names
    match without regard to case; the names that occur here differ from
    one another in more than case. *)
Definition header (name : string) (headers : pydict) : option string :=
  match lookup_key name headers with
  | Some (PStr v) => Some v
  | _ => None
  end.

Section WithAttestation.

Context (ac : AttestationClient).

(** The route [POST /agents/register]; [raised_text] is the text of the
    exception when the registry caught one. *)
Definition register_agent (r : registry) (now : Z) (raised_text : string)
    (registration : AgentRegistration)
    (x_client_id x_attestation_quote x_public_key : option string)
    : registry * register_reply :=
  match DocumentRoutes.get_client_id x_client_id with
  | DocumentRoutes.HttpError code detail => (r, Refused code (PStr detail))
  | DocumentRoutes.Ok client =>
      let '(r', result) :=
        AgentRegistry.register_agent ac r now
          (with_headers registration x_attestation_quote x_public_key)
          client in
      match result with
      | Registered id meas => (r', Created id meas)
      | RegRejected error => (r', Refused 400 error)
      | RegRaised => (r', Refused 400 (PStr raised_text))
      end
  end.

(** The request of [register_with_hub]; [quote] is what
    [generate_attestation_quote] returned under the key [quote] and
    [pem] the public key of the agent. *)
Definition registration_request_of (agent_id agent_type : string)
    (capabilities : list string) (quote : pyval) (pem : string)
    : registration_request :=
  {| rq_headers :=
       [("Content-Type", PStr "application/json");
        ("X-Agent-ID", PStr agent_id);
        ("X-Attestation-Quote", quote);
        ("X-Public-Key", PStr pem)];
     rq_body :=
       {| reg_agent_id := agent_id;
          reg_agent_type := agent_type;
          reg_capabilities := capabilities;
          reg_endpoint :=
            "http://" +:+ agent_id +:+ ":"
            +:+ PyStr.str_int (_get_agent_port agent_type);
          reg_attestation_endpoint :=
            "http://" +:+ agent_id +:+ ":"
            +:+ PyStr.str_int (_get_attestation_port agent_type);
          reg_attestation_data :=
            [("quote", quote); ("public_key", PStr pem)] |} |}.

(** What [register_with_hub] returns for a reply: a 201 reply counts
    when its [verification_status] is [verified], which the reply of an
    admitted registration says. *)
Definition accepted_reply (reply : register_reply) : bool :=
  match reply with
  | Created _ _ => true
  | Refused _ _ => false
  end.

(** [register_with_hub] against the route above: the route parameters
    receive the headers of the request. *)
Definition register_with_hub (r : registry) (now : Z) (raised_text : string)
    (agent_id agent_type : string) (capabilities : list string)
    (quote : pyval) (pem : string) : registry * bool :=
  let rq := registration_request_of agent_id agent_type capabilities quote
              pem in
  let '(r', reply) :=
    register_agent r now raised_text (rq_body rq)
      (header "X-Client-ID" (rq_headers rq))
      (header "X-Attestation-Quote" (rq_headers rq))
      (header "X-Public-Key" (rq_headers rq)) in
  (r', accepted_reply reply).

End WithAttestation.

End HubRegistration.

(* ===================================================================== *)
(** * Further concrete data *)
(* ===================================================================== *)

Module MoreScenarios.

Import AgentRegistry VMCommunication OrchestrationEngine Scenario.

(** A registration whose quote the verifier rejects. *)
Definition reg_forged : AgentRegistration :=
  {| reg_agent_id := "ghost-1";
     reg_agent_type := "finance";
     reg_capabilities := ["roi_calculation"];
     reg_endpoint := "http://localhost:9000";
     reg_attestation_endpoint := "http://localhost:9001";
     reg_attestation_data :=
       [("quote", PStr "forged"); ("public_key", PStr "pem:ghost")] |}.

(** The measurements the reference verifier reports for the finance
    agent. *)
Definition fin_measurements : pyval := PDict [("mrtd", PStr "tdx:finance")].

(** The registry of [acme] with its finance agent. *)
Definition acme1 : registry :=
  AgentRegistry.run Ref.attestation_client one_agent.

(** The record of the finance agent after its registration at noon. *)
Definition fin_record : agent :=
  new_record noon reg_fin "acme"
    [("measurements", PDict [("mrtd", PStr "tdx:finance")])].

(** ** An agent moves from one client to another *)

(** Client [globex] registers the finance agent; a second later the
    same agent registers under [acme]. *)
Definition moved_agent : list AgentRegistry.call :=
  [AgentRegistry.CallRegister noon reg_fin "globex";
   AgentRegistry.CallRegister (noon + seconds 1) reg_fin "acme"].

(** The record of the finance agent once [acme] owns it. *)
Definition fin_record_acme : agent :=
  new_record (noon + seconds 1) reg_fin "acme"
    [("measurements", PDict [("mrtd", PStr "tdx:finance")])].

(** ** A payload with a tuple *)

Definition tuple_payload : JsonObjects.pyobj :=
  JsonObjects.ODict
    [("range", JsonObjects.OTuple [JsonObjects.OInt 1; JsonObjects.OInt 4])].

(** The encrypted envelope built for it. *)
Definition sealed_tuple_env : pydict :=
  match JsonObjects.create_secure_message Ref.lib Ref.key_manager "fin-1"
          draws0 "hub" "collaboration_request" tuple_payload (Some Ref.pem)
  with
  | Some (JsonObjects.Sealed e) => e
  | _ => []
  end.

(** The message [verify_secure_message] returns for that envelope. *)
Definition tuple_message_returned : pyval :=
  PDict [("message_type", PStr "collaboration_request");
         ("nonce", PStr "00112233445566778899aabbccddeeff");
         ("payload", PDict [("range", PList [PInt 1; PInt 4])]);
         ("recipient_id", PStr "hub");
         ("sender_id", PStr "fin-1");
         ("timestamp", PStr "2024-01-01T12:00:00Z")].

(** ** An agent answers a collaboration request *)

(** The items of [message0]. *)
Definition message0_items : pydict :=
  match message0 with PDict d => d | _ => [] end.

(** The draws of the answering envelope. *)
Definition draws1 : SecureMessaging.draws :=
  {| SecureMessaging.clock := noon + seconds 2;
     SecureMessaging.token_hex := "ffeeddccbbaa99887766554433221100";
     SecureMessaging.aes_key := "fedcba9876543210fedcba9876543210";
     SecureMessaging.aes_iv := "lkjihgfedcba" |}.

(** An override of [process_collaboration_request] that reports a
    confidence of 0.9. *)
Definition process0 (task context data_package : pyval)
    : BaseAgent.process_outcome :=
  BaseAgent.Processed
    (PDict [("summary", PStr "ROI is 25%");
            ("confidence_score", PFloat (9 # 10))]).

Definition attribute_error0 : string :=
  "'str' object has no attribute 'get'".

(** The handlers of the marketing agent [mkt-1]. *)
Definition mkt_handlers : gmap string AgentCommunication.handler :=
  BaseAgent.register_handlers Ref.lib "mkt-1" "marketing" process0
    (noon + seconds 2) attribute_error0.


Definition handle0 : AgentCommunication.handle_inputs :=
  {| AgentCommunication.verified_at := noon + seconds 1;
     AgentCommunication.processing_time_ms := 12;
     AgentCommunication.answer_draws := draws1;
     AgentCommunication.first_exception := "first";
     AgentCommunication.second_exception := "second" |}.

(** The answer of [mkt-1] to the envelope [signed0_env]. *)
Definition answer0 : pydict :=
  default []
    (fst (AgentCommunication.handle_collaboration_request Ref.lib
            Ref.key_manager "mkt-1" "mkt-1" mkt_handlers handle0
            signed0_env)).

End MoreScenarios.

(* ===================================================================== *)
(** * Properties of the envelope *)
(* ===================================================================== *)

Module SecureMessagingFacts.

Import SecureMessaging.

(** ** Dictionaries up to key order *)

Lemma leb_refl (s : string) : String.leb s s = true.
Proof. destruct (String.leb_total s s); assumption. Qed.

Lemma lookup_key_insert_item (k k' : string) (v : pyval) (l : pydict) :
  lookup_key k (insert_item (k', v) l)
  = if String.eqb k k' then Some v else lookup_key k l.
Proof.
  induction l as [|[k1 v1] l IH]; simpl; [reflexivity|].
  destruct (String.leb k' k1) eqn:Hle; simpl; [reflexivity|].
  destruct (String.eqb_spec k k1) as [->|Hne].
  - destruct (String.eqb_spec k1 k') as [->|_]; [|reflexivity].
    rewrite leb_refl in Hle. discriminate.
  - exact IH.
Qed.

Lemma lookup_key_sort_items (k : string) (l : pydict) :
  lookup_key k (sort_items l) = lookup_key k l.
Proof.
  induction l as [|[k1 v1] l IH]; simpl; [reflexivity|].
  rewrite lookup_key_insert_item, IH. reflexivity.
Qed.

Lemma lookup_key_canon (k : string) (d : pydict) :
  lookup_key k (map (fun kv : string * pyval =>
                       let (k, x) := kv in (k, canon x)) d)
  = canon <$> lookup_key k d.
Proof.
  induction d as [|[k1 v1] d IH]; simpl; [reflexivity|].
  destruct (String.eqb k k1); [reflexivity | exact IH].
Qed.

Lemma canon_str (v : pyval) (s : string) : canon v = PStr s -> v = PStr s.
Proof. destruct v; simpl; congruence. Qed.

(** A value that equals a dictionary up to key order is a dictionary,
    and has the same text under every key that holds a text. *)
Lemma same_value_dict (v : pyval) (d : pydict) :
  same_value v (PDict d) ->
  exists d', v = PDict d'
    /\ forall k s, lookup_key k d = Some (PStr s) ->
                   lookup_key k d' = Some (PStr s).
Proof.
  unfold same_value. destruct v as [| | | | |l|d']; simpl; try discriminate.
  intros H. injection H as H. exists d'. split; [reflexivity|].
  intros k s Hk.
  assert (Hl : canon <$> lookup_key k d' = canon <$> lookup_key k d).
  { apply (f_equal (lookup_key k)) in H.
    rewrite !lookup_key_sort_items, !lookup_key_canon in H. exact H. }
  rewrite Hk in Hl. simpl in Hl.
  destruct (lookup_key k d') as [w|]; simpl in Hl; [|discriminate].
  injection Hl as Hl. apply canon_str in Hl. congruence.
Qed.

Lemma get_of_lookup (k : string) (d : pydict) (v : pyval) :
  lookup_key k d = Some v -> get k d = v.
Proof. unfold get, get_default. intros ->. reflexivity. Qed.

Lemma eqb_nonempty (s : string) : s <> "" -> String.eqb s "" = false.
Proof. intros H. destruct (String.eqb_spec s ""); [contradiction|reflexivity]. Qed.

Lemma truthy_str (s : string) : s <> "" -> truthy (PStr s) = true.
Proof. intros H. simpl. rewrite (eqb_nonempty _ H). reflexivity. Qed.

Section WithLibraries.

Context (lib : PyLib) (key_manager : KeyManager).

Local Abbreviation check_message := (check_message lib key_manager).
Local Abbreviation verify_secure_message :=
  (verify_secure_message lib key_manager).
Local Abbreviation create_secure_message :=
  (create_secure_message lib key_manager).

(** ** The freshness check *)

Lemma verify_timestamp_iff (now : Z) (timestamp : pyval) (max_age : Z) :
  _verify_timestamp lib now timestamp max_age = true
  <-> exists t, msg_time_of lib timestamp = Some t
                /\ 0 <= now - t <= max_age * usec.
Proof.
  unfold _verify_timestamp.
  destruct (msg_time_of lib timestamp) as [t|].
  - rewrite andb_true_iff, !Z.leb_le. split.
    + intros H. exists t. split; [reflexivity | lia].
    + intros (t' & Ht & H). injection Ht as <-. lia.
  - split; [discriminate|]. intros (t & Ht & _). discriminate.
Qed.

(** What [check_message] answers, case by case. *)
Lemma check_message_verified (now : Z) (signature pk message : pyval)
    (message_json : string) (m : pyval) :
  check_message now signature pk message message_json = Verified m
  <-> m = message
      /\ verify_signature key_manager message_json signature pk = true
      /\ exists d, message = PDict d
           /\ _verify_timestamp lib now (get "timestamp" d) 300 = true
           /\ truthy (get "nonce" d) = true.
Proof.
  unfold SecureMessaging.check_message.
  destruct (verify_signature key_manager message_json signature pk); simpl;
    [|split; [discriminate | intros (_ & H & _); discriminate]].
  destruct message as [| | | | | |d];
    try (split; [discriminate | intros (_ & _ & d & Hd & _); discriminate]).
  destruct (_verify_timestamp lib now (get "timestamp" d) 300) eqn:Ht; simpl.
  - destruct (truthy (get "nonce" d)) eqn:Hn; simpl.
    + split.
      * intros H. injection H as <-. split; [reflexivity|].
        split; [reflexivity|]. exists d. auto.
      * intros [-> _]. reflexivity.
    + split; [discriminate|].
      intros (_ & _ & d' & Hd & _ & Hn'). injection Hd as <-. congruence.
  - split; [discriminate|].
    intros (_ & _ & d' & Hd & Ht' & _). injection Hd as <-. congruence.
Qed.

Lemma check_message_again (now now' : Z) (signature pk message : pyval)
    (message_json : string) (m : pyval) :
  check_message now signature pk message message_json = Verified m ->
  (forall d, m = PDict d ->
     _verify_timestamp lib now' (get "timestamp" d) 300 = true) ->
  check_message now' signature pk message message_json = Verified m.
Proof.
  intros H Hfresh. apply check_message_verified in H.
  destruct H as (-> & Hsig & d & -> & _ & Hn).
  apply check_message_verified. split; [reflexivity|]. split; [exact Hsig|].
  exists d. split; [reflexivity|]. split; [|exact Hn].
  apply Hfresh. reflexivity.
Qed.

(** C1, as the code has it.  [verify_secure_message] keeps no record of
    the (sender, nonce) pairs it accepted and only requires a nonce to be
    present: an envelope that was accepted at [now] is accepted again at
    [now'], with the same message, whenever its timestamp is still within
    the freshness window at [now']. *)
Theorem resubmitted_envelope_accepted (now now' : Z)
    (secure_message : pydict) (m : pyval) :
  verify_secure_message now secure_message = Verified m ->
  (forall d, m = PDict d ->
     _verify_timestamp lib now' (get "timestamp" d) 300 = true) ->
  verify_secure_message now' secure_message = Verified m.
Proof.
  unfold SecureMessaging.verify_secure_message. intros H Hfresh.
  destruct (negb (truthy (get "signature" secure_message))
            || negb (truthy (get "sender_public_key" secure_message)));
    [discriminate|].
  destruct (truthy (get "encrypted" secure_message)).
  - destruct (lookup_key "encrypted_payload" secure_message) as [ep|];
      [|discriminate].
    destruct (_decrypt_payload lib ep) as [text|]; [|discriminate].
    destruct (String.eqb text ""); [discriminate|].
    destruct (json_loads lib text) as [message|]; [|discriminate].
    eapply check_message_again; eassumption.
  - destruct (negb (truthy (get "message" secure_message))); [discriminate|].
    destruct (json_dumps lib true (get "message" secure_message));
      [|discriminate].
    eapply check_message_again; eassumption.
Qed.

(** C6, as the code has it.  The freshness check is one-sided.  A
    timestamp passes exactly when it parses and the time it reads,
    which is the reading of its date and time fields, lies between 0 and
    300 seconds before the receiver's clock.  For a timestamp as
    [_get_timestamp] writes it, in UTC with the suffix [Z], that time is
    the instant [t] it was stamped at whenever the library reads the
    text back: it passes exactly when [0 <= now - t <= 300 s], so not
    when [t] lies in the future.  An envelope whose signature verifies
    is rejected as too old exactly when its timestamp fails the test. *)
Theorem freshness_window_one_sided (now t : Z) (timestamp : pyval)
    (signature pk : pyval) (d : pydict) (message_json : string) :
  (_verify_timestamp lib now timestamp 300 = true
   <-> exists t, msg_time_of lib timestamp = Some t
                 /\ 0 <= now - t <= 300 * usec)
  /\ (check_message now signature pk (PDict d) message_json
       = Rejected "Message timestamp too old"
       <-> verify_signature key_manager message_json signature pk = true
           /\ ~ exists t, msg_time_of lib (get "timestamp" d) = Some t
                          /\ 0 <= now - t <= 300 * usec)
  /\ (clock_round_trip lib t ->
      (_verify_timestamp lib now (PStr (_get_timestamp lib t)) 300 = true
       <-> 0 <= now - t <= 300 * usec)
      /\ (now < t ->
          _verify_timestamp lib now (PStr (_get_timestamp lib t)) 300 = false)).
Proof.
  split; [apply verify_timestamp_iff|]. split.
  - rewrite <- verify_timestamp_iff.
    unfold SecureMessaging.check_message.
    destruct (verify_signature key_manager message_json signature pk); simpl.
    + destruct (_verify_timestamp lib now (get "timestamp" d) 300); simpl.
      * destruct (truthy (get "nonce" d)); simpl;
          (split; [discriminate | intros [_ H]; exfalso; apply H; reflexivity]).
      * split; [intros _; split; [reflexivity | discriminate] | reflexivity].
    + split; [discriminate | intros [H _]; discriminate].
  - intros Hclock.
    assert (Hiff : _verify_timestamp lib now (PStr (_get_timestamp lib t)) 300
                   = true <-> 0 <= now - t <= 300 * usec).
    { rewrite verify_timestamp_iff. unfold clock_round_trip in Hclock.
      rewrite Hclock. split.
      - intros (t' & Ht & H). injection Ht as <-. exact H.
      - intros H. exists t. split; [reflexivity | exact H]. }
    split; [exact Hiff|]. intros Hlt.
    destruct (_verify_timestamp lib now (PStr (_get_timestamp lib t)) 300);
      [|reflexivity].
    destruct (proj1 Hiff eq_refl). lia.
Qed.

(** C7, as the code has it.  For an encrypted envelope the signature is
    checked over the decrypted text itself; the parsed message is not
    serialized again.  The envelope verifies exactly when its signature
    is valid over that text and the parsed message is a dictionary with a
    fresh timestamp and a nonce. *)
Theorem encrypted_signature_over_decrypted_text (now : Z)
    (secure_message : pydict) (encrypted_payload : pyval) (text : string)
    (message : pyval) :
  truthy (get "signature" secure_message) = true ->
  truthy (get "sender_public_key" secure_message) = true ->
  truthy (get "encrypted" secure_message) = true ->
  lookup_key "encrypted_payload" secure_message = Some encrypted_payload ->
  _decrypt_payload lib encrypted_payload = Some text ->
  text <> "" ->
  json_loads lib text = Some message ->
  let signature := get "signature" secure_message in
  let pk := get "sender_public_key" secure_message in
  verify_secure_message now secure_message
  = check_message now signature pk message text
  /\ (verify_signature key_manager text signature pk = false ->
       verify_secure_message now secure_message
       = Rejected "Invalid signature")
  /\ (forall m,
        verify_secure_message now secure_message = Verified m
        <-> m = message
            /\ verify_signature key_manager text signature pk = true
            /\ exists d, message = PDict d
                 /\ _verify_timestamp lib now (get "timestamp" d) 300 = true
                 /\ truthy (get "nonce" d) = true).
Proof.
  intros Hsig Hpk Henc Hep Hdec Htext Hloads signature pk.
  assert (Hv : verify_secure_message now secure_message
               = check_message now signature pk message text).
  { unfold SecureMessaging.verify_secure_message.
    rewrite Hsig, Hpk, Henc, Hep, Hdec, Hloads. simpl.
    destruct (String.eqb_spec text ""); [contradiction | reflexivity]. }
  split; [exact Hv|]. split.
  - intros Hbad. rewrite Hv. unfold SecureMessaging.check_message.
    rewrite Hbad. reflexivity.
  - intros m. rewrite Hv. apply check_message_verified.
Qed.

(** ** The round trip *)

Lemma decrypt_encrypt (key iv text : string) :
  cipher_round_trip lib key iv text ->
  exists ep, _encrypt_payload lib key iv text = Some ep
             /\ _decrypt_payload lib (PStr ep) = Some text.
Proof.
  unfold cipher_round_trip, _encrypt_payload.
  destruct (aes_gcm_encrypt lib key iv text) as [ciphertext tag].
  intros (Hdec & Hk & Hiv & Hct & Htag & t & (Hd & v' & Hl & Hsame) & Hb).
  rewrite Hd. simpl. eexists. split; [reflexivity|].
  unfold _decrypt_payload, b64_round_trip in *. simpl.
  rewrite Hb. simpl. rewrite Hl. simpl.
  apply same_value_dict in Hsame. destruct Hsame as (d' & -> & Hlook).
  rewrite (Hlook "key" _ eq_refl), (Hlook "iv" _ eq_refl),
    (Hlook "ciphertext" _ eq_refl), (Hlook "tag" _ eq_refl).
  simpl. rewrite Hk. simpl. rewrite Hiv. simpl. rewrite Hct. simpl.
  rewrite Htag. simpl. exact Hdec.
Qed.

(** Two dictionaries that are equal up to key order hold equal values,
    up to key order, under every key. *)
Lemma same_value_lookup (d' d : pydict) (k : string) (v : pyval) :
  same_value (PDict d') (PDict d) ->
  lookup_key k d = Some v ->
  exists w, lookup_key k d' = Some w /\ same_value w v.
Proof.
  unfold same_value. simpl. intros H Hk. injection H as H.
  apply (f_equal (lookup_key k)) in H.
  rewrite !lookup_key_sort_items, !lookup_key_canon, Hk in H. simpl in H.
  destruct (lookup_key k d') as [w|]; simpl in H; [|discriminate].
  injection H as H. exists w. split; [reflexivity | exact H].
Qed.

(** C2, as the code has it.  For a payload of JSON-shaped values
    (dictionaries keyed by texts, lists, texts, numbers, booleans and
    [None]), [create_secure_message] builds an envelope that is marked
    encrypted and holds the message only inside the encrypted payload
    when a recipient key is given, and holds the message itself
    otherwise.  Verifying it succeeds and returns a dictionary with the
    sender, the recipient, the message type, the timestamp and the nonce
    the envelope was built with and with the payload: the very message
    on the plain path, and on the encrypted path the message parsed from
    the decrypted text, equal to it up to the order of dictionary keys.
    This holds when the key store verifies its own signature,
    verification happens at most 300 seconds after the envelope was
    stamped, and the libraries read back what they wrote. *)
Theorem verify_create_round_trip (agent_id : string) (r : draws)
    (recipient_id message_type : string) (payload : pyval)
    (recipient_public_key : option string) (now : Z) (message_json : string) :
  let message :=
    PDict [("sender_id", PStr agent_id);
           ("recipient_id", PStr recipient_id);
           ("message_type", PStr message_type);
           ("timestamp", PStr (_get_timestamp lib (clock r)));
           ("nonce", PStr (token_hex r));
           ("payload", payload)] in
  json_dumps lib true message = Some message_json ->
  key_store_correct key_manager message_json ->
  clock_round_trip lib (clock r) ->
  0 <= now - clock r <= 300 * usec ->
  token_hex r <> "" ->
  (encrypts recipient_public_key = true ->
   message_json <> ""
   /\ json_round_trip lib true message message_json
   /\ cipher_round_trip lib (aes_key r) (aes_iv r) message_json) ->
  exists env m d,
    create_secure_message agent_id r recipient_id message_type payload
      recipient_public_key = Some env
    /\ get "encrypted" env = PBool (encrypts recipient_public_key)
    /\ (if encrypts recipient_public_key
        then lookup_key "message" env = None
             /\ exists ep,
                  lookup_key "encrypted_payload" env = Some (PStr ep)
                  /\ _decrypt_payload lib (PStr ep) = Some message_json
        else lookup_key "encrypted_payload" env = None
             /\ lookup_key "message" env = Some message)
    /\ verify_secure_message now env = Verified m
    /\ m = PDict d
    /\ get "sender_id" d = PStr agent_id
    /\ get "recipient_id" d = PStr recipient_id
    /\ get "message_type" d = PStr message_type
    /\ get "timestamp" d = PStr (_get_timestamp lib (clock r))
    /\ get "nonce" d = PStr (token_hex r)
    /\ same_value (get "payload" d) payload
    /\ same_value m message
    /\ (encrypts recipient_public_key = false -> m = message).
Proof.
  intros message Hjson (Hver & Hsig & Hpem) Hclock Hage Hnonce Hseal.
  assert (Hfresh : _verify_timestamp lib now
                     (PStr (_get_timestamp lib (clock r))) 300 = true).
  { apply verify_timestamp_iff. exists (clock r). split; [exact Hclock|lia]. }
  unfold SecureMessaging.create_secure_message.
  change (inner_message lib agent_id recipient_id message_type payload r)
    with message.
  rewrite Hjson. simpl.
  destruct (encrypts recipient_public_key) eqn:Henc.
  - destruct (Hseal eq_refl) as (Hne & (_ & m & Hloads & Hsame) & Hcipher).
    destruct (decrypt_encrypt _ _ _ Hcipher) as (ep & Hep & Hdec).
    rewrite Hep. simpl.
    destruct (same_value_dict _ _ Hsame) as (d' & -> & Hlook).
    destruct (same_value_lookup d' _ "payload" payload Hsame eq_refl)
      as (w & Hw & Hsw).
    eexists. exists (PDict d'), d'. split; [reflexivity|].
    split; [reflexivity|].
    split; [split; [reflexivity|]; exists ep; split; [reflexivity|exact Hdec]|].
    split.
    { unfold SecureMessaging.verify_secure_message, get, get_default. simpl.
      rewrite (eqb_nonempty _ Hsig), (eqb_nonempty _ Hpem). simpl.
      rewrite Hdec, (eqb_nonempty _ Hne), Hloads. apply check_message_verified.
      split; [reflexivity|]. split; [exact Hver|].
      exists d'. split; [reflexivity|].
      rewrite (get_of_lookup _ _ _ (Hlook "timestamp" _ eq_refl)).
      rewrite (get_of_lookup _ _ _ (Hlook "nonce" _ eq_refl)).
      split; [exact Hfresh | apply truthy_str; exact Hnonce]. }
    split; [reflexivity|].
    split; [exact (get_of_lookup _ _ _ (Hlook "sender_id" _ eq_refl))|].
    split; [exact (get_of_lookup _ _ _ (Hlook "recipient_id" _ eq_refl))|].
    split; [exact (get_of_lookup _ _ _ (Hlook "message_type" _ eq_refl))|].
    split; [exact (get_of_lookup _ _ _ (Hlook "timestamp" _ eq_refl))|].
    split; [exact (get_of_lookup _ _ _ (Hlook "nonce" _ eq_refl))|].
    split; [rewrite (get_of_lookup _ _ _ Hw); exact Hsw|].
    split; [exact Hsame | discriminate].
  - eexists. exists message. eexists. split; [reflexivity|].
    split; [reflexivity|]. split; [split; reflexivity|].
    split.
    { unfold SecureMessaging.verify_secure_message, get, get_default. simpl.
      rewrite (eqb_nonempty _ Hsig), (eqb_nonempty _ Hpem). simpl.
      fold message. rewrite Hjson. apply check_message_verified.
      split; [reflexivity|]. split; [exact Hver|].
      eexists. split; [reflexivity|].
      split; [exact Hfresh | apply truthy_str; exact Hnonce]. }
    split; [reflexivity|].
    do 5 (split; [reflexivity|]).
    split; [reflexivity|]. split; reflexivity.
Qed.

End WithLibraries.

(** ** Runs on concrete envelopes *)

Import Scenario.

Lemma resubmitted_envelope_accepted_witness :
  verify_secure_message Ref.lib Ref.key_manager (noon + seconds 200)
    signed0_env
  = Verified message0.
Proof.
  apply (resubmitted_envelope_accepted Ref.lib Ref.key_manager
           (noon + seconds 1) (noon + seconds 200) signed0_env message0).
  - vm_compute. reflexivity.
  - intros d Hd. vm_compute in Hd. injection Hd as <-.
    vm_compute. reflexivity.
Defined.

(** An envelope built by [create_secure_message] and accepted one second
    after it was stamped is accepted again, with the same message, one
    second later: the second submission is not rejected as a replay. *)
Lemma replayed_envelope_not_rejected :
  signed0 = Some signed0_env
  /\ verify_secure_message Ref.lib Ref.key_manager (noon + seconds 1)
       signed0_env
     = Verified message0
  /\ verify_secure_message Ref.lib Ref.key_manager (noon + seconds 2)
       signed0_env
     = Verified message0.
Proof. repeat split; vm_compute; reflexivity. Qed.

(** A timestamp 100 seconds ahead of the receiver's clock is within 300
    seconds of it and fails the freshness check; the signed envelope that
    carries it is rejected as too old. *)
Lemma timestamp_ahead_rejected :
  msg_time_of Ref.lib (PStr "2024-01-01T12:01:40Z")
  = Some (noon + seconds 100)
  /\ Z.abs (noon - (noon + seconds 100)) <= 300 * usec
  /\ _verify_timestamp Ref.lib noon (PStr "2024-01-01T12:01:40Z") 300 = false
  /\ signed_ahead = Some signed_ahead_env
  /\ verify_secure_message Ref.lib Ref.key_manager noon signed_ahead_env
     = Rejected "Message timestamp too old".
Proof.
  split; [vm_compute; reflexivity|].
  split; [unfold seconds, usec, noon; lia|].
  repeat split; vm_compute; reflexivity.
Qed.

Lemma freshness_window_one_sided_witness :
  (_verify_timestamp Ref.lib noon
     (PStr (_get_timestamp Ref.lib (noon + seconds 100))) 300 = true
   <-> 0 <= noon - (noon + seconds 100) <= 300 * usec)
  /\ _verify_timestamp Ref.lib noon
       (PStr (_get_timestamp Ref.lib (noon + seconds 100))) 300 = false.
Proof.
  destruct (freshness_window_one_sided Ref.lib Ref.key_manager noon
              (noon + seconds 100) PNone PNone PNone [] "")
    as (_ & _ & H).
  destruct H as [Hiff Hahead]; [vm_compute; reflexivity|].
  split; [exact Hiff|]. apply Hahead. unfold seconds, usec, noon. lia.
Defined.

(** The receiver's clock is given the time zone of the message before
    the two are subtracted, so a UTC offset in the timestamp is not
    applied: a timestamp that reads 11:59 at offset -05:00 counts as one
    minute old at 12:00 UTC. *)
Lemma offset_is_not_applied :
  msg_time_of Ref.lib (PStr "2024-01-01T11:59:00-05:00")
  = Some (noon - seconds 60)
  /\ _verify_timestamp Ref.lib noon (PStr "2024-01-01T11:59:00-05:00") 300
     = true.
Proof. split; vm_compute; reflexivity. Qed.

(** A payload that holds the tuple [(1, 4)] is JSON-serializable.  The
    envelope built for it with a recipient key verifies five seconds
    later, and the message returned holds the list [[1, 4]] in its
    place: the payload is not returned unchanged. *)
Lemma sealed_tuple_returns_list :
  JsonObjects.create_secure_message Ref.lib Ref.key_manager "fin-1" draws0
    "hub" "collaboration_request" MoreScenarios.tuple_payload (Some Ref.pem)
  = Some (JsonObjects.Sealed MoreScenarios.sealed_tuple_env)
  /\ verify_secure_message Ref.lib Ref.key_manager (noon + seconds 5)
       MoreScenarios.sealed_tuple_env
     = Verified MoreScenarios.tuple_message_returned
  /\ exists d,
       MoreScenarios.tuple_message_returned = PDict d
       /\ JsonObjects.of_json (get "payload" d)
          = JsonObjects.ODict
              [("range", JsonObjects.OList
                           [JsonObjects.OInt 1; JsonObjects.OInt 4])]
       /\ JsonObjects.of_json (get "payload" d)
          <> MoreScenarios.tuple_payload.
Proof.
  split; [vm_compute; reflexivity|].
  split; [vm_compute; reflexivity|].
  eexists. split; [reflexivity|].
  split; [vm_compute; reflexivity|]. vm_compute. discriminate.
Qed.

Lemma encrypted_signature_over_decrypted_text_witness :
  verify_secure_message Ref.lib Ref.key_manager noon sealed_unsorted_env
  = Verified message0.
Proof.
  apply (encrypted_signature_over_decrypted_text Ref.lib Ref.key_manager
           noon sealed_unsorted_env
           (get "encrypted_payload" sealed_unsorted_env)
           unsorted_text message0).
  - vm_compute. reflexivity.
  - vm_compute. reflexivity.
  - vm_compute. reflexivity.
  - vm_compute. reflexivity.
  - vm_compute. reflexivity.
  - vm_compute. discriminate.
  - vm_compute. reflexivity.
  - split; [reflexivity|]. split; [vm_compute; reflexivity|].
    eexists. split; [vm_compute; reflexivity|].
    split; vm_compute; reflexivity.
Defined.

(** An encrypted envelope whose plaintext lists the keys of the message
    unsorted and whose signature is over that plaintext: the signature
    does not match the sorted serialization of the parsed message, and
    the envelope verifies.  With a signature over the sorted
    serialization instead, the same ciphertext is rejected. *)
Lemma unsorted_plaintext_verifies :
  _decrypt_payload Ref.lib (get "encrypted_payload" sealed_unsorted_env)
  = Some unsorted_text
  /\ json_loads Ref.lib unsorted_text = Some message0
  /\ json_dumps Ref.lib true message0 <> Some unsorted_text
  /\ verify_signature Ref.key_manager (Ref.dumps true message0)
       (get "signature" sealed_unsorted_env)
       (get "sender_public_key" sealed_unsorted_env) = false
  /\ verify_secure_message Ref.lib Ref.key_manager noon sealed_unsorted_env
     = Verified message0
  /\ verify_signature Ref.key_manager (Ref.dumps true message0)
       (get "signature" sealed_unsorted_sorted_sig_env)
       (get "sender_public_key" sealed_unsorted_sorted_sig_env) = true
  /\ verify_secure_message Ref.lib Ref.key_manager noon
       sealed_unsorted_sorted_sig_env
     = Rejected "Invalid signature".
Proof.
  split; [vm_compute; reflexivity|].
  split; [vm_compute; reflexivity|].
  split; [vm_compute; discriminate|].
  repeat split; vm_compute; reflexivity.
Qed.

Lemma verify_create_round_trip_witness :
  exists env m d,
    create_secure_message Ref.lib Ref.key_manager "fin-1" draws0 "hub"
      "collaboration_request" payload0 (Some Ref.pem) = Some env
    /\ get "encrypted" env = PBool true
    /\ (lookup_key "message" env = None
        /\ exists ep,
             lookup_key "encrypted_payload" env = Some (PStr ep)
             /\ _decrypt_payload Ref.lib (PStr ep)
                = Some (Ref.dumps true message0))
    /\ verify_secure_message Ref.lib Ref.key_manager (noon + seconds 5) env
        = Verified m
    /\ m = PDict d
    /\ get "sender_id" d = PStr "fin-1"
    /\ get "recipient_id" d = PStr "hub"
    /\ get "message_type" d = PStr "collaboration_request"
    /\ get "timestamp" d = PStr (_get_timestamp Ref.lib noon)
    /\ get "nonce" d = PStr (token_hex draws0)
    /\ same_value (get "payload" d) payload0
    /\ same_value m message0
    /\ (encrypts (Some Ref.pem) = false -> m = message0).
Proof.
  apply (verify_create_round_trip Ref.lib Ref.key_manager "fin-1" draws0
           "hub" "collaboration_request" payload0 (Some Ref.pem)
           (noon + seconds 5) (Ref.dumps true message0)).
  - vm_compute. reflexivity.
  - split; [vm_compute; reflexivity|]. split; vm_compute; discriminate.
  - vm_compute. reflexivity.
  - change (clock draws0) with noon. unfold seconds, usec, noon. lia.
  - vm_compute. discriminate.
  - intros _. split; [vm_compute; discriminate|]. split.
    + split; [vm_compute; reflexivity|].
      eexists. split; [vm_compute; reflexivity|]. vm_compute. reflexivity.
    + unfold cipher_round_trip.
      destruct (aes_gcm_encrypt Ref.lib (aes_key draws0) (aes_iv draws0)
                  (Ref.dumps true message0)) as [ciphertext tag] eqn:E.
      vm_compute in E. injection E as <- <-.
      do 5 (split; [vm_compute; reflexivity|]).
      eexists. split; [split; [reflexivity|] | vm_compute; reflexivity].
      eexists. split; [vm_compute; reflexivity|]. vm_compute. reflexivity.
Defined.

End SecureMessagingFacts.

(* ===================================================================== *)
(** * Properties of the registry *)
(* ===================================================================== *)

Module AgentRegistryFacts.

Import AgentRegistry.

(** ** The index after each kind of update *)

Lemma ids_of_insert (ags : gmap string agent) (m : gmap string (list string))
    (c c' : string) (l : list string) :
  ids_of {| agents := ags; client_agents := <[c := l]> m |} c'
  = if decide (c = c') then l
    else ids_of {| agents := ags; client_agents := m |} c'.
Proof.
  unfold ids_of. simpl. destruct (decide (c = c')) as [->|Hne].
  - rewrite lookup_insert_eq. reflexivity.
  - rewrite lookup_insert_ne by exact Hne. reflexivity.
Qed.

Lemma ids_of_same_index (r r' : registry) (c : string) :
  client_agents r' = client_agents r -> ids_of r' c = ids_of r c.
Proof. unfold ids_of. intros ->. reflexivity. Qed.

Lemma list_remove_elem (x y : string) (l l' : list string) :
  list_remove x l = Some l' -> y ∈ l' -> y ∈ l.
Proof.
  revert l'. induction l as [|z l IH]; simpl; intros l' H Hy; [discriminate|].
  destruct (String.eqb x z).
  - injection H as <-. apply elem_of_cons. right. exact Hy.
  - destruct (list_remove x l) as [l0|]; simpl in H; [|discriminate].
    injection H as <-. apply elem_of_cons in Hy. apply elem_of_cons.
    destruct Hy as [->|Hy]; [left; reflexivity | right; eauto].
Qed.

Lemma list_remove_other (x y : string) (l l' : list string) :
  list_remove x l = Some l' -> y <> x -> y ∈ l -> y ∈ l'.
Proof.
  revert l'. induction l as [|z l IH]; simpl; intros l' H Hne Hy;
    [discriminate|].
  apply elem_of_cons in Hy.
  destruct (String.eqb_spec x z) as [->|Hxz].
  - injection H as <-. destruct Hy as [->|Hy]; [contradiction | exact Hy].
  - destruct (list_remove x l) as [l0|]; simpl in H; [|discriminate].
    injection H as <-. apply elem_of_cons.
    destruct Hy as [->|Hy]; [left; reflexivity | right; eauto].
Qed.

(** ** What a registration does *)

Section WithAttestation.

Context (ac : AttestationClient).

(** A call of [register_agent] either leaves the registry as it was, or
    is admitted, stores the new record under the agent id and appends
    the id to the client's list. *)
Lemma register_agent_cases (r : registry) (now : Z) (d : AgentRegistration)
    (client : string) :
  (fst (register_agent ac r now d client) = r
   /\ forall id meas,
        snd (register_agent ac r now d client) <> Registered id meas)
  \/ exists vr,
       admits ac (reg_agent_id d) client (CallRegister now d client) = true
       /\ register_agent ac r now d client
          = ({| agents :=
                  <[reg_agent_id d := new_record now d client vr]> (agents r);
                client_agents :=
                  <[client := (ids_of r client ++ [reg_agent_id d])%list]>
                    (client_agents r) |},
             Registered (reg_agent_id d) (measurements (new_record now d client vr))).
Proof.
  unfold register_agent, admits.
  rewrite !String.eqb_refl. simpl.
  destruct (truthy (get "quote" (reg_attestation_data d))); simpl;
    [|left; split; [reflexivity | discriminate]].
  destruct (truthy (get "public_key" (reg_attestation_data d))); simpl;
    [|left; split; [reflexivity | discriminate]].
  destruct (verify_attestation_quote ac (get "quote" (reg_attestation_data d)))
    as [[[] vr]|]; simpl.
  - right. exists vr. split; reflexivity.
  - left. split; [reflexivity | discriminate].
  - left. split; [reflexivity | discriminate].
Qed.

(** ** An invariant of every history *)

Lemma listed_and_owned_mono (P Q : string -> string -> Prop) (r : registry) :
  (forall id c, P id c -> Q id c) ->
  listed_and_owned P r -> listed_and_owned Q r.
Proof. intros HPQ [H1 H2]. split; [intros c id H; auto | exact H2]. Qed.

Lemma keeps_owners_refl (r : registry) : keeps_owners r r.
Proof. split; [reflexivity|]. intros id a H. exists a. auto. Qed.

Lemma keeps_owners_trans (r1 r2 r3 : registry) :
  keeps_owners r1 r2 -> keeps_owners r2 r3 -> keeps_owners r1 r3.
Proof.
  intros [Hc1 Ha1] [Hc2 Ha2]. split; [congruence|].
  intros id a3 H3. destruct (Ha2 _ _ H3) as (a2 & H2 & Hid2 & Hcl2).
  destruct (Ha1 _ _ H2) as (a1 & H1 & Hid1 & Hcl1).
  exists a1. repeat split; congruence.
Qed.

(** Replacing a record by one with the same id and owner. *)
Lemma keeps_owners_update (r : registry) (id : string) (a a' : agent) :
  agents r !! id = Some a ->
  agent_id a' = agent_id a -> client_id a' = client_id a ->
  keeps_owners r {| agents := <[id := a']> (agents r);
                    client_agents := client_agents r |}.
Proof.
  intros Ha Hid Hcl. split; [reflexivity|]. simpl. intros id' x Hx.
  destruct (decide (id = id')) as [<-|Hne].
  - rewrite lookup_insert_eq in Hx. injection Hx as <-. exists a. auto.
  - rewrite lookup_insert_ne in Hx by exact Hne. exists x. auto.
Qed.

Lemma listed_and_owned_keeps (P : string -> string -> Prop)
    (r r' : registry) :
  keeps_owners r r' -> listed_and_owned P r -> listed_and_owned P r'.
Proof.
  intros [Hc Ha] [H1 H2]. split.
  - intros c id. rewrite (ids_of_same_index r r' c Hc). apply H1.
  - intros id a' H'. destruct (Ha _ _ H') as (a & Hr & Hid & Hcl).
    destruct (H2 _ _ Hr) as [Hk Hin].
    rewrite (ids_of_same_index r r' _ Hc), Hid, Hcl. auto.
Qed.

Lemma check_one_keeps (now : Z) (r : registry) (hs : health_status)
    (id : string) :
  keeps_owners r (fst (check_one now (r, hs) id)).
Proof.
  unfold check_one. destruct (agents r !! id) as [a|] eqn:Ha;
    [|apply keeps_owners_refl].
  destruct (now - last_seen a <? minutes 5); [apply keeps_owners_refl|].
  destruct (now - last_seen a <? minutes 15); [apply keeps_owners_refl|].
  simpl. eapply keeps_owners_update; eauto.
Qed.

Lemma check_fold_keeps (now : Z) (l : list string) (r : registry)
    (hs : health_status) :
  keeps_owners r (fst (fold_left (check_one now) l (r, hs))).
Proof.
  revert r hs. induction l as [|id l IH]; intros r hs;
    [apply keeps_owners_refl|].
  change (fold_left (check_one now) (id :: l) (r, hs))
    with (fold_left (check_one now) l (check_one now (r, hs) id)).
  pose proof (check_one_keeps now r hs id) as H1.
  destruct (check_one now (r, hs) id) as [r1 hs1].
  eapply keeps_owners_trans; [exact H1 | apply IH].
Qed.

Lemma get_agent_Some (r : registry) (id client : string) (a : agent) :
  get_agent r id client = Some a
  <-> agents r !! id = Some a /\ client_id a = client.
Proof.
  unfold get_agent. destruct (agents r !! id) as [x|].
  - destruct (String.eqb_spec (client_id x) client) as [He|Hne].
    + split; [intros H; injection H as <-; auto | intros [H _]; exact H].
    + split; [discriminate|]. intros [H Hc]. injection H as ->. contradiction.
  - split; [discriminate | intros [H _]; discriminate].
Qed.

(** One call keeps the invariant, for the history extended by the call. *)
Lemma listed_and_owned_step (P : string -> string -> Prop) (r : registry)
    (c : call) :
  listed_and_owned P r ->
  listed_and_owned (fun id cl => P id cl \/ admits ac id cl c = true)
    (run_call ac r c).
Proof.
  intros Hinv.
  assert (Hweak : listed_and_owned
                    (fun id cl => P id cl \/ admits ac id cl c = true) r).
  { eapply listed_and_owned_mono; [|exact Hinv]. intros; left; assumption. }
  destruct c as [now d client|now id client|now client|id client]; simpl.
  - (* register *)
    destruct (register_agent_cases r now d client)
      as [[-> _]|(vr & Hadm & ->)]; [exact Hweak|].
    destruct Hinv as [H1 H2]. simpl. split.
    + intros c id. rewrite ids_of_insert.
      destruct (decide (client = c)) as [<-|Hne].
      * rewrite elem_of_app, list_elem_of_singleton.
        intros [Hin| ->]; [left; apply H1; exact Hin | right; exact Hadm].
      * destruct r; intros Hin. left. apply H1. exact Hin.
    + intros id a. simpl.
      destruct (decide (reg_agent_id d = id)) as [<-|Hne].
      * rewrite lookup_insert_eq. intros H. injection H as <-. simpl.
        split; [reflexivity|]. rewrite ids_of_insert.
        rewrite decide_True by reflexivity.
        rewrite elem_of_app, list_elem_of_singleton. right. reflexivity.
      * rewrite lookup_insert_ne by exact Hne. intros H.
        destruct (H2 _ _ H) as [Hid Hin]. split; [exact Hid|].
        rewrite ids_of_insert.
        destruct (decide (client = client_id a)) as [He|Hne'].
        -- rewrite elem_of_app. left. rewrite He. exact Hin.
        -- destruct r; exact Hin.
  - (* heartbeat *)
    unfold update_agent_heartbeat.
    destruct (get_agent r id client) as [a|] eqn:Hg; [|exact Hweak]. simpl.
    apply get_agent_Some in Hg. destruct Hg as [Ha _].
    eapply listed_and_owned_keeps; [|exact Hweak].
    eapply keeps_owners_update; eauto.
  - (* health sweep *)
    eapply listed_and_owned_keeps; [|exact Hweak].
    apply check_fold_keeps.
  - (* remove *)
    unfold remove_agent.
    destruct (get_agent r id client) as [a|] eqn:Hg; [|exact Hweak].
    apply get_agent_Some in Hg. destruct Hg as [Ha Hcl].
    destruct Hweak as [H1 H2].
    destruct (client_agents r !! client ≫= list_remove id) as [l|] eqn:Hl;
      simpl.
    + destruct (client_agents r !! client) as [l0|] eqn:Hl0; simpl in Hl;
        [|discriminate].
      assert (Hids : ids_of r client = l0) by (unfold ids_of; rewrite Hl0; reflexivity).
      split.
      * intros c id'. rewrite ids_of_insert.
        destruct (decide (client = c)) as [<-|Hne].
        -- intros Hin. apply H1. rewrite Hids.
           eapply list_remove_elem; eauto.
        -- destruct r; intros Hin. apply H1. exact Hin.
      * intros id' x. simpl. intros Hx.
        apply lookup_delete_Some in Hx. destruct Hx as [Hne Hx].
        destruct (H2 _ _ Hx) as [Hid Hin]. split; [exact Hid|].
        rewrite ids_of_insert.
        destruct (decide (client = client_id x)) as [He|Hne'].
        -- rewrite <- He, Hids in Hin.
           eapply list_remove_other; eauto.
        -- destruct r; exact Hin.
    + split.
      * intros c id'. apply H1.
      * intros id' x. simpl. intros Hx.
        apply lookup_delete_Some in Hx. destruct Hx as [Hne Hx].
        apply (H2 _ _ Hx).
Qed.

Lemma run_snoc (h : list call) (c : call) :
  run ac (h ++ [c])%list = run_call ac (run ac h) c.
Proof. unfold run. rewrite fold_left_app. reflexivity. Qed.

(** After any history: an id listed for a client was admitted under that
    client by a call of the history, and every stored record sits under
    its own id and is listed for its owner. *)
Lemma run_listed_and_owned (h : list call) :
  listed_and_owned
    (fun id cl => Exists (fun c => admits ac id cl c = true) h)
    (run ac h).
Proof.
  induction h as [|c h IH] using rev_ind.
  - split.
    + intros c id. unfold ids_of, run. simpl. rewrite lookup_empty. simpl.
      intros H. apply elem_of_nil in H. contradiction.
    + intros id a. unfold run. simpl. rewrite lookup_empty. discriminate.
  - rewrite run_snoc.
    eapply listed_and_owned_mono; [|apply listed_and_owned_step; exact IH].
    simpl. intros id cl [H|H]; apply Exists_app; [left; exact H|].
    right. apply Exists_cons. left. exact H.
Qed.

(** ** Lookups *)

Lemma elem_of_get_all_agents (r : registry) (client : string) (a : agent) :
  a ∈ get_all_agents r client
  <-> exists id, id ∈ ids_of r client /\ agents r !! id = Some a.
Proof. unfold get_all_agents. apply list_elem_of_omap. Qed.

Lemma elem_of_get_agents_by_capability (r : registry) (cap client : string)
    (a : agent) :
  a ∈ get_agents_by_capability r cap client
  <-> exists id, id ∈ ids_of r client /\ agents r !! id = Some a
        /\ existsb (String.eqb cap) (capabilities a) = true
        /\ status a = VERIFIED.
Proof.
  unfold get_agents_by_capability. rewrite list_elem_of_omap.
  split; intros (id & Hin & H); exists id; (split; [exact Hin|]).
  - destruct (agents r !! id) as [x|]; [|discriminate].
    destruct (existsb (String.eqb cap) (capabilities x)) eqn:Hc;
      [|discriminate].
    destruct (bool_decide (status x = VERIFIED)) eqn:Hs; [|discriminate].
    simpl in H. injection H as <-. apply bool_decide_eq_true in Hs. auto.
  - destruct H as (-> & -> & Hs).
    rewrite (bool_decide_eq_true_2 _ Hs). reflexivity.
Qed.

Lemma elem_of_get_agent_directory (r : registry) (now : Z) (client : string)
    (e : directory_entry) :
  e ∈ get_agent_directory r now client ->
  exists a, d_agent_id e ∈ ids_of r client
            /\ agents r !! d_agent_id e = Some a.
Proof.
  unfold get_agent_directory. rewrite list_elem_of_omap.
  intros (id & Hin & H).
  destruct (agents r !! id) as [x|] eqn:Hx; [|discriminate].
  destruct (bool_decide (status x = VERIFIED)); [|discriminate].
  injection H as <-. simpl. eauto.
Qed.

(** For distinct clients C1 and C2 and an agent A that is
    registered under C1 and was never admitted under C2 by any call of
    the history, the lookups made with C2 do not return it: [get_agent]
    answers not-found, and neither [get_all_agents] nor the capability
    search nor the directory view of C2 contains a record with A's id. *)
Theorem client_isolation (h : list call) (A C1 C2 : string) (a : agent) :
  C1 <> C2 ->
  get_agent (run ac h) A C1 = Some a ->
  Forall (fun c => admits ac A C2 c = false) h ->
  get_agent (run ac h) A C2 = None
  /\ (forall x, x ∈ get_all_agents (run ac h) C2 -> agent_id x <> A)
  /\ (forall cap x,
        x ∈ get_agents_by_capability (run ac h) cap C2 -> agent_id x <> A)
  /\ (forall now e,
        e ∈ get_agent_directory (run ac h) now C2 -> d_agent_id e <> A).
Proof.
  intros Hne Hreg Hnever.
  destruct (run_listed_and_owned h) as [Hlisted Howned].
  assert (Hout : A ∉ ids_of (run ac h) C2).
  { intros Hin. apply Hlisted in Hin. apply Exists_exists in Hin.
    destruct Hin as (c & Hc & Hadm).
    rewrite Forall_forall in Hnever. rewrite (Hnever c Hc) in Hadm.
    discriminate. }
  apply get_agent_Some in Hreg. destruct Hreg as [Ha Hcl].
  split; [|split; [|split]].
  - unfold get_agent. rewrite Ha.
    destruct (String.eqb_spec (client_id a) C2); [congruence | reflexivity].
  - intros x Hx Heq. apply elem_of_get_all_agents in Hx.
    destruct Hx as (id & Hin & Hid).
    destruct (Howned _ _ Hid) as [Hk _]. apply Hout. congruence.
  - intros cap x Hx Heq. apply elem_of_get_agents_by_capability in Hx.
    destruct Hx as (id & Hin & Hid & _).
    destruct (Howned _ _ Hid) as [Hk _]. apply Hout. congruence.
  - intros now e He Heq. apply elem_of_get_agent_directory in He.
    destruct He as (x & Hin & _). apply Hout. congruence.
Qed.

(** C10.  The records are stored under the agent id alone.  When A is
    registered under C1 and a registration of the same id under another
    client C2 is admitted, the stored record is replaced by the new one,
    owned by C2: [get_agent] with C1 answers not-found, while C1's list
    still holds A, so [get_all_agents] with C1, and the capability search
    with C1 for each capability of the new record, return the record that
    C2 owns. *)
Theorem reregistration_under_other_client (h : list call) (now : Z)
    (d : AgentRegistration) (C1 C2 : string) (a0 : agent) (r' : registry)
    (meas : pyval) :
  C1 <> C2 ->
  get_agent (run ac h) (reg_agent_id d) C1 = Some a0 ->
  register_agent ac (run ac h) now d C2
  = (r', Registered (reg_agent_id d) meas) ->
  exists a',
    agents r' = <[reg_agent_id d := a']> (agents (run ac h))
    /\ agent_id a' = reg_agent_id d
    /\ client_id a' = C2
    /\ get_agent r' (reg_agent_id d) C1 = None
    /\ get_agent r' (reg_agent_id d) C2 = Some a'
    /\ reg_agent_id d ∈ ids_of r' C1
    /\ a' ∈ get_all_agents r' C1
    /\ (forall cap, cap ∈ reg_capabilities d ->
         a' ∈ get_agents_by_capability r' cap C1).
Proof.
  intros Hne Hreg Hcall.
  destruct (run_listed_and_owned h) as [_ Howned].
  apply get_agent_Some in Hreg. destruct Hreg as [Ha0 Hcl0].
  destruct (Howned _ _ Ha0) as [_ Hin]. rewrite Hcl0 in Hin.
  destruct (register_agent_cases (run ac h) now d C2)
    as [[_ Hno]|(vr & _ & Heq)].
  { rewrite Hcall in Hno. exfalso. eapply Hno. reflexivity. }
  rewrite Heq in Hcall. injection Hcall as <- _.
  set (a' := new_record now d C2 vr).
  assert (Hin' : reg_agent_id d
                 ∈ ids_of {| agents := <[reg_agent_id d := a']>
                                         (agents (run ac h));
                             client_agents :=
                               <[C2 := (ids_of (run ac h) C2
                                        ++ [reg_agent_id d])%list]>
                                 (client_agents (run ac h)) |} C1).
  { rewrite ids_of_insert. rewrite decide_False by congruence.
    destruct (run ac h); exact Hin. }
  exists a'. split; [reflexivity|]. split; [reflexivity|].
  split; [reflexivity|]. split; [|split; [|split; [exact Hin'|split]]].
  - unfold get_agent. simpl. rewrite lookup_insert_eq. simpl.
    destruct (String.eqb_spec C2 C1); [congruence | reflexivity].
  - unfold get_agent. simpl. rewrite lookup_insert_eq. simpl.
    rewrite String.eqb_refl. reflexivity.
  - apply elem_of_get_all_agents. exists (reg_agent_id d).
    split; [exact Hin'|]. simpl. apply lookup_insert_eq.
  - intros cap Hcap. apply elem_of_get_agents_by_capability.
    exists (reg_agent_id d). split; [exact Hin'|]. simpl.
    split; [apply lookup_insert_eq|]. split; [|reflexivity].
    apply existsb_exists. exists cap.
    split; [apply list_elem_of_In; exact Hcap | apply String.eqb_refl].
Qed.

(** A registration that is admitted appends the agent id to the client's
    list whether or not the list already holds it. *)
Lemma register_agent_appends (r r' : registry) (now : Z)
    (d : AgentRegistration) (client : string) (meas : pyval) :
  register_agent ac r now d client = (r', Registered (reg_agent_id d) meas) ->
  ids_of r' client = (ids_of r client ++ [reg_agent_id d])%list.
Proof.
  intros Hcall.
  destruct (register_agent_cases r now d client) as [[_ Hno]|(vr & _ & Heq)].
  { rewrite Hcall in Hno. exfalso. eapply Hno. reflexivity. }
  rewrite Heq in Hcall. injection Hcall as <- _.
  rewrite ids_of_insert. rewrite decide_True by reflexivity. reflexivity.
Qed.

End WithAttestation.

(** ** Runs on concrete histories *)

Import Scenario.

Lemma client_isolation_witness :
  get_agent (run Ref.attestation_client one_agent) "fin-1" "globex" = None
  /\ (forall x, x ∈ get_all_agents (run Ref.attestation_client one_agent)
                     "globex" -> agent_id x <> "fin-1")
  /\ (forall cap x,
        x ∈ get_agents_by_capability (run Ref.attestation_client one_agent)
              cap "globex" -> agent_id x <> "fin-1")
  /\ (forall now e,
        e ∈ get_agent_directory (run Ref.attestation_client one_agent)
              now "globex" -> d_agent_id e <> "fin-1").
Proof.
  apply (client_isolation Ref.attestation_client one_agent "fin-1" "acme"
           "globex" (new_record noon reg_fin "acme"
                       [("measurements", PDict [("mrtd", PStr "tdx:finance")])])).
  - discriminate.
  - vm_compute. reflexivity.
  - repeat constructor.
Defined.

(** C8 on the code.  The agent [fin-1] registers under [globex] and then
    under [acme].  Its one record is owned by [acme] and [get_agent]
    with [globex] answers not-found, but [globex]'s list still holds the
    id and no enumeration tests the owner: [get_all_agents], the
    capability search and the directory view made with [globex] all
    return the agent that [acme] owns. *)
Theorem enumerations_return_other_clients_agent :
  let r := run Ref.attestation_client MoreScenarios.moved_agent in
  let a := MoreScenarios.fin_record_acme in
  size (agents r) = 1%nat
  /\ client_id a = "acme"
  /\ get_agent r "fin-1" "acme" = Some a
  /\ get_agent r "fin-1" "globex" = None
  /\ ids_of r "globex" = ["fin-1"]
  /\ get_all_agents r "globex" = [a]
  /\ get_agents_by_capability r "roi_calculation" "globex" = [a]
  /\ d_agent_id <$> get_agent_directory r (noon + seconds 2) "globex"
     = ["fin-1"].
Proof. repeat split; vm_compute; reflexivity. Qed.

(** C9 on the code.  The same agent registers twice under the same
    client: the table of records holds one record, the client's list
    holds the id twice, and both enumerations return the agent twice. *)
Theorem reregistration_lists_agent_twice :
  let r := run Ref.attestation_client same_agent_twice in
  size (agents r) = 1%nat
  /\ ids_of r "acme" = ["fin-1"; "fin-1"]
  /\ agent_id <$> get_all_agents r "acme" = ["fin-1"; "fin-1"]
  /\ d_agent_id <$> get_agent_directory r (noon + seconds 2) "acme"
     = ["fin-1"; "fin-1"].
Proof. repeat split; vm_compute; reflexivity. Qed.

Lemma reregistration_under_other_client_witness :
  exists a',
    agents (fst (register_agent Ref.attestation_client
                   (run Ref.attestation_client one_agent)
                   (noon + seconds 1) reg_fin "globex"))
    = <[reg_agent_id reg_fin := a']>
        (agents (run Ref.attestation_client one_agent))
    /\ agent_id a' = reg_agent_id reg_fin
    /\ client_id a' = "globex"
    /\ get_agent (fst (register_agent Ref.attestation_client
                         (run Ref.attestation_client one_agent)
                         (noon + seconds 1) reg_fin "globex"))
         (reg_agent_id reg_fin) "acme" = None
    /\ get_agent (fst (register_agent Ref.attestation_client
                         (run Ref.attestation_client one_agent)
                         (noon + seconds 1) reg_fin "globex"))
         (reg_agent_id reg_fin) "globex" = Some a'
    /\ reg_agent_id reg_fin
       ∈ ids_of (fst (register_agent Ref.attestation_client
                        (run Ref.attestation_client one_agent)
                        (noon + seconds 1) reg_fin "globex")) "acme"
    /\ a' ∈ get_all_agents
              (fst (register_agent Ref.attestation_client
                      (run Ref.attestation_client one_agent)
                      (noon + seconds 1) reg_fin "globex")) "acme"
    /\ (forall cap, cap ∈ reg_capabilities reg_fin ->
         a' ∈ get_agents_by_capability
                (fst (register_agent Ref.attestation_client
                        (run Ref.attestation_client one_agent)
                        (noon + seconds 1) reg_fin "globex")) cap "acme").
Proof.
  apply (reregistration_under_other_client Ref.attestation_client one_agent
           (noon + seconds 1) reg_fin "acme" "globex"
           (new_record noon reg_fin "acme"
              [("measurements", PDict [("mrtd", PStr "tdx:finance")])])
           _ (PDict [("mrtd", PStr "tdx:finance")])).
  - discriminate.
  - vm_compute. reflexivity.
  - reflexivity.
Defined.

End AgentRegistryFacts.

(* ===================================================================== *)
(** * Properties of the orchestration engine *)
(* ===================================================================== *)

Module OrchestrationEngineFacts.

Import AgentRegistry VMCommunication UnifiedLLMManager OrchestrationEngine.

(** ** Dispatch *)

(** A failed dispatch is reported as a dictionary with an [error] key. *)
Lemma send_to_agent_failed (eps : gmap string string) (agent_type : string)
    (data : pydict) (o : http_outcome) :
  dispatch_failed eps agent_type o = true ->
  exists msg rest,
    send_to_agent eps agent_type data o = PDict (("error", PStr msg) :: rest).
Proof.
  unfold dispatch_failed, send_to_agent.
  destruct (eps !! agent_type); [|eauto].
  destruct o; [discriminate | eauto | eauto | eauto].
Qed.

Lemma pick_target_elem (available : list agent) (d : routing_decision)
    (first : agent) :
  first ∈ available -> fst (pick_target available d first) ∈ available.
Proof.
  unfold pick_target. intros Hfirst.
  destruct (find _ available) as [a|] eqn:Hf; simpl; [|exact Hfirst].
  apply find_some in Hf. apply list_elem_of_In. tauto.
Qed.

Section WithLibraries.

Context (lib : PyLib).

Local Abbreviation route_request := (route_request lib).
Local Abbreviation process_collaboration_response :=
  (process_collaboration_response lib).

(** ** Routing *)

(** The entry [route_request] stores for a target. *)
Lemma route_request_cases (eps : gmap string string) (reg : registry)
    (i : route_inputs) (s : gmap string active_request)
    (d : OrchestrationRequest) (client : string) :
  (candidates reg (requesting_agent d) client = []
   /\ route_request eps reg i s d client = (s, NoAgents))
  \/ exists target decision,
       target ∈ candidates reg (requesting_agent d) client
       /\ fst (route_request eps reg i s d client)
          = <[new_routing_id i :=
                {| routing_id := new_routing_id i; request_data := d;
                   target_agent := target; ar_client_id := client;
                   started_at := now i; responses := None |}]> s
       /\ match json_dumps lib false
                  (PDict (_prepare_data_package lib (now i) d client)) with
          | None => snd (route_request eps reg i s d client) = RoutingFailed
          | Some text =>
              snd (route_request eps reg i s d client)
              = Routed (new_routing_id i) (agent_id target)
                  (agent_type target) (reasoning decision)
                  (estimated_time decision)
                  (Z.of_nat (String.length text)) (now i)
                  (send_to_agent eps (agent_type target)
                     (dispatch_data (new_routing_id i) d
                        (_prepare_data_package lib (now i) d client) decision)
                     (outcome i))
          end.
Proof.
  unfold OrchestrationEngine.route_request.
  destruct (candidates reg (requesting_agent d) client) as [|first rest] eqn:Hc;
    [left; split; reflexivity|].
  right.
  pose proof (pick_target_elem (first :: rest)
                (route_to_agent (rand_time i) (rand_conf i) (query d)
                   (first :: rest)) first) as Helem.
  destruct (pick_target (first :: rest) _ first) as [target decision].
  exists target, decision.
  split; [apply Helem; apply elem_of_cons; left; reflexivity|].
  destruct (json_dumps lib false
              (PDict (_prepare_data_package lib (now i) d client)));
    split; reflexivity.
Qed.

(** The target chosen for a request is never the requesting agent, and
    its status is [verified]. *)
Lemma candidates_spec (reg : registry) (requesting : option string)
    (client : string) (a : agent) :
  a ∈ candidates reg requesting client ->
  Some (agent_id a) <> requesting /\ status a = VERIFIED
  /\ a ∈ get_all_agents reg client.
Proof.
  unfold candidates. rewrite list_elem_of_filter. tauto.
Qed.

(** C3, as the code has it.  When [route_request] finds a candidate, it
    stores the entry for the new routing id before it dispatches, and the
    entry is in the table when the call returns whatever the dispatch
    does.  A failed dispatch is not an error of the call: it comes back
    inside the routing result, as the [collaboration_result]. *)
Theorem entry_stored_before_dispatch (eps : gmap string string)
    (reg : registry) (i : route_inputs) (s : gmap string active_request)
    (d : OrchestrationRequest) (client : string) :
  candidates reg (requesting_agent d) client <> [] ->
  exists a,
    fst (route_request eps reg i s d client) = <[new_routing_id i := a]> s
    /\ routing_id a = new_routing_id i
    /\ request_data a = d
    /\ ar_client_id a = client
    /\ responses a = None
    /\ target_agent a ∈ candidates reg (requesting_agent d) client
    /\ forall text,
         json_dumps lib false
           (PDict (_prepare_data_package lib (now i) d client)) = Some text ->
         dispatch_failed eps (agent_type (target_agent a)) (outcome i) = true ->
         exists why minutes msg rest,
           snd (route_request eps reg i s d client)
           = Routed (new_routing_id i) (agent_id (target_agent a))
               (agent_type (target_agent a)) why minutes
               (Z.of_nat (String.length text)) (now i)
               (PDict (("error", PStr msg) :: rest)).
Proof.
  intros Hsome.
  destruct (route_request_cases eps reg i s d client)
    as [[Hnone _]|(target & decision & Helem & Hfst & Hsnd)];
    [contradiction|].
  eexists. split; [exact Hfst|]. simpl.
  do 4 (split; [reflexivity|]). split; [exact Helem|].
  intros text Htext Hfail. rewrite Htext in Hsnd.
  destruct (send_to_agent_failed eps (agent_type target)
              (dispatch_data (new_routing_id i) d
                 (_prepare_data_package lib (now i) d client) decision)
              (outcome i) Hfail) as (msg & rest & Hsend).
  rewrite Hsend in Hsnd. eauto.
Qed.

(** The agent a request is routed to is one of the client's agents, is
    verified, and is not the requesting agent. *)
Lemma routed_target_not_requester (eps : gmap string string) (reg : registry)
    (i : route_inputs) (s : gmap string active_request)
    (d : OrchestrationRequest) (client : string) (rid tid ttype why : string)
    (minutes size at_ : Z) (cr : pyval) :
  snd (route_request eps reg i s d client)
  = Routed rid tid ttype why minutes size at_ cr ->
  Some tid <> requesting_agent d
  /\ exists target,
       target ∈ get_all_agents reg client
       /\ agent_id target = tid /\ agent_type target = ttype
       /\ status target = VERIFIED.
Proof.
  intros H.
  destruct (route_request_cases eps reg i s d client)
    as [[_ Hno]|(target & decision & Helem & _ & Hsnd)].
  { rewrite Hno in H. discriminate. }
  destruct (json_dumps lib false
              (PDict (_prepare_data_package lib (now i) d client)));
    rewrite Hsnd in H; [|discriminate].
  injection H as _ <- <- _ _ _ _ _.
  apply candidates_spec in Helem. destruct Helem as (Hne & Hst & Hall).
  split; [exact Hne|]. exists target. auto.
Qed.

(** ** Responses *)

(** The entry after a response has been appended to its history. *)
Lemma responses_appended (a0 : active_request) (e : pydict) :
  responses_of (set_responses (responses_of a0 ++ [e])%list a0)
  = (responses_of a0 ++ [e])%list.
Proof. reflexivity. Qed.

Lemma needs_more_bound (a : active_request) (d : pydict) :
  _needs_additional_collaboration a d = Some true ->
  (length (responses_of a) < 2)%nat.
Proof.
  unfold _needs_additional_collaboration.
  destruct (get_default "result" (PDict []) d); try discriminate.
  destruct (2 <=? length (responses_of a))%nat eqn:Hlen; [discriminate|].
  intros _. apply Nat.leb_gt in Hlen. exact Hlen.
Qed.

(** The ways a call of [process_collaboration_response] ends. *)
Lemma process_cases (eps : gmap string string) (reg : registry)
    (i : route_inputs) (s : gmap string active_request) (rid : string)
    (d : pydict) :
  match s !! rid with
  | None =>
      process_collaboration_response eps reg i s rid d = (s, UnknownRoutingId)
  | Some a0 =>
      let a :=
        set_responses
          (responses_of a0 ++ [response_entry lib (now i) d])%list a0 in
      let s1 := <[rid := a]> s in
      process_collaboration_response eps reg i s rid d = (s1, ResponseFailed)
      \/ (exists synthesis,
            synthesize_results lib (responses_of a) = Some synthesis
            /\ process_collaboration_response eps reg i s rid d
               = (delete rid s1,
                  Completed rid synthesis (responses_of a) (now i)))
      \/ (_needs_additional_collaboration a d = Some true
          /\ process_collaboration_response eps reg i s rid d
             = (fst (route_request eps reg i s1 (request_data a)
                       (ar_client_id a)),
                Rerouted (snd (route_request eps reg i s1 (request_data a)
                                 (ar_client_id a)))))
  end.
Proof.
  unfold OrchestrationEngine.process_collaboration_response.
  destruct (s !! rid) as [a0|]; [|reflexivity].
  cbv zeta.
  set (a := set_responses _ a0).
  assert (Hfin : forall s1,
            finalize lib (now i) s1 rid a = (s1, ResponseFailed)
            \/ exists synthesis,
                 synthesize_results lib (responses_of a) = Some synthesis
                 /\ finalize lib (now i) s1 rid a
                    = (delete rid s1,
                       Completed rid synthesis (responses_of a) (now i))).
  { intros s1. unfold finalize.
    destruct (synthesize_results lib (responses_of a)) as [syn|];
      [right; eauto | left; reflexivity]. }
  destruct (_needs_additional_collaboration a d) as [[]|] eqn:Hneeds.
  - destruct (_determine_next_agent reg a) as [[next|]|].
    + right. right. split; [reflexivity|].
      destruct (OrchestrationEngine.route_request lib eps reg i
                  (<[rid := a]> s) (request_data a) (ar_client_id a));
        reflexivity.
    + destruct (Hfin (<[rid := a]> s)) as [H|H]; [left|right; left]; exact H.
    + left. reflexivity.
  - destruct (Hfin (<[rid := a]> s)) as [H|H]; [left|right; left]; exact H.
  - left. reflexivity.
Qed.

(** An escalation is a plain second call of [route_request] on the
    stored request: the agent found by [_determine_next_agent] is not
    passed on. *)
Lemma escalation_is_plain_reroute (eps : gmap string string) (reg : registry)
    (i : route_inputs) (s s' : gmap string active_request) (rid : string)
    (d : pydict) (r : route_result) :
  process_collaboration_response eps reg i s rid d = (s', Rerouted r) ->
  exists a0,
    s !! rid = Some a0
    /\ let a :=
         set_responses
           (responses_of a0 ++ [response_entry lib (now i) d])%list a0 in
       (s', r) = route_request eps reg i (<[rid := a]> s) (request_data a0)
                   (ar_client_id a0).
Proof.
  intros H. pose proof (process_cases eps reg i s rid d) as Hc.
  destruct (s !! rid) as [a0|]; [|congruence].
  exists a0. split; [reflexivity|]. cbv zeta in *.
  destruct Hc as [Hc|[(syn & _ & Hc)|[_ Hc]]]; rewrite Hc in H;
    try discriminate.
  injection H as <- <-. symmetry. apply surjective_pairing.
Qed.

(** ** The bound on the response history *)

Lemma route_request_keeps_bound (rid : string) (eps : gmap string string)
    (reg : registry) (i : route_inputs) (s : gmap string active_request)
    (d : OrchestrationRequest) (client : string) :
  at_most_one_response rid s ->
  at_most_one_response rid (fst (route_request eps reg i s d client)).
Proof.
  intros Hs.
  destruct (route_request_cases eps reg i s d client)
    as [[_ ->]|(target & decision & _ & -> & _)]; [exact Hs|].
  intros a. destruct (decide (new_routing_id i = rid)) as [<-|Hne].
  - rewrite lookup_insert_eq. intros H. injection H as <-. simpl. lia.
  - rewrite lookup_insert_ne by exact Hne. apply Hs.
Qed.

Lemma process_keeps_bound (rid : string) (eps : gmap string string)
    (reg : registry) (i : route_inputs) (s : gmap string active_request)
    (rid' : string) (d : pydict) :
  at_most_one_response rid s ->
  (rid' = rid ->
   snd (process_collaboration_response eps reg i s rid' d) <> ResponseFailed) ->
  at_most_one_response rid
    (fst (process_collaboration_response eps reg i s rid' d)).
Proof.
  intros Hs Hok. pose proof (process_cases eps reg i s rid' d) as Hc.
  destruct (s !! rid') as [a0|] eqn:Ha0; [|rewrite Hc; exact Hs].
  cbv zeta in Hc.
  destruct Hc as [Hc|[(syn & _ & Hc)|[Hneeds Hc]]]; rewrite Hc in *; simpl.
  - intros a. destruct (decide (rid' = rid)) as [He|Hne].
    + exfalso. apply (Hok He). reflexivity.
    + rewrite lookup_insert_ne by exact Hne. apply Hs.
  - intros a Hl. apply lookup_delete_Some in Hl. destruct Hl as [Hne Hl].
    rewrite lookup_insert_ne in Hl by exact Hne. apply Hs. exact Hl.
  - apply route_request_keeps_bound.
    intros a. destruct (decide (rid' = rid)) as [He|Hne].
    + subst rid'. rewrite lookup_insert_eq. intros H. injection H as <-.
      apply needs_more_bound in Hneeds. lia.
    + rewrite lookup_insert_ne by exact Hne. apply Hs.
Qed.

Lemma run_call_keeps_bound (rid : string) (s : gmap string active_request)
    (c : call) :
  at_most_one_response rid s ->
  handled lib rid s c = true ->
  at_most_one_response rid (fst (run_call lib s c)).
Proof.
  intros Hs Hh. unfold handled in Hh.
  destruct c as [eps reg i d client|eps reg i rid' d]; simpl in *.
  - pose proof (route_request_keeps_bound rid eps reg i s d client Hs) as H.
    destruct (OrchestrationEngine.route_request lib eps reg i s d client).
    exact H.
  - pose proof (process_keeps_bound rid eps reg i s rid' d Hs) as H.
    destruct (OrchestrationEngine.process_collaboration_response
                lib eps reg i s rid' d) as [s' r].
    simpl in *. apply H. intros -> ->. rewrite String.eqb_refl in Hh.
    discriminate.
Qed.

Lemma fold_keeps_bound (rid : string) (h : list call)
    (s : gmap string active_request) :
  at_most_one_response rid s ->
  all_handled lib rid s h = true ->
  at_most_one_response rid
    (fold_left (fun s c => fst (run_call lib s c)) h s).
Proof.
  revert s. induction h as [|c h IH]; intros s Hs Hh; [exact Hs|].
  simpl in Hh. apply andb_true_iff in Hh. destruct Hh as [Hc Hh].
  simpl. apply IH; [apply run_call_keeps_bound; assumption | exact Hh].
Qed.

(** After a history in which every response for [rid] was handled, the
    entry of [rid] holds at most one response. *)
Lemma run_keeps_bound (rid : string) (h : list call) :
  all_handled lib rid ∅ h = true -> at_most_one_response rid (run lib h).
Proof.
  intros Hh. apply fold_keeps_bound; [|exact Hh].
  intros a H. rewrite lookup_empty in H. discriminate.
Qed.

(** After a history in which no response for routing id R ended in
    the exception handler, when a response for R completes the
    collaboration: the result carries R, the entry for R is gone, the
    synthesis is the one of the returned responses, these are the
    earlier responses of the entry followed by the new one (so two of
    them when the entry had escalated once), at least 1 and at most 2,
    and any further response for R is answered with the
    unknown-routing-id error and changes nothing. *)
Theorem completion_removes_entry (h : list call) (eps : gmap string string)
    (reg : registry) (i : route_inputs) (rid : string) (d : pydict)
    (s' : gmap string active_request) (rid' : string) (synthesis : pydict)
    (all_responses : list pydict) (completed_at : Z) :
  all_handled lib rid ∅ h = true ->
  process_collaboration_response eps reg i (run lib h) rid d
  = (s', Completed rid' synthesis all_responses completed_at) ->
  rid' = rid
  /\ s' !! rid = None
  /\ synthesize_results lib all_responses = Some synthesis
  /\ (exists a0,
        run lib h !! rid = Some a0
        /\ all_responses
           = (responses_of a0 ++ [response_entry lib (now i) d])%list)
  /\ (1 <= length all_responses <= 2)%nat
  /\ (forall eps' reg' i' d',
        process_collaboration_response eps' reg' i' s' rid d'
        = (s', UnknownRoutingId)).
Proof.
  intros Hh Hcall. pose proof (run_keeps_bound rid h Hh) as Hbound.
  pose proof (process_cases eps reg i (run lib h) rid d) as Hc.
  destruct (run lib h !! rid) as [a0|] eqn:Ha0; [|congruence].
  cbv zeta in Hc.
  destruct Hc as [Hc|[(syn & Hsyn & Hc)|[_ Hc]]]; rewrite Hc in Hcall;
    try discriminate.
  injection Hcall as <- <- <- <- <-.
  rewrite responses_appended in *.
  assert (Hgone : delete rid (<[rid := set_responses
                    (responses_of a0 ++ [response_entry lib (now i) d])%list
                    a0]> (run lib h)) !! rid = None)
    by apply lookup_delete_eq.
  split; [reflexivity|]. split; [exact Hgone|]. split; [exact Hsyn|].
  split; [exists a0; split; reflexivity|]. split.
  - rewrite length_app. simpl. specialize (Hbound _ Ha0). lia.
  - intros eps' reg' i' d'.
    unfold OrchestrationEngine.process_collaboration_response.
    rewrite Hgone. reflexivity.
Qed.

End WithLibraries.

(** ** Runs on concrete histories *)

Import Scenario.

Lemma entry_stored_before_dispatch_witness :
  exists a,
    fst (route_request Ref.lib endpoints acme2 inputs_timeout ∅
           roi_request "acme")
    = <[new_routing_id inputs_timeout := a]> ∅
    /\ routing_id a = new_routing_id inputs_timeout
    /\ request_data a = roi_request
    /\ ar_client_id a = "acme"
    /\ responses a = None
    /\ target_agent a ∈ candidates acme2 (requesting_agent roi_request) "acme"
    /\ forall text,
         json_dumps Ref.lib false
           (PDict (_prepare_data_package Ref.lib (now inputs_timeout)
                     roi_request "acme")) = Some text ->
         dispatch_failed endpoints (agent_type (target_agent a))
           (outcome inputs_timeout) = true ->
         exists why minutes msg rest,
           snd (route_request Ref.lib endpoints acme2 inputs_timeout ∅
                  roi_request "acme")
           = Routed (new_routing_id inputs_timeout)
               (agent_id (target_agent a)) (agent_type (target_agent a))
               why minutes (Z.of_nat (String.length text))
               (now inputs_timeout) (PDict (("error", PStr msg) :: rest)).
Proof.
  apply (entry_stored_before_dispatch Ref.lib endpoints acme2 inputs_timeout
           ∅ roi_request "acme").
  vm_compute. discriminate.
Defined.

(** The exchange with the finance agent times out.  The call returns a
    routing result whose [collaboration_result] holds the error, and the
    table, empty before the call, holds the entry of the new routing id. *)
Lemma failed_dispatch_leaves_entry :
  dispatch_failed endpoints "finance" (outcome inputs_timeout) = true
  /\ snd (route_request Ref.lib endpoints acme2 inputs_timeout ∅
            roi_request "acme")
     = Routed "route_0a1b2c3d" "fin-1" "finance"
         "Query contains financial terms requiring specialized analysis"
         3 268 (noon + seconds 10)
         (PDict [("error", PStr "Timeout communicating with finance VM")])
  /\ (routing_id
        <$> fst (route_request Ref.lib endpoints acme2 inputs_timeout ∅
                   roi_request "acme") !! "route_0a1b2c3d")
     = Some "route_0a1b2c3d"
  /\ fst (route_request Ref.lib endpoints acme2 inputs_timeout ∅
            roi_request "acme") <> ∅.
Proof.
  split; [vm_compute; reflexivity|].
  split; [vm_compute; reflexivity|].
  split; [vm_compute; reflexivity|].
  intros H.
  apply (f_equal (fun m => routing_id <$> m !! "route_0a1b2c3d")) in H.
  vm_compute in H. discriminate.
Qed.

Lemma completion_removes_entry_witness :
  exists s' synthesis,
    process_collaboration_response Ref.lib endpoints acme2 inputs3
      (run Ref.lib escalated) "route_0a1b2c3d" high_confidence
    = (s', Completed "route_0a1b2c3d" synthesis history2 (noon + seconds 30))
    /\ s' !! "route_0a1b2c3d" = None
    /\ length history2 = 2%nat
    /\ process_collaboration_response Ref.lib endpoints acme2 inputs3
         s' "route_0a1b2c3d" high_confidence
       = (s', UnknownRoutingId).
Proof.
  destruct (process_collaboration_response Ref.lib endpoints acme2 inputs3
              (run Ref.lib escalated) "route_0a1b2c3d" high_confidence)
    as [s' r] eqn:E.
  assert (Hr : r = Completed "route_0a1b2c3d"
                     (default [] (synthesize_results Ref.lib history2))
                     history2 (noon + seconds 30)).
  { assert (Hsnd : snd (process_collaboration_response Ref.lib endpoints
                          acme2 inputs3 (run Ref.lib escalated)
                          "route_0a1b2c3d" high_confidence)
                   = Completed "route_0a1b2c3d"
                       (default [] (synthesize_results Ref.lib history2))
                       history2 (noon + seconds 30))
      by (vm_compute; reflexivity).
    rewrite E in Hsnd. exact Hsnd. }
  subst r.
  destruct (completion_removes_entry Ref.lib escalated endpoints acme2
              inputs3 "route_0a1b2c3d" high_confidence s' _ _ _ _
              ltac:(vm_compute; reflexivity) E)
    as (_ & Hgone & _ & _ & _ & Hnext).
  exists s', (default [] (synthesize_results Ref.lib history2)).
  split; [reflexivity|]. split; [exact Hgone|]. split; [reflexivity|].
  apply Hnext.
Defined.

(** C5 on the code.  In S2 the finance agent [fin-1] answers with
    confidence 0.6.  [_determine_next_agent] finds the marketing agent,
    yet the escalation routes the request to [fin-1] again, under a new
    routing id, and the entry of the first routing id stays in the table
    with its one response.  A second low-confidence answer, posted for the
    new routing id, escalates once more: the original request has been
    escalated twice. *)
Theorem escalation_returns_to_responder :
  let s1 := run Ref.lib [CallRoute endpoints acme2 inputs1 roi_request "acme"] in
  let out2 :=
    process_collaboration_response Ref.lib endpoints acme2 inputs2 s1
      "route_0a1b2c3d" low_confidence in
  let out3 :=
    process_collaboration_response Ref.lib endpoints acme2 inputs3 (fst out2)
      "route_f9e8d7c6" low_confidence in
  get "agent_id" low_confidence = PStr "fin-1"
  /\ ((fun a => agent_id (target_agent a)) <$> s1 !! "route_0a1b2c3d")
     = Some "fin-1"
  /\ (exists a,
        fst out2 !! "route_0a1b2c3d" = Some a
        /\ length (responses_of a) = 1%nat
        /\ (option_map agent_id <$> _determine_next_agent acme2 a)
           = Some (Some "mkt-1"))
  /\ snd out2
     = Rerouted
         (Routed "route_f9e8d7c6" "fin-1" "finance"
            "Query contains financial terms requiring specialized analysis"
            2 268 (noon + seconds 20)
            (PDict [("status", PStr "accepted")]))
  /\ snd out3
     = Rerouted
         (Routed "route_00000000" "fin-1" "finance"
            "Query contains financial terms requiring specialized analysis"
            4 268 (noon + seconds 30)
            (PDict [("status", PStr "accepted")])).
Proof.
  cbv zeta.
  split; [reflexivity|].
  split; [vm_compute; reflexivity|].
  split.
  - eexists. split; [vm_compute; reflexivity|].
    split; vm_compute; reflexivity.
  - split; vm_compute; reflexivity.
Qed.

(** In S2, when the second answer is posted for the routing id that the
    escalation returned instead, that collaboration completes with its
    one response, and the entry of the first routing id stays in the
    table with the first response. *)
Lemma answer_for_escalated_id :
  let out :=
    process_collaboration_response Ref.lib endpoints acme2 inputs3
      (run Ref.lib escalated) "route_f9e8d7c6" high_confidence in
  (exists synthesis,
     snd out
     = Completed "route_f9e8d7c6" synthesis
         [response_entry Ref.lib (noon + seconds 30) high_confidence]
         (noon + seconds 30))
  /\ fst out !! "route_f9e8d7c6" = None
  /\ (responses_of <$> fst out !! "route_0a1b2c3d")
     = Some [response_entry Ref.lib (noon + seconds 20) low_confidence].
Proof.
  cbv zeta. split; [eexists; vm_compute; reflexivity|].
  split; vm_compute; reflexivity.
Qed.

(** C4 on the code.  The request of S2 is routed to [fin-1] under
    [route_0a1b2c3d].  Two responses whose [result] is [null] are posted
    for it: each is appended to the entry's responses before the
    confidence is read, the call ends in the exception handler with an
    error, and the entry stays.  A response with confidence 0.85 then
    completes the collaboration: the entry is removed and a further post
    is answered with the unknown-routing-id error, but the synthesis
    covers three responses. *)
Theorem failed_responses_counted_in_synthesis :
  let s1 := run Ref.lib [CallRoute endpoints acme2 inputs1 roi_request "acme"] in
  let out1 :=
    process_collaboration_response Ref.lib endpoints acme2 inputs2 s1
      "route_0a1b2c3d" null_result in
  let out2 :=
    process_collaboration_response Ref.lib endpoints acme2 inputs2 (fst out1)
      "route_0a1b2c3d" null_result in
  let out3 :=
    process_collaboration_response Ref.lib endpoints acme2 inputs3 (fst out2)
      "route_0a1b2c3d" high_confidence in
  let all_responses :=
    [response_entry Ref.lib (noon + seconds 20) null_result;
     response_entry Ref.lib (noon + seconds 20) null_result;
     response_entry Ref.lib (noon + seconds 30) high_confidence] in
  (responses_of <$> s1 !! "route_0a1b2c3d") = Some []
  /\ snd out1 = ResponseFailed
  /\ (responses_of <$> fst out1 !! "route_0a1b2c3d")
     = Some [response_entry Ref.lib (noon + seconds 20) null_result]
  /\ snd out2 = ResponseFailed
  /\ (exists synthesis,
        synthesize_results Ref.lib all_responses = Some synthesis
        /\ snd out3
           = Completed "route_0a1b2c3d" synthesis all_responses
               (noon + seconds 30))
  /\ length all_responses = 3%nat
  /\ fst out3 !! "route_0a1b2c3d" = None
  /\ process_collaboration_response Ref.lib endpoints acme2 inputs3
       (fst out3) "route_0a1b2c3d" high_confidence
     = (fst out3, UnknownRoutingId).
Proof.
  cbv zeta. split; [vm_compute; reflexivity|].
  split; [vm_compute; reflexivity|].
  split; [vm_compute; reflexivity|].
  split; [vm_compute; reflexivity|].
  split; [eexists; split; vm_compute; reflexivity|].
  split; [reflexivity|].
  split; vm_compute; reflexivity.
Qed.

End OrchestrationEngineFacts.

(* ===================================================================== *)
(** * Further properties of the registry *)
(* ===================================================================== *)

Module AgentRegistryProperties.

Import AgentRegistry RegistryNotions AgentRegistryFacts.

Section WithAttestation.

Context (ac : AttestationClient).

(** ** Admission *)

(** X1.  A registration without a quote or without a public key (absent
    or empty), or whose quote the attestation client does not accept,
    stores nothing: both tables are as they were and the reply is not a
    registration. *)
Theorem rejected_registration_stores_nothing (r : registry) (now : Z)
    (d : AgentRegistration) (client : string) :
  truthy (get "quote" (reg_attestation_data d)) = false
  \/ truthy (get "public_key" (reg_attestation_data d)) = false
  \/ (forall vr, verify_attestation_quote ac
                   (get "quote" (reg_attestation_data d)) <> Some (true, vr)) ->
  fst (register_agent ac r now d client) = r
  /\ forall id meas,
       snd (register_agent ac r now d client) <> Registered id meas.
Proof.
  intros Hbad.
  destruct (register_agent_cases ac r now d client)
    as [H|(vr & Hadm & _)]; [exact H|].
  exfalso. unfold admits in Hadm.
  rewrite !andb_true_iff in Hadm. destruct Hadm as [[[_ Hq] Hk] Hv].
  destruct Hbad as [Hbad|[Hbad|Hbad]]; [congruence | congruence |].
  destruct (verify_attestation_quote ac (get "quote" (reg_attestation_data d)))
    as [[[] vr']|]; try discriminate.
  apply (Hbad vr'). reflexivity.
Qed.

(** X2.  After a registration that is admitted, [get_agent] with the same
    id and client returns the new record: verified, registered and last
    seen at the time of the call, with the capabilities and endpoints of
    the request, whatever record the id had before.  The lookups of every
    other id are as before. *)
Theorem registered_agent_is_found (r r' : registry) (now : Z)
    (d : AgentRegistration) (client : string) (meas : pyval) :
  register_agent ac r now d client = (r', Registered (reg_agent_id d) meas) ->
  (exists a,
     get_agent r' (reg_agent_id d) client = Some a
     /\ status a = VERIFIED /\ last_seen a = now /\ registered_at a = now
     /\ agent_id a = reg_agent_id d /\ client_id a = client
     /\ agent_type a = reg_agent_type d
     /\ capabilities a = reg_capabilities d
     /\ endpoint a = reg_endpoint d
     /\ measurements a = meas)
  /\ forall id c, id <> reg_agent_id d -> get_agent r' id c = get_agent r id c.
Proof.
  intros Hcall.
  destruct (register_agent_cases ac r now d client) as [[_ Hno]|(vr & _ & Heq)].
  { rewrite Hcall in Hno. exfalso. eapply Hno. reflexivity. }
  rewrite Heq in Hcall. injection Hcall as <- <-. split.
  - exists (new_record now d client vr). split.
    + unfold get_agent. simpl. rewrite lookup_insert_eq. simpl.
      rewrite String.eqb_refl. reflexivity.
    + repeat split; reflexivity.
  - intros id c Hne. unfold get_agent. simpl.
    rewrite lookup_insert_ne by congruence. reflexivity.
Qed.

End WithAttestation.

Lemma rejected_registration_stores_nothing_witness :
  fst (register_agent Ref.attestation_client MoreScenarios.acme1
         (Scenario.noon + Scenario.seconds 5) MoreScenarios.reg_forged "acme")
  = MoreScenarios.acme1
  /\ forall id meas,
       snd (register_agent Ref.attestation_client MoreScenarios.acme1
              (Scenario.noon + Scenario.seconds 5) MoreScenarios.reg_forged
              "acme")
       <> Registered id meas.
Proof.
  apply (rejected_registration_stores_nothing Ref.attestation_client
           MoreScenarios.acme1 (Scenario.noon + Scenario.seconds 5)
           MoreScenarios.reg_forged "acme").
  right. right. intros vr. vm_compute. discriminate.
Defined.

Lemma registered_agent_is_found_witness :
  (exists a,
     get_agent MoreScenarios.acme1 "fin-1" "acme" = Some a
     /\ status a = VERIFIED /\ last_seen a = Scenario.noon
     /\ registered_at a = Scenario.noon
     /\ agent_id a = "fin-1" /\ client_id a = "acme"
     /\ agent_type a = "finance"
     /\ capabilities a = ["roi_calculation"; "financial_analysis"]
     /\ endpoint a = "http://localhost:8081"
     /\ measurements a = MoreScenarios.fin_measurements)
  /\ forall id c,
       id <> "fin-1" ->
       get_agent MoreScenarios.acme1 id c = get_agent empty_registry id c.
Proof.
  apply (registered_agent_is_found Ref.attestation_client empty_registry
           MoreScenarios.acme1 Scenario.noon Scenario.reg_fin "acme"
           MoreScenarios.fin_measurements).
  vm_compute. reflexivity.
Defined.

(** ** Heartbeats *)

Lemma update_agent_heartbeat_cases (r : registry) (now : Z)
    (id client : string) :
  (get_agent r id client = None
   /\ update_agent_heartbeat r now id client = (r, false))
  \/ exists a,
       get_agent r id client = Some a
       /\ agents r !! id = Some a /\ client_id a = client
       /\ update_agent_heartbeat r now id client
          = ({| agents := <[id := set_last_seen now a]> (agents r);
                client_agents := client_agents r |}, true).
Proof.
  unfold update_agent_heartbeat.
  destruct (get_agent r id client) as [a|] eqn:Hg.
  - right. exists a. apply get_agent_Some in Hg. tauto.
  - left. split; reflexivity.
Qed.

(** X3.  A heartbeat is acknowledged exactly when [get_agent] finds the
    agent under the given client.  It then sets [last_seen] to the time
    of the call and changes nothing else; otherwise it changes nothing
    at all.  Two heartbeats in a row leave the registry as the second
    one alone would. *)
Theorem heartbeat_refreshes_last_seen (r : registry) (now now' : Z)
    (id client : string) :
  (snd (update_agent_heartbeat r now id client) = true
   <-> is_Some (get_agent r id client))
  /\ (forall a,
        get_agent r id client = Some a ->
        fst (update_agent_heartbeat r now id client)
        = {| agents := <[id := set_last_seen now a]> (agents r);
             client_agents := client_agents r |}
        /\ get_agent (fst (update_agent_heartbeat r now id client)) id client
           = Some (set_last_seen now a))
  /\ (get_agent r id client = None ->
      fst (update_agent_heartbeat r now id client) = r)
  /\ fst (update_agent_heartbeat
            (fst (update_agent_heartbeat r now id client)) now' id client)
     = fst (update_agent_heartbeat r now' id client).
Proof.
  destruct (update_agent_heartbeat_cases r now id client)
    as [[Hg Hu]|(a & Hg & Ha & Hc & Hu)]; rewrite Hu; simpl.
  - split; [|split; [|split]].
    + rewrite Hg. split; [discriminate | intros [x Hx]; discriminate].
    + intros a Ha. congruence.
    + reflexivity.
    + reflexivity.
  - assert (Hg1 : get_agent
                    {| agents := <[id := set_last_seen now a]> (agents r);
                       client_agents := client_agents r |} id client
                  = Some (set_last_seen now a)).
    { apply get_agent_Some. simpl. split; [apply lookup_insert_eq | exact Hc]. }
    split; [|split; [|split]].
    + rewrite Hg. split; [eauto | reflexivity].
    + intros a' Ha'. assert (a' = a) by congruence. subst a'.
      split; [reflexivity | exact Hg1].
    + congruence.
    + unfold update_agent_heartbeat at 1. rewrite Hg1.
      unfold update_agent_heartbeat. rewrite Hg. simpl.
      rewrite insert_insert_eq. reflexivity.
Qed.

Lemma fmap_omap_ext {A B C : Type} (g : B -> C) (f1 f2 : A -> option B)
    (l : list A) :
  (forall x, g <$> f1 x = g <$> f2 x) ->
  g <$> omap f1 l = g <$> omap f2 l.
Proof.
  intros H. induction l as [|x l IH]; [reflexivity|]. csimpl.
  specialize (H x).
  destruct (f1 x) as [y1|], (f2 x) as [y2|]; csimpl in *;
    try discriminate; [|exact IH].
  injection H as H. rewrite H, IH. reflexivity.
Qed.

(** X4.  A heartbeat never changes the status of any record, so it never
    changes which agents the directory view or a capability search list
    for any client: an agent that a sweep marked inactive stays out of
    both however many heartbeats it sends. *)
Theorem heartbeat_keeps_listing (r : registry) (now : Z) (id client : string) :
  let r' := fst (update_agent_heartbeat r now id client) in
  (forall k a',
     agents r' !! k = Some a' ->
     exists a, agents r !! k = Some a /\ status a' = status a)
  /\ (forall t c,
        d_agent_id <$> get_agent_directory r' t c
        = d_agent_id <$> get_agent_directory r t c)
  /\ (forall cap c,
        agent_id <$> get_agents_by_capability r' cap c
        = agent_id <$> get_agents_by_capability r cap c).
Proof.
  cbv zeta.
  destruct (update_agent_heartbeat_cases r now id client)
    as [[_ Hu]|(a & _ & Ha & _ & Hu)]; rewrite Hu; simpl.
  { split; [eauto|]. split; reflexivity. }
  assert (Hl : forall k,
            agents {| agents := <[id := set_last_seen now a]> (agents r);
                      client_agents := client_agents r |} !! k
            = (if decide (id = k) then Some (set_last_seen now a)
               else agents r !! k)).
  { intros k. simpl. destruct (decide (id = k)) as [<-|Hne].
    - apply lookup_insert_eq.
    - apply lookup_insert_ne. exact Hne. }
  split; [|split].
  - intros k a'. rewrite Hl. destruct (decide (id = k)) as [<-|Hne].
    + intros H. injection H as <-. exists a. auto.
    + intros H. eauto.
  - intros t c. unfold get_agent_directory, ids_of. cbn [client_agents].
    apply fmap_omap_ext. intros k. rewrite Hl.
    destruct (decide (id = k)) as [<-|Hne]; [|reflexivity].
    rewrite Ha. simpl. destruct (bool_decide (status a = VERIFIED)); reflexivity.
  - intros cap c. unfold get_agents_by_capability, ids_of.
    cbn [client_agents].
    apply fmap_omap_ext. intros k. rewrite Hl.
    destruct (decide (id = k)) as [<-|Hne]; [|reflexivity].
    rewrite Ha. simpl.
    destruct (existsb (String.eqb cap) (capabilities a)
              && bool_decide (status a = VERIFIED)); reflexivity.
Qed.

(** ** The health sweep *)

Lemma classify_inactive (now : Z) (a : agent) :
  classify now a = Inactive <-> minutes 15 <= now - last_seen a.
Proof.
  unfold classify, age, minutes.
  destruct (Z.ltb_spec (now - last_seen a) (5 * 60 * usec));
    destruct (Z.ltb_spec (now - last_seen a) (15 * 60 * usec));
    split; try discriminate; try reflexivity; unfold usec in *; lia.
Qed.

Lemma records_of_app (r : registry) (l1 l2 : list string) :
  records_of r (l1 ++ l2)%list = (records_of r l1 ++ records_of r l2)%list.
Proof. unfold records_of. apply omap_app. Qed.

Lemma bucket_app (c : health_class) (now : Z) (r : registry)
    (l1 l2 : list string) :
  bucket c now r (l1 ++ l2)%list
  = (bucket c now r l1 ++ bucket c now r l2)%list.
Proof.
  unfold bucket. rewrite records_of_app, filter_app, fmap_app. reflexivity.
Qed.

Ltac class_decide :=
  repeat match goal with
  | |- context [decide (?x = ?y)] =>
      first [ rewrite (decide_True (P := x = y)) by reflexivity
            | rewrite (decide_False (P := x = y)) by discriminate ]
  end.

(** One turn of the loop of the sweep. *)
Lemma check_one_step (now : Z) (r cur : registry) (swept : list string)
    (hs : health_status) (id : string) :
  swept_to now r swept cur ->
  swept_to now r (swept ++ [id])%list (fst (check_one now (cur, hs) id))
  /\ healthy (snd (check_one now (cur, hs) id))
     = (healthy hs ++ bucket Healthy now r [id])%list
  /\ unhealthy (snd (check_one now (cur, hs) id))
     = (unhealthy hs ++ bucket Unhealthy now r [id])%list
  /\ inactive (snd (check_one now (cur, hs) id))
     = (inactive hs ++ bucket Inactive now r [id])%list.
Proof.
  intros [Hidx Hrec].
  assert (Hother : forall k a,
            k <> id ->
            (if decide (k ∈ (swept ++ [id])%list /\ classify now a = Inactive)
             then set_status INACTIVE a else a)
            = (if decide (k ∈ swept /\ classify now a = Inactive)
               then set_status INACTIVE a else a)).
  { intros k a Hne.
    destruct (decide (k ∈ swept /\ classify now a = Inactive)) as [Hy|Hn].
    - rewrite decide_True; [reflexivity|].
      destruct Hy as [Hin Hc]. split; [|exact Hc].
      apply elem_of_app. left. exact Hin.
    - rewrite decide_False; [reflexivity|]. intros [Hin Hc]. apply Hn.
      split; [|exact Hc]. apply elem_of_app in Hin.
      destruct Hin as [Hin|Hin]; [exact Hin|].
      apply list_elem_of_singleton in Hin. contradiction. }
  unfold check_one, bucket, records_of. csimpl.
  rewrite (Hrec id).
  destruct (agents r !! id) as [a|] eqn:Ha; csimpl.
  2:{ rewrite !app_nil_r. repeat split; try assumption.
      intros k. rewrite Hrec. destruct (agents r !! k) as [x|] eqn:Hx;
        [|reflexivity].
      simpl. f_equal. symmetry. apply Hother. congruence. }
  set (a' := if decide (id ∈ swept /\ classify now a = Inactive)
             then set_status INACTIVE a else a).
  assert (Hls : last_seen a' = last_seen a)
    by (unfold a'; destruct (decide _); reflexivity).
  assert (Hty : agent_type a' = agent_type a)
    by (unfold a'; destruct (decide _); reflexivity).
  assert (Hin : set_status INACTIVE a' = set_status INACTIVE a)
    by (unfold a'; destruct (decide _); reflexivity).
  rewrite Hls, Hty.
  assert (Hkeep : classify now a <> Inactive ->
            swept_to now r (swept ++ [id])%list cur).
  { intros Hc. split; [exact Hidx|]. intros k. rewrite Hrec.
    destruct (agents r !! k) as [x|] eqn:Hx; [|reflexivity]. simpl. f_equal.
    destruct (decide (k = id)) as [->|Hne]; [|symmetry; apply Hother; exact Hne].
    assert (x = a) by congruence. subst x.
    rewrite !decide_False by tauto. reflexivity. }
  unfold classify, age in *.
  rewrite !filter_cons, !filter_nil. unfold classify, age. cbn [snd fst].
  destruct (now - last_seen a <? minutes 5) eqn:H5.
  - class_decide. csimpl. rewrite !app_nil_r.
    split; [apply Hkeep; discriminate|]. repeat split; reflexivity.
  - destruct (now - last_seen a <? minutes 15) eqn:H15.
    + class_decide. csimpl. rewrite !app_nil_r.
      split; [apply Hkeep; discriminate|]. repeat split; reflexivity.
    + class_decide. csimpl. rewrite !app_nil_r.
      split; [|repeat split; reflexivity].
      split; [exact Hidx|]. intros k. simpl.
      destruct (decide (id = k)) as [<-|Hne].
      * rewrite lookup_insert_eq, Ha. simpl. rewrite Hin.
        rewrite decide_True; [reflexivity|].
        split; [apply elem_of_app; right; apply list_elem_of_singleton;
                reflexivity|].
        unfold classify, age. rewrite H5, H15. reflexivity.
      * rewrite lookup_insert_ne by exact Hne. rewrite Hrec.
        destruct (agents r !! k) as [x|]; [|reflexivity]. simpl. f_equal.
        symmetry. apply Hother. congruence.
Qed.

Lemma sweep_fold (now : Z) (r : registry) (l swept : list string)
    (cur : registry) (hs : health_status) :
  swept_to now r swept cur ->
  swept_to now r (swept ++ l)%list
    (fst (fold_left (check_one now) l (cur, hs)))
  /\ healthy (snd (fold_left (check_one now) l (cur, hs)))
     = (healthy hs ++ bucket Healthy now r l)%list
  /\ unhealthy (snd (fold_left (check_one now) l (cur, hs)))
     = (unhealthy hs ++ bucket Unhealthy now r l)%list
  /\ inactive (snd (fold_left (check_one now) l (cur, hs)))
     = (inactive hs ++ bucket Inactive now r l)%list.
Proof.
  revert swept cur hs. induction l as [|id l IH]; intros swept cur hs Hs.
  - unfold bucket, records_of. csimpl. rewrite !app_nil_r. auto.
  - change (fold_left (check_one now) (id :: l) (cur, hs))
      with (fold_left (check_one now) l (check_one now (cur, hs) id)).
    destruct (check_one_step now r cur swept hs id Hs)
      as (Hs1 & Hh & Hu & Hi).
    destruct (check_one now (cur, hs) id) as [cur1 hs1]. simpl in *.
    destruct (IH _ _ hs1 Hs1) as (Hs2 & Hh2 & Hu2 & Hi2).
    rewrite <- app_assoc in Hs2. simpl in Hs2.
    change (id :: l) with ([id] ++ l)%list.
    rewrite !(bucket_app _ now r [id] l), !app_assoc.
    rewrite <- Hh, <- Hu, <- Hi. auto.
Qed.

Lemma swept_to_start (now : Z) (r : registry) : swept_to now r [] r.
Proof.
  split; [reflexivity|]. intros k.
  destruct (agents r !! k) as [a|]; reflexivity.
Qed.

Lemma check_agent_health_swept (r : registry) (now : Z) (client : string) :
  swept_to now r (ids_of r client) (fst (check_agent_health r now client)).
Proof.
  unfold check_agent_health.
  destruct (sweep_fold now r (ids_of r client) [] r
              {| healthy := []; unhealthy := []; inactive := [] |}
              (swept_to_start now r)) as (Hs & _).
  exact Hs.
Qed.

(** X5.  The health sweep of a client sorts the client's listed agents
    into three buckets by the time since they were last seen: under 5
    minutes healthy, under 15 minutes unhealthy, otherwise inactive, each
    bucket in the order of the client's list.  It leaves the index alone
    and changes no record except that it sets the status of the agents
    of the inactive bucket to [inactive]. *)
Theorem sweep_sorts_by_age (r : registry) (now : Z) (client : string) :
  let out := check_agent_health r now client in
  healthy (snd out) = bucket Healthy now r (ids_of r client)
  /\ unhealthy (snd out) = bucket Unhealthy now r (ids_of r client)
  /\ inactive (snd out) = bucket Inactive now r (ids_of r client)
  /\ swept_to now r (ids_of r client) (fst out).
Proof.
  cbv zeta. unfold check_agent_health.
  destruct (sweep_fold now r (ids_of r client) [] r
              {| healthy := []; unhealthy := []; inactive := [] |}
              (swept_to_start now r)) as (Hs & Hh & Hu & Hi).
  simpl in *. auto.
Qed.

(** The key of a record of a reachable registry is its agent id. *)
Lemma run_key_is_agent_id (ac : AttestationClient) (h : list call)
    (id : string) (a : agent) :
  agents (run ac h) !! id = Some a -> agent_id a = id.
Proof.
  intros H. destruct (run_listed_and_owned ac h) as [_ Hown].
  apply (Hown id a H).
Qed.

(** X6.  In a registry reached by any history, an agent listed for a
    client and not seen for 15 minutes or more is marked inactive by the
    client's health sweep, and from then on it is no routing candidate,
    no directory entry and no result of a capability search, for any
    client and any requester. *)
Theorem stale_agent_leaves_routing (ac : AttestationClient) (h : list call)
    (now : Z) (client id : string) (a : agent) :
  id ∈ ids_of (run ac h) client ->
  agents (run ac h) !! id = Some a ->
  minutes 15 <= now - last_seen a ->
  let r' := fst (check_agent_health (run ac h) now client) in
  agents r' !! id = Some (set_status INACTIVE a)
  /\ (forall c req x,
        x ∈ OrchestrationEngine.candidates r' req c -> agent_id x <> id)
  /\ (forall c t e, e ∈ get_agent_directory r' t c -> d_agent_id e <> id)
  /\ (forall c cap x,
        x ∈ get_agents_by_capability r' cap c -> agent_id x <> id).
Proof.
  intros Hin Ha Hold r'.
  assert (Hrec : agents r' !! id = Some (set_status INACTIVE a)).
  { destruct (check_agent_health_swept (run ac h) now client) as [_ Hk].
    unfold r'. rewrite Hk, Ha. simpl. rewrite decide_True; [reflexivity|].
    split; [exact Hin|]. apply classify_inactive. exact Hold. }
  assert (Hkey : forall k x, agents r' !! k = Some x -> agent_id x = k).
  { intros k x. unfold r'.
    change (fst (check_agent_health (run ac h) now client))
      with (run_call ac (run ac h) (CallHealth now client)).
    rewrite <- run_snoc. apply run_key_is_agent_id. }
  assert (Hno : forall k x,
            agents r' !! k = Some x -> status x = VERIFIED ->
            agent_id x <> id).
  { intros k x Hx Hst Heq. rewrite (Hkey k x Hx) in Heq. subst k.
    rewrite Hrec in Hx. injection Hx as <-. discriminate. }
  split; [exact Hrec|]. split; [|split].
  - intros c req x Hx.
    apply OrchestrationEngineFacts.candidates_spec in Hx.
    destruct Hx as (_ & Hst & Hall).
    apply elem_of_get_all_agents in Hall. destruct Hall as (k & _ & Hk).
    exact (Hno k x Hk Hst).
  - intros c t e He. unfold get_agent_directory in He.
    apply list_elem_of_omap in He. destruct He as (k & _ & He).
    destruct (agents r' !! k) as [x|] eqn:Hx; [|discriminate].
    destruct (bool_decide (status x = VERIFIED)) eqn:Hst; [|discriminate].
    injection He as <-. simpl. apply bool_decide_eq_true in Hst.
    rewrite <- (Hkey k x Hx). exact (Hno k x Hx Hst).
  - intros c cap x Hx. apply elem_of_get_agents_by_capability in Hx.
    destruct Hx as (k & _ & Hk & _ & Hst). exact (Hno k x Hk Hst).
Qed.

Lemma stale_agent_leaves_routing_witness :
  let r' := fst (check_agent_health MoreScenarios.acme1
                   (Scenario.noon + minutes 20) "acme") in
  agents r' !! "fin-1" = Some (set_status INACTIVE MoreScenarios.fin_record)
  /\ (forall c req x,
        x ∈ OrchestrationEngine.candidates r' req c -> agent_id x <> "fin-1")
  /\ (forall c t e, e ∈ get_agent_directory r' t c -> d_agent_id e <> "fin-1")
  /\ (forall c cap x,
        x ∈ get_agents_by_capability r' cap c -> agent_id x <> "fin-1").
Proof.
  apply (stale_agent_leaves_routing Ref.attestation_client Scenario.one_agent
           (Scenario.noon + minutes 20) "acme" "fin-1"
           MoreScenarios.fin_record).
  - vm_compute. apply list_elem_of_here.
  - vm_compute. reflexivity.
  - vm_compute. discriminate.
Defined.

(** ** Removal *)

(** X7.  In a registry reached by any history [remove_agent] does not
    raise: the id of a record that [get_agent] finds for a client is in
    that client's list.  The call answers [True] exactly when the agent
    was found, and then the record is gone for every client: no lookup,
    enumeration, capability search or directory returns it, while the
    records of all other ids stay as they were. *)
Theorem remove_agent_in_reachable_state (ac : AttestationClient)
    (h : list call) (id client : string) :
  let out := remove_agent (run ac h) id client in
  snd out = Some (bool_decide (is_Some (get_agent (run ac h) id client)))
  /\ (snd out = Some true ->
      (forall c, get_agent (fst out) id c = None)
      /\ (forall c x, x ∈ get_all_agents (fst out) c -> agent_id x <> id)
      /\ (forall c t e,
            e ∈ get_agent_directory (fst out) t c -> d_agent_id e <> id)
      /\ (forall k, k <> id ->
            agents (fst out) !! k = agents (run ac h) !! k))
  /\ (snd out = Some false -> fst out = run ac h).
Proof.
  cbv zeta.
  assert (Hkey : forall k x,
            agents (fst (remove_agent (run ac h) id client)) !! k = Some x ->
            agent_id x = k).
  { intros k x.
    change (fst (remove_agent (run ac h) id client))
      with (run_call ac (run ac h) (CallRemove id client)).
    rewrite <- run_snoc. apply run_key_is_agent_id. }
  revert Hkey. unfold remove_agent.
  destruct (get_agent (run ac h) id client) as [a|] eqn:Hget.
  2:{ intros _. simpl. split; [reflexivity|]. split; [discriminate|].
      reflexivity. }
  apply get_agent_Some in Hget. destruct Hget as [Ha Hc].
  destruct (run_listed_and_owned ac h) as [_ Hown].
  destruct (Hown id a Ha) as [_ Hin]. rewrite Hc in Hin.
  unfold ids_of in Hin.
  destruct (client_agents (run ac h) !! client) as [l|] eqn:Hl;
    [|apply elem_of_nil in Hin; contradiction].
  simpl in Hin. simpl.
  assert (Hrem : exists l', list_remove id l = Some l').
  { clear -Hin. induction l as [|y l IH]; [apply elem_of_nil in Hin; tauto|].
    simpl. destruct (String.eqb_spec id y) as [->|Hne]; [eauto|].
    apply elem_of_cons in Hin. destruct Hin as [->|Hin]; [contradiction|].
    destruct (IH Hin) as [l' ->]. simpl. eauto. }
  destruct Hrem as [l' ->]. simpl. intros Hkey.
  split; [reflexivity|]. split; [|discriminate]. intros _.
  assert (Hgone : forall k x,
            delete id (agents (run ac h)) !! k = Some x -> agent_id x <> id).
  { intros k x Hx Heq. rewrite (Hkey k x Hx) in Heq. subst k.
    rewrite lookup_delete_eq in Hx. discriminate. }
  split; [|split; [|split]].
  - intros c. unfold get_agent. simpl. rewrite lookup_delete_eq. reflexivity.
  - intros c x Hx. apply elem_of_get_all_agents in Hx.
    destruct Hx as (k & _ & Hk). exact (Hgone k x Hk).
  - intros c t e He. unfold get_agent_directory in He.
    apply list_elem_of_omap in He. destruct He as (k & _ & He).
    simpl in He.
    destruct (delete id (agents (run ac h)) !! k) as [x|] eqn:Hx;
      [|discriminate].
    destruct (bool_decide (status x = VERIFIED)); [|discriminate].
    injection He as <-. simpl. rewrite <- (Hkey k x Hx).
    exact (Hgone k x Hx).
  - intros k Hne. simpl. apply lookup_delete_ne. congruence.
Qed.

Lemma remove_agent_in_reachable_state_witness :
  snd (remove_agent MoreScenarios.acme1 "fin-1" "acme") = Some true
  /\ forall c,
       get_agent (fst (remove_agent MoreScenarios.acme1 "fin-1" "acme"))
         "fin-1" c = None.
Proof.
  destruct (remove_agent_in_reachable_state Ref.attestation_client
              Scenario.one_agent "fin-1" "acme") as (Hflag & Hgone & _).
  split; [vm_compute; reflexivity|].
  apply Hgone. vm_compute. reflexivity.
Defined.

(** ** What a reachable registry holds *)

(** The records a registration leaves. *)
Lemma register_agent_record (ac : AttestationClient) (r : registry) (now : Z)
    (d : AgentRegistration) (client k : string) (x : agent) :
  agents (fst (register_agent ac r now d client)) !! k = Some x ->
  agents r !! k = Some x
  \/ exists vr,
       x = new_record now d client vr
       /\ truthy (get "quote" (reg_attestation_data d)) = true
       /\ truthy (get "public_key" (reg_attestation_data d)) = true
       /\ verify_attestation_quote ac (get "quote" (reg_attestation_data d))
          = Some (true, vr).
Proof.
  unfold register_agent.
  destruct (truthy (get "quote" (reg_attestation_data d))); simpl; [|auto].
  destruct (truthy (get "public_key" (reg_attestation_data d))); simpl;
    [|auto].
  destruct (verify_attestation_quote ac (get "quote" (reg_attestation_data d)))
    as [[[] vr]|]; simpl; [|auto|auto].
  destruct (decide (reg_agent_id d = k)) as [<-|Hne].
  - rewrite lookup_insert_eq. intros H. injection H as <-.
    right. exists vr. auto.
  - rewrite lookup_insert_ne by exact Hne. auto.
Qed.

(** The records a removal leaves were there before. *)
Lemma remove_agent_record (r : registry) (id client k : string) (x : agent) :
  agents (fst (remove_agent r id client)) !! k = Some x ->
  agents r !! k = Some x.
Proof.
  unfold remove_agent. destruct (get_agent r id client); [|auto].
  destruct (client_agents r !! client ≫= list_remove id); simpl;
    intros H; apply lookup_delete_Some in H; tauto.
Qed.

Lemma run_attested (ac : AttestationClient) (h : list call) (id : string)
    (a : agent) :
  agents (run ac h) !! id = Some a -> attested ac a.
Proof.
  revert id a. induction h as [|c h IH] using rev_ind; intros id a.
  { unfold run. simpl. rewrite lookup_empty. discriminate. }
  rewrite run_snoc.
  destruct c as [now d client|now k client|now client|k client]; simpl.
  - intros H. apply register_agent_record in H.
    destruct H as [H|(vr & -> & Hq & Hk & Hv)]; [exact (IH id a H)|].
    unfold attested. simpl. split; [exact Hq|]. split; [exact Hk|].
    split; [|left; reflexivity]. exists vr. auto.
  - destruct (update_agent_heartbeat_cases (run ac h) now k client)
      as [[_ ->]|(x & _ & Hx & _ & ->)]; [apply IH|].
    simpl. destruct (decide (k = id)) as [<-|Hne].
    + rewrite lookup_insert_eq. intros H. injection H as <-.
      exact (IH k x Hx).
    + rewrite lookup_insert_ne by exact Hne. apply IH.
  - destruct (check_agent_health_swept (run ac h) now client) as [_ Hk].
    rewrite Hk. destruct (agents (run ac h) !! id) as [x|] eqn:Hx;
      [|discriminate].
    simpl. intros H. injection H as <-. specialize (IH id x Hx).
    destruct (decide _); [|exact IH].
    destruct IH as (Hq & Hp & Hv & _). unfold attested. simpl. auto.
  - intros H. apply remove_agent_record in H. exact (IH id a H).
Qed.

(** X8.  Whatever the history of calls, every record in the registry
    sits under its own agent id, is listed for the client that owns it,
    and was admitted for that client by a registration of the history
    that carried a quote and a key and whose quote the attestation client
    accepted.  The record still carries that quote and the reported
    measurements, and its status is [verified] or [inactive], never
    [unverified] or [failed]. *)
Theorem stored_records_were_attested (ac : AttestationClient) (h : list call)
    (id : string) (a : agent) :
  agents (run ac h) !! id = Some a ->
  agent_id a = id
  /\ id ∈ ids_of (run ac h) (client_id a)
  /\ Exists (fun c => admits ac id (client_id a) c = true) h
  /\ attested ac a.
Proof.
  intros Ha. destruct (run_listed_and_owned ac h) as [Hlisted Hown].
  destruct (Hown id a Ha) as [Hid Hin].
  split; [exact Hid|]. split; [exact Hin|].
  split; [exact (Hlisted _ _ Hin)|]. exact (run_attested ac h id a Ha).
Qed.

Lemma stored_records_were_attested_witness :
  agent_id MoreScenarios.fin_record = "fin-1"
  /\ "fin-1" ∈ ids_of MoreScenarios.acme1 "acme"
  /\ Exists (fun c => admits Ref.attestation_client "fin-1" "acme" c = true)
       Scenario.one_agent
  /\ attested Ref.attestation_client MoreScenarios.fin_record.
Proof.
  apply (stored_records_were_attested Ref.attestation_client
           Scenario.one_agent "fin-1" MoreScenarios.fin_record).
  vm_compute. reflexivity.
Defined.

(** ** The views of a client *)

Lemma capability_search_as_filter (r : registry) (cap : string)
    (l : list string) :
  omap (fun id =>
          match agents r !! id with
          | Some a =>
              if existsb (String.eqb cap) (capabilities a)
                 && bool_decide (status a = VERIFIED)
              then Some a else None
          | None => None
          end) l
  = filter (fun a => existsb (String.eqb cap) (capabilities a) = true
                     /\ status a = VERIFIED)
      (omap (fun id => agents r !! id) l).
Proof.
  induction l as [|id l IH]; [reflexivity|]. csimpl. rewrite IH.
  destruct (agents r !! id) as [a|]; [|reflexivity].
  rewrite filter_cons.
  destruct (existsb (String.eqb cap) (capabilities a)) eqn:Hc; simpl.
  - destruct (decide (status a = VERIFIED)) as [Hs|Hs].
    + rewrite (bool_decide_eq_true_2 _ Hs), decide_True by auto. reflexivity.
    + rewrite (bool_decide_eq_false_2 _ Hs), decide_False by tauto.
      reflexivity.
  - reflexivity.
Qed.

Lemma directory_as_filter (r : registry) (now : Z) (l : list string) :
  (forall id a, agents r !! id = Some a -> agent_id a = id) ->
  omap (fun id =>
          match agents r !! id with
          | Some a =>
              if bool_decide (status a = VERIFIED)
              then Some {| d_agent_id := id;
                           d_agent_type := agent_type a;
                           d_capabilities := capabilities a;
                           d_endpoint := endpoint a;
                           d_status := if _is_agent_online now a
                                       then "online" else "offline" |}
              else None
          | None => None
          end) l
  = directory_entry_of now
      <$> filter (fun a => status a = VERIFIED)
            (omap (fun id => agents r !! id) l).
Proof.
  intros Hkey. induction l as [|id l IH]; [reflexivity|]. csimpl. rewrite IH.
  destruct (agents r !! id) as [a|] eqn:Ha; [|reflexivity].
  rewrite filter_cons.
  destruct (decide (status a = VERIFIED)) as [Hs|Hs].
  - rewrite (bool_decide_eq_true_2 _ Hs). csimpl.
    unfold directory_entry_of at 2. rewrite (Hkey id a Ha). reflexivity.
  - rewrite (bool_decide_eq_false_2 _ Hs). reflexivity.
Qed.

(** X9.  The three views of a client are selections of one list, the
    client's records in the order of its id list: the capability search
    keeps the verified records that have the capability, and, in a
    registry reached by any history, the directory has one entry for each
    verified record, in the same order, with the record's own id, type,
    capabilities and endpoint.  The agents a request without a requester
    can be routed to are the agents of the directory. *)
Theorem views_select_from_listing (ac : AttestationClient) (h : list call)
    (now : Z) (cap client : string) :
  get_agents_by_capability (run ac h) cap client
  = filter (fun a => existsb (String.eqb cap) (capabilities a) = true
                     /\ status a = VERIFIED)
      (get_all_agents (run ac h) client)
  /\ get_agent_directory (run ac h) now client
     = directory_entry_of now
         <$> filter (fun a => status a = VERIFIED)
               (get_all_agents (run ac h) client)
  /\ d_agent_id <$> get_agent_directory (run ac h) now client
     = agent_id <$> OrchestrationEngine.candidates (run ac h) None client.
Proof.
  assert (Hdir : get_agent_directory (run ac h) now client
                 = directory_entry_of now
                     <$> filter (fun a => status a = VERIFIED)
                           (get_all_agents (run ac h) client)).
  { apply directory_as_filter. intros id a. apply run_key_is_agent_id. }
  split; [apply capability_search_as_filter|]. split; [exact Hdir|].
  rewrite Hdir. clear Hdir. unfold OrchestrationEngine.candidates.
  rewrite <- list_fmap_compose.
  induction (get_all_agents (run ac h) client) as [|a l IH]; [reflexivity|].
  rewrite !filter_cons.
  destruct (decide (status a = VERIFIED)) as [Hs|Hs].
  - rewrite decide_True by (split; [discriminate | exact Hs]).
    csimpl. rewrite IH. reflexivity.
  - rewrite decide_False by tauto. exact IH.
Qed.

(** ** An inactive agent stays inactive *)

Lemma inactive_step (ac : AttestationClient) (r : registry) (c : call)
    (id : string) (a : agent) :
  agents r !! id = Some a -> status a = INACTIVE ->
  touches_record id c = false ->
  exists a', agents (run_call ac r c) !! id = Some a'
             /\ status a' = INACTIVE.
Proof.
  intros Ha Hst Hc.
  destruct c as [now d client|now k client|now client|k client]; simpl in *.
  - apply String.eqb_neq in Hc.
    destruct (register_agent_cases ac r now d client)
      as [[-> _]|(vr & _ & ->)]; [eauto|].
    simpl. rewrite lookup_insert_ne by exact Hc. eauto.
  - destruct (update_agent_heartbeat_cases r now k client)
      as [[_ ->]|(x & _ & Hx & _ & ->)]; [eauto|].
    simpl. destruct (decide (k = id)) as [->|Hne].
    + rewrite lookup_insert_eq. exists (set_last_seen now x).
      split; [reflexivity|]. simpl. congruence.
    + rewrite lookup_insert_ne by exact Hne. eauto.
  - destruct (check_agent_health_swept r now client) as [_ Hk].
    rewrite Hk, Ha. simpl. eexists. split; [reflexivity|].
    destruct (decide _); [reflexivity | exact Hst].
  - apply String.eqb_neq in Hc. unfold remove_agent.
    destruct (get_agent r k client); [|eauto].
    destruct (client_agents r !! client ≫= list_remove k); simpl;
      rewrite lookup_delete_ne by exact Hc; eauto.
Qed.

(** X25.  Nothing but a new registration makes an inactive agent
    routable again.  Once a record is inactive, it stays inactive
    through every later history of heartbeats, health sweeps,
    registrations and removals of other agents: a heartbeat refreshes
    [last_seen] and leaves the status alone.  The agent is no routing
    candidate for any client throughout. *)
Theorem inactive_until_registered_again (ac : AttestationClient)
    (h0 h : list call) (id : string) (a : agent) :
  agents (run ac h0) !! id = Some a ->
  status a = INACTIVE ->
  forallb (fun c => negb (touches_record id c)) h = true ->
  (exists a', agents (run ac (h0 ++ h)) !! id = Some a'
              /\ status a' = INACTIVE)
  /\ forall c req x,
       x ∈ OrchestrationEngine.candidates (run ac (h0 ++ h)) req c ->
       agent_id x <> id.
Proof.
  intros Ha Hst Hh.
  assert (Hrec : exists a', agents (run ac (h0 ++ h)) !! id = Some a'
                            /\ status a' = INACTIVE).
  { revert Hh. induction h as [|c h IH] using rev_ind; intros Hh.
    - rewrite app_nil_r. eauto.
    - rewrite forallb_app in Hh. apply andb_true_iff in Hh.
      destruct Hh as [Hh Hc]. simpl in Hc. rewrite andb_true_r in Hc.
      apply negb_true_iff in Hc.
      destruct (IH Hh) as (a1 & Ha1 & Hst1).
      rewrite app_assoc, run_snoc.
      exact (inactive_step ac _ c id a1 Ha1 Hst1 Hc). }
  split; [exact Hrec|].
  intros c req x Hx Heq. destruct Hrec as (a' & Ha' & Hst').
  apply OrchestrationEngineFacts.candidates_spec in Hx.
  destruct Hx as (_ & Hv & Hall).
  apply elem_of_get_all_agents in Hall. destruct Hall as (k & _ & Hk).
  rewrite (run_key_is_agent_id ac _ k x Hk) in Heq. subst k.
  rewrite Ha' in Hk. injection Hk as <-. congruence.
Qed.

Lemma inactive_until_registered_again_witness :
  (exists a',
     agents (run Ref.attestation_client
               ([CallRegister Scenario.noon Scenario.reg_fin "acme";
                 CallHealth (Scenario.noon + minutes 20) "acme"]
                ++ [CallHeartbeat (Scenario.noon + minutes 21) "fin-1" "acme";
                    CallHealth (Scenario.noon + minutes 22) "acme"]))
       !! "fin-1" = Some a'
     /\ status a' = INACTIVE)
  /\ forall c req x,
       x ∈ OrchestrationEngine.candidates
             (run Ref.attestation_client
                ([CallRegister Scenario.noon Scenario.reg_fin "acme";
                  CallHealth (Scenario.noon + minutes 20) "acme"]
                 ++ [CallHeartbeat (Scenario.noon + minutes 21) "fin-1" "acme";
                     CallHealth (Scenario.noon + minutes 22) "acme"]))
             req c ->
       agent_id x <> "fin-1".
Proof.
  apply (inactive_until_registered_again Ref.attestation_client
           [CallRegister Scenario.noon Scenario.reg_fin "acme";
            CallHealth (Scenario.noon + minutes 20) "acme"]
           [CallHeartbeat (Scenario.noon + minutes 21) "fin-1" "acme";
            CallHealth (Scenario.noon + minutes 22) "acme"]
           "fin-1" (set_status INACTIVE MoreScenarios.fin_record)).
  - vm_compute. reflexivity.
  - reflexivity.
  - reflexivity.
Defined.

End AgentRegistryProperties.

(* ===================================================================== *)
(** * Further properties of the envelope *)
(* ===================================================================== *)

Module CollaborationProperties.

Import SecureMessaging CollaborationMessages SecureMessagingFacts.

Section WithLibraries.

Context (lib : PyLib) (key_manager : KeyManager).

Local Abbreviation verify_secure_message :=
  (verify_secure_message lib key_manager).

(** What an accepted envelope went through. *)
Lemma verified_sound (now : Z) (secure_message : pydict) (m : pyval) :
  verify_secure_message now secure_message = Verified m ->
  truthy (get "signature" secure_message) = true
  /\ truthy (get "sender_public_key" secure_message) = true
  /\ (exists text,
        verify_signature key_manager text (get "signature" secure_message)
          (get "sender_public_key" secure_message) = true
        /\ if truthy (get "encrypted" secure_message)
           then exists ep,
                  lookup_key "encrypted_payload" secure_message = Some ep
                  /\ _decrypt_payload lib ep = Some text /\ text <> ""
                  /\ json_loads lib text = Some m
           else m = get "message" secure_message
                /\ json_dumps lib true m = Some text)
  /\ exists d,
       m = PDict d
       /\ (exists t, msg_time_of lib (get "timestamp" d) = Some t
                     /\ 0 <= now - t <= 300 * usec)
       /\ truthy (get "nonce" d) = true.
Proof.
  unfold SecureMessaging.verify_secure_message.
  destruct (truthy (get "signature" secure_message)); simpl; [|discriminate].
  destruct (truthy (get "sender_public_key" secure_message)); simpl;
    [|discriminate].
  destruct (truthy (get "encrypted" secure_message)).
  - destruct (lookup_key "encrypted_payload" secure_message) as [ep|] eqn:Hep;
      [|discriminate].
    destruct (_decrypt_payload lib ep) as [text|] eqn:Hdec; [|discriminate].
    destruct (String.eqb_spec text "") as [|Hne]; [discriminate|].
    destruct (json_loads lib text) as [message|] eqn:Hl; [|discriminate].
    intros H. apply check_message_verified in H.
    destruct H as (-> & Hsig & d & -> & Ht & Hn).
    apply verify_timestamp_iff in Ht.
    split; [reflexivity|]. split; [reflexivity|].
    split; [exists text; split; [exact Hsig|]; exists ep; auto|].
    exists d. auto.
  - destruct (truthy (get "message" secure_message)); simpl; [|discriminate].
    destruct (json_dumps lib true (get "message" secure_message))
      as [text|] eqn:Hd; [|discriminate].
    intros H. apply check_message_verified in H.
    destruct H as (-> & Hsig & d & Hm & Ht & Hn).
    apply verify_timestamp_iff in Ht.
    split; [reflexivity|]. split; [reflexivity|].
    split; [exists text; auto|]. exists d. auto.
Qed.

Lemma verified_complete (now : Z) (secure_message : pydict) (d : pydict)
    (text : string) :
  truthy (get "signature" secure_message) = true ->
  truthy (get "sender_public_key" secure_message) = true ->
  verify_signature key_manager text (get "signature" secure_message)
    (get "sender_public_key" secure_message) = true ->
  (if truthy (get "encrypted" secure_message)
   then exists ep,
          lookup_key "encrypted_payload" secure_message = Some ep
          /\ _decrypt_payload lib ep = Some text /\ text <> ""
          /\ json_loads lib text = Some (PDict d)
   else PDict d = get "message" secure_message
        /\ json_dumps lib true (PDict d) = Some text) ->
  (exists t, msg_time_of lib (get "timestamp" d) = Some t
             /\ 0 <= now - t <= 300 * usec) ->
  truthy (get "nonce" d) = true ->
  verify_secure_message now secure_message = Verified (PDict d).
Proof.
  intros Hs Hk Hsig Hbody Ht Hn.
  unfold SecureMessaging.verify_secure_message. rewrite Hs, Hk. simpl.
  apply verify_timestamp_iff in Ht.
  destruct (truthy (get "encrypted" secure_message)).
  - destruct Hbody as (ep & -> & -> & Hne & ->).
    rewrite (eqb_nonempty _ Hne). apply check_message_verified.
    split; [reflexivity|]. split; [exact Hsig|]. exists d. auto.
  - destruct Hbody as [Hm Hd]. rewrite <- Hm. rewrite Hd.
    assert (Htr : truthy (PDict d) = true).
    { destruct d; [discriminate Hn | reflexivity]. }
    rewrite Htr. simpl. apply check_message_verified.
    split; [reflexivity|]. split; [exact Hsig|]. exists d. auto.
Qed.

(** X10.  [verify_secure_message] accepts an envelope with message [m]
    exactly when the envelope carries a signature and a sender key, the
    key store verifies the signature under that key against the signed
    text, [m] is a dictionary whose timestamp parses and lies between 0
    and 300 seconds in the past, and [m] has a nonce that is not empty.
    The signed text is the decrypted payload, non-empty and parsed into
    [m], for an envelope marked encrypted, and the key-sorted
    serialization of the carried message otherwise.  Nothing else is
    checked: neither the recipient nor the fingerprint. *)
Theorem verify_accepts_iff (now : Z) (secure_message : pydict) (m : pyval) :
  verify_secure_message now secure_message = Verified m
  <-> truthy (get "signature" secure_message) = true
      /\ truthy (get "sender_public_key" secure_message) = true
      /\ (exists text,
            verify_signature key_manager text
              (get "signature" secure_message)
              (get "sender_public_key" secure_message) = true
            /\ if truthy (get "encrypted" secure_message)
               then exists ep,
                      lookup_key "encrypted_payload" secure_message = Some ep
                      /\ _decrypt_payload lib ep = Some text /\ text <> ""
                      /\ json_loads lib text = Some m
               else m = get "message" secure_message
                    /\ json_dumps lib true m = Some text)
      /\ exists d,
           m = PDict d
           /\ (exists t, msg_time_of lib (get "timestamp" d) = Some t
                         /\ 0 <= now - t <= 300 * usec)
           /\ truthy (get "nonce" d) = true.
Proof.
  split; [apply verified_sound|].
  intros (Hs & Hk & (text & Hsig & Hbody) & d & -> & Ht & Hn).
  exact (verified_complete now secure_message d text Hs Hk Hsig Hbody Ht Hn).
Qed.

(** X11.  When the cipher and the encodings read back what they wrote,
    [_encrypt_payload] returns a payload that [_decrypt_payload] opens to
    the plaintext it was given. *)
Theorem payload_round_trip (key iv text : string) :
  cipher_round_trip lib key iv text ->
  exists ep, _encrypt_payload lib key iv text = Some ep
             /\ _decrypt_payload lib (PStr ep) = Some text.
Proof. apply decrypt_encrypt. Qed.


End WithLibraries.

Import Scenario.

Lemma payload_round_trip_witness :
  exists ep,
    _encrypt_payload Ref.lib (aes_key draws0) (aes_iv draws0)
      (Ref.dumps true message0) = Some ep
    /\ _decrypt_payload Ref.lib (PStr ep) = Some (Ref.dumps true message0).
Proof.
  apply (payload_round_trip Ref.lib (aes_key draws0) (aes_iv draws0)
           (Ref.dumps true message0)).
  unfold cipher_round_trip.
  destruct (aes_gcm_encrypt Ref.lib (aes_key draws0) (aes_iv draws0)
              (Ref.dumps true message0)) as [ciphertext tag] eqn:E.
  vm_compute in E. injection E as <- <-.
  do 5 (split; [vm_compute; reflexivity|]).
  eexists. split; [split; [reflexivity|] | vm_compute; reflexivity].
  eexists. split; [vm_compute; reflexivity|]. vm_compute. reflexivity.
Defined.


End CollaborationProperties.

(* ===================================================================== *)
(** * Properties of the agent's communication layer *)
(* ===================================================================== *)

Module AgentCommunicationProperties.

Import SecureMessaging CollaborationMessages AgentCommunication.
Import SecureMessagingFacts.



Section WithLibraries.

Context (lib : PyLib) (key_manager : KeyManager)
        (env_agent_id agent_id : string).

Local Abbreviation handle_collaboration_request :=
  (handle_collaboration_request lib key_manager env_agent_id agent_id).
Local Abbreviation verify_secure_message :=
  (verify_secure_message lib key_manager).

(** A truthy value under a key is the value [get] with any default
    returns. *)
Lemma get_default_truthy (k : string) (dflt : pyval) (d : pydict) :
  truthy (get k d) = true -> get_default k dflt d = get k d.
Proof.
  unfold get, get_default. destruct (lookup_key k d); [reflexivity|].
  discriminate.
Qed.

(** The call of a handler, and what the call returns when the handler
    returns a result. *)
Lemma handle_returned (handlers : gmap string handler) (i : handle_inputs)
    (secure_message d : pydict) (mt : string) (h : handler)
    (result : pydict) :
  verify_secure_message (verified_at i) secure_message = Verified (PDict d) ->
  get "message_type" d = PStr mt ->
  handlers !! mt = Some h ->
  h (get_default "payload" (PDict []) d) = Returned result ->
  snd (handle_collaboration_request handlers i secure_message)
  = Some (mt, get_default "payload" (PDict []) d)
  /\ forall e,
       create_collaboration_response lib key_manager env_agent_id
         (answer_draws i) (get "nonce" d)
         (with_metadata agent_id i (get "sender_id" d) result) "completed"
       = Some e ->
       fst (handle_collaboration_request handlers i secure_message) = Some e.
Proof.
  intros Hv Hmt Hh Hres.
  destruct (CollaborationProperties.verified_sound lib key_manager _ _ _ Hv)
    as (_ & _ & _ & d' & Hd & _ & Hn).
  injection Hd as <-.
  unfold AgentCommunication.handle_collaboration_request.
  rewrite Hv, Hmt. simpl. rewrite Hh, Hres.
  rewrite (get_default_truthy "nonce" (PStr "unknown") d Hn).
  destruct (create_collaboration_response lib key_manager env_agent_id
              (answer_draws i) (get "nonce" d)
              (with_metadata agent_id i (get "sender_id" d) result)
              "completed") as [e|]; simpl.
  - split; [reflexivity|]. intros e' H. exact H.
  - split; [reflexivity|]. discriminate.
Qed.

(** X13.  A handler is called only for an envelope that
    [verify_secure_message] accepts: the signature verifies under the
    key the envelope carries, the timestamp is between 0 and 300 seconds
    old and the nonce is not empty.  The handler is the one registered
    under the message type, and it is given the payload of the message.
    The recipient the message names plays no part. *)
Theorem handler_called_only_when_verified (handlers : gmap string handler)
    (i : handle_inputs) (secure_message : pydict) (mt : string)
    (payload : pyval) :
  snd (handle_collaboration_request handlers i secure_message)
  = Some (mt, payload) ->
  exists d text,
    verify_secure_message (verified_at i) secure_message = Verified (PDict d)
    /\ get "message_type" d = PStr mt
    /\ is_Some (handlers !! mt)
    /\ payload = get_default "payload" (PDict []) d
    /\ verify_signature key_manager text (get "signature" secure_message)
         (get "sender_public_key" secure_message) = true
    /\ (exists t, msg_time_of lib (get "timestamp" d) = Some t
                  /\ 0 <= verified_at i - t <= 300 * usec)
    /\ truthy (get "nonce" d) = true.
Proof.
  unfold AgentCommunication.handle_collaboration_request.
  destruct (verify_secure_message (verified_at i) secure_message)
    as [m| |] eqn:Hv; [|discriminate|discriminate].
  destruct (CollaborationProperties.verified_sound lib key_manager _ _ _ Hv)
    as (_ & _ & (text & Hsig & _) & d & -> & Ht & Hn).
  unfold handler_for.
  destruct (get "message_type" d) as [| | | |s| |] eqn:Hmt;
    try discriminate.
  destruct (handlers !! s) as [h|] eqn:Hh; [|discriminate].
  intros H.
  assert (Hcalled : Some (s, get_default "payload" (PDict []) d)
                    = Some (mt, payload)).
  { destruct (h (get_default "payload" (PDict []) d)) as [result|t];
      [|exact H].
    destruct (create_collaboration_response lib key_manager env_agent_id
                (answer_draws i) (get_default "nonce" (PStr "unknown") d)
                (with_metadata agent_id i (get "sender_id" d) result)
                "completed"); exact H. }
  injection Hcalled as <- <-.
  exists d, text. rewrite Hh. repeat split; eauto.
Qed.


(** X15.  An agent that registers the base handler answers every
    accepted collaboration request with status [completed] and
    confidence 0.0 in the payload of its answer, whatever
    [process_collaboration_request] returned or raised and whatever
    confidence its result reports: the handler wraps that result one
    level down, and a failure shows only as the status [failed] of the
    wrapped result. *)
Theorem base_handler_answer (agent_type : string)
    (process : pyval -> pyval -> pyval -> BaseAgent.process_outcome)
    (now : Z) (attribute_error : string)
    (i : handle_inputs) (secure_message d e : pydict) :
  let result :=
    BaseAgent.handle_collaboration_request lib agent_id agent_type process
      now attribute_error (get_default "payload" (PDict []) d) in
  verify_secure_message (verified_at i) secure_message = Verified (PDict d) ->
  get "message_type" d = PStr "collaboration_request" ->
  create_collaboration_response lib key_manager env_agent_id
    (answer_draws i) (get "nonce" d)
    (with_metadata agent_id i (get "sender_id" d) result) "completed"
  = Some e ->
  fst (handle_collaboration_request
         (BaseAgent.register_handlers lib agent_id agent_type process now
            attribute_error) i secure_message) = Some e
  /\ exists msg pl res,
       get "message" e = PDict msg
       /\ get "payload" msg = PDict pl
       /\ get "status" pl = PStr "completed"
       /\ get "confidence_score" pl = PFloat 0
       /\ get "result" pl = PDict res
       /\ get "agent_type" res = PStr agent_type
       /\ get "status" res
          = match get_default "payload" (PDict []) d with
            | PDict p =>
                match process (get_default "task_description" (PStr "") p)
                        (get_default "context" (PDict []) p)
                        (get_default "data_package" (PDict []) p) with
                | BaseAgent.Processed _ => PStr "completed"
                | BaseAgent.ProcessRaised _ => PStr "failed"
                end
            | _ => PStr "failed"
            end.
Proof.
  intros result Hv Hmt He.
  destruct (handle_returned
              (BaseAgent.register_handlers lib agent_id agent_type process now
                 attribute_error) i secure_message d "collaboration_request"
              (fun payload =>
                 Returned (BaseAgent.handle_collaboration_request lib agent_id
                             agent_type process now attribute_error payload))
              result Hv Hmt) as [_ Hfst].
  { unfold BaseAgent.register_handlers. apply lookup_singleton_eq. }
  { reflexivity. }
  split; [exact (Hfst e He)|]. clear Hfst.
  unfold create_collaboration_response, create_signed_message in He.
  destruct (json_dumps lib true _); [|discriminate].
  simpl in He. injection He as <-.
  unfold result, BaseAgent.handle_collaboration_request. clear result.
  destruct (get_default "payload" (PDict []) d) as [| | | | | |p];
    try (do 3 eexists; repeat split; reflexivity).
  destruct (process _ _ _); do 3 eexists; repeat split; reflexivity.
Qed.

End WithLibraries.

Import Scenario MoreScenarios.

Lemma handler_called_only_when_verified_witness :
  exists d text,
    verify_secure_message Ref.lib Ref.key_manager (verified_at handle0)
      signed0_env = Verified (PDict d)
    /\ get "message_type" d = PStr "collaboration_request"
    /\ is_Some (mkt_handlers !! "collaboration_request")
    /\ payload0 = get_default "payload" (PDict []) d
    /\ verify_signature Ref.key_manager text (get "signature" signed0_env)
         (get "sender_public_key" signed0_env) = true
    /\ (exists t, msg_time_of Ref.lib (get "timestamp" d) = Some t
                  /\ 0 <= verified_at handle0 - t <= 300 * usec)
    /\ truthy (get "nonce" d) = true.
Proof.
  apply (handler_called_only_when_verified Ref.lib Ref.key_manager
           "mkt-1" "mkt-1" mkt_handlers handle0 signed0_env
           "collaboration_request" payload0).
  vm_compute. reflexivity.
Defined.


Lemma base_handler_answer_witness :
  fst (AgentCommunication.handle_collaboration_request Ref.lib
         Ref.key_manager "mkt-1" "mkt-1" mkt_handlers handle0 signed0_env)
  = Some answer0
  /\ exists msg pl res,
       get "message" answer0 = PDict msg
       /\ get "payload" msg = PDict pl
       /\ get "status" pl = PStr "completed"
       /\ get "confidence_score" pl = PFloat 0
       /\ get "result" pl = PDict res
       /\ get "agent_type" res = PStr "marketing"
       /\ get "status" res = PStr "completed".
Proof.
  apply (base_handler_answer Ref.lib Ref.key_manager "mkt-1" "mkt-1"
           "marketing" process0 (noon + seconds 2) attribute_error0
           handle0 signed0_env message0_items answer0).
  - vm_compute. reflexivity.
  - vm_compute. reflexivity.
  - vm_compute. reflexivity.
Defined.

End AgentCommunicationProperties.

(* ===================================================================== *)
(** * Further properties of the orchestration engine *)
(* ===================================================================== *)

Module OrchestrationProperties.

Import AgentRegistry VMCommunication UnifiedLLMManager OrchestrationEngine.
Import OrchestrationNotions OrchestrationEngineFacts.

(** ** Rounding *)

Lemma round2_eight_tenths (q : Q) : (q == 8 # 10)%Q -> round2 q = 80 # 100.
Proof.
  unfold Qeq, round2. simpl. intros H.
  assert (Hn : Qnum q * 100 = 80 * Z.pos (Qden q)) by lia.
  rewrite Hn, Z.div_mul, Z.mod_mul by lia.
  simpl. destruct (Z.ltb_spec 0 (Z.pos (Qden q))); [reflexivity | lia].
Qed.

Section WithLibraries.

Context (lib : PyLib).

Local Abbreviation route_request := (route_request lib).
Local Abbreviation process_collaboration_response :=
  (process_collaboration_response lib).

(** ** The synthesis of a response history *)

Lemma bare_response_entry (now : Z) (d : pydict) :
  bare (response_entry lib now d).
Proof. repeat split. Qed.

Lemma collect_bare (l : list pydict) (summaries : list string)
    (recommendations : list pyval) :
  Forall bare l ->
  collect lib l summaries recommendations = Some (summaries, recommendations).
Proof.
  intros H. revert summaries recommendations.
  induction H as [|e l (Hs & Hr & _) _ IH]; intros sm rc; [reflexivity|].
  simpl. rewrite Hs, Hr. apply IH.
Qed.

Lemma sum_confidence_bare (l : list pydict) (acc : Q) :
  Forall bare l ->
  exists q, sum_confidence l acc = Some q
            /\ (q == acc + inject_Z (Z.of_nat (length l)) * (8 # 10))%Q.
Proof.
  intros H. revert acc.
  induction H as [|e l (_ & _ & Hc) _ IH]; intros acc.
  - exists acc. split; [reflexivity|]. simpl. ring.
  - simpl sum_confidence. unfold get_default. rewrite Hc. simpl.
    destruct (IH (acc + (8 # 10))%Q) as (q & -> & Hq).
    exists q. split; [reflexivity|]. rewrite Hq.
    change (length (e :: l)) with (S (length l)).
    rewrite Nat2Z.inj_succ. unfold Z.succ. rewrite inject_Z_plus. ring.
Qed.

Lemma synthesize_bare (l : list pydict) :
  l <> [] -> Forall bare l -> synthesize_results lib l = Some plain_synthesis.
Proof.
  intros Hne Hbare. unfold synthesize_results, _mock_synthesize_results.
  destruct l as [|e l]; [contradiction|].
  rewrite (collect_bare _ [] [] Hbare). simpl.
  destruct (sum_confidence_bare (e :: l) 0%Q Hbare) as (q & Hq & Heq).
  simpl in Hq. rewrite Hq. simpl. unfold plain_synthesis.
  assert (Hpos : ~ (inject_Z (Z.of_nat (S (length l))) == 0)%Q).
  { rewrite Nat2Z.inj_succ. unfold Qeq. simpl. lia. }
  assert (Hr : round2 (q / inject_Z (Z.of_nat (S (length l)))) = 80 # 100).
  { apply round2_eight_tenths. rewrite Heq. simpl length. field. exact Hpos. }
  rewrite Hr. reflexivity.
Qed.

(** ** Histories keep the response histories bare *)

Lemma route_request_entries_bare (eps : gmap string string) (reg : registry)
    (i : route_inputs) (s : gmap string active_request)
    (d : OrchestrationRequest) (client : string) :
  entries_bare s -> entries_bare (fst (route_request eps reg i s d client)).
Proof.
  intros Hs.
  destruct (route_request_cases lib eps reg i s d client)
    as [[_ ->]|(target & decision & _ & -> & _)]; [exact Hs|].
  intros rid a. destruct (decide (new_routing_id i = rid)) as [<-|Hne].
  - rewrite lookup_insert_eq. intros H. injection H as <-. constructor.
  - rewrite lookup_insert_ne by exact Hne. apply Hs.
Qed.

Lemma process_entries_bare (eps : gmap string string) (reg : registry)
    (i : route_inputs) (s : gmap string active_request) (rid : string)
    (d : pydict) :
  entries_bare s ->
  entries_bare (fst (process_collaboration_response eps reg i s rid d)).
Proof.
  intros Hs. pose proof (process_cases lib eps reg i s rid d) as H.
  destruct (s !! rid) as [a0|] eqn:Ha0; [|rewrite H; exact Hs].
  cbv zeta in H.
  assert (Hs1 : entries_bare
                  (<[rid := set_responses
                              (responses_of a0
                               ++ [response_entry lib (now i) d])%list a0]> s)).
  { intros k a. destruct (decide (rid = k)) as [<-|Hne].
    - rewrite lookup_insert_eq. intros Hk. injection Hk as <-.
      rewrite responses_appended. apply Forall_app. split.
      + exact (Hs rid a0 Ha0).
      + constructor; [apply bare_response_entry | constructor].
    - rewrite lookup_insert_ne by exact Hne. apply Hs. }
  destruct H as [->|[(syn & _ & ->)|(_ & ->)]].
  - exact Hs1.
  - intros k a Hk. simpl in Hk. apply lookup_delete_Some in Hk.
    exact (Hs1 k a (proj2 Hk)).
  - apply route_request_entries_bare. exact Hs1.
Qed.

Lemma run_entries_bare (h : list call) : entries_bare (run lib h).
Proof.
  unfold run. induction h as [|c h IH] using rev_ind.
  - intros rid a. simpl. rewrite lookup_empty. discriminate.
  - rewrite fold_left_app. simpl.
    destruct c as [eps reg i d client|eps reg i rid d]; simpl.
    + pose proof (route_request_entries_bare eps reg i _ d client IH) as H.
      destruct (OrchestrationEngine.route_request lib eps reg i _ d client).
      exact H.
    + pose proof (process_entries_bare eps reg i _ rid d IH) as H.
      destruct (OrchestrationEngine.process_collaboration_response lib eps reg
                  i _ rid d).
      exact H.
Qed.

(** X16.  Whatever the history of calls and whatever the agents
    answered, the synthesis of a completed request is one fixed
    dictionary: an executive summary without any agent's summary, no
    recommendations and a confidence of 0.8.  The items of a response
    history keep an agent's result under the key [result], where the
    synthesis does not look.  Synthesis never fails on a response
    history. *)
Theorem completed_synthesis_is_fixed (h : list call)
    (eps : gmap string string) (reg : registry) (i : route_inputs)
    (rid : string) (d : pydict) :
  (forall rid' synthesis all completed_at,
     snd (process_collaboration_response eps reg i (run lib h) rid d)
     = Completed rid' synthesis all completed_at ->
     synthesis = plain_synthesis /\ rid' = rid /\ all <> []
     /\ completed_at = now i)
  /\ forall a, run lib h !! rid = Some a ->
       synthesize_results lib
         (responses_of a ++ [response_entry lib (now i) d])%list
       = Some plain_synthesis.
Proof.
  assert (Hsyn : forall a, run lib h !! rid = Some a ->
            synthesize_results lib
              (responses_of a ++ [response_entry lib (now i) d])%list
            = Some plain_synthesis).
  { intros a Ha. apply synthesize_bare.
    - intros H. apply app_eq_nil in H. destruct H as [_ H]. discriminate.
    - apply Forall_app. split; [exact (run_entries_bare h rid a Ha)|].
      constructor; [apply bare_response_entry | constructor]. }
  split; [|exact Hsyn].
  intros rid' syn all t H.
  pose proof (process_cases lib eps reg i (run lib h) rid d) as Hc.
  destruct (run lib h !! rid) as [a0|] eqn:Ha0;
    [|rewrite Hc in H; discriminate].
  cbv zeta in Hc. rewrite responses_appended in Hc.
  destruct Hc as [Hc|[(syn' & Hs & Hc)|(_ & Hc)]]; rewrite Hc in H;
    try discriminate.
  simpl in H. injection H as <- <- <- <-.
  rewrite (Hsyn a0 eq_refl) in Hs. injection Hs as <-.
  split; [reflexivity|]. split; [reflexivity|]. split; [|reflexivity].
  intros H. apply app_eq_nil in H. destruct H as [_ H]. discriminate.
Qed.

(** ** The choice of the target *)

(** The router names the type of one of the agents it is given. *)
Lemma route_to_agent_available (rand_time : Z) (rand_conf : Q)
    (query : string) (available : list agent) :
  available <> [] ->
  existsb (fun a => String.eqb (agent_type a)
                      (best_agent (route_to_agent rand_time rand_conf query
                                     available)))
    available = true.
Proof.
  intros Hne. unfold route_to_agent, _mock_route_to_agent.
  destruct (if PyStr.any_word_in _ _ then _ else _) as [[best why] prio].
  destruct (existsb (fun a => String.eqb (agent_type a) best) available)
    eqn:Hfound.
  - simpl. exact Hfound.
  - destruct available as [|a rest]; [contradiction|].
    simpl. rewrite String.eqb_refl. reflexivity.
Qed.

(** The estimated time of a decision is the router's first draw. *)
Lemma route_to_agent_time (rand_time : Z) (rand_conf : Q)
    (query : string) (available : list agent) :
  estimated_time (route_to_agent rand_time rand_conf query available)
  = rand_time.
Proof.
  unfold route_to_agent, _mock_route_to_agent.
  destruct (if PyStr.any_word_in _ _ then _ else _) as [[best why] prio].
  destruct (existsb _ available), available; reflexivity.
Qed.

(** With a finance keyword in the query and a finance agent among the
    agents, the router names [finance]. *)
Lemma route_to_agent_finance (rand_time : Z) (rand_conf : Q)
    (query : string) (available : list agent) :
  PyStr.any_word_in ["roi"; "budget"; "financial"; "revenue"; "cost"]
    (PyStr.lower query) = true ->
  existsb (fun a => String.eqb (agent_type a) "finance") available = true ->
  best_agent (route_to_agent rand_time rand_conf query available)
  = "finance".
Proof.
  intros Hq Ha. unfold route_to_agent, _mock_route_to_agent.
  rewrite Hq, Ha. reflexivity.
Qed.

(** X17.  When a request has candidates, the target is the first
    candidate, in the order of the client's list, whose type is the one
    the router names, and the routing decision is reported as the router
    made it: the router always names the type of a candidate, so the
    fallback to the first candidate with its reason [Primary agent not
    found, using fallback] is never taken.  A query with a finance
    keyword goes to a finance agent whenever one is a candidate. *)
Theorem target_is_first_of_named_type (eps : gmap string string)
    (reg : registry) (i : route_inputs) (s : gmap string active_request)
    (d : OrchestrationRequest) (client : string) :
  let available := candidates reg (requesting_agent d) client in
  let decision :=
    route_to_agent (rand_time i) (rand_conf i) (query d) available in
  available <> [] ->
  exists target,
    find (fun a => String.eqb (agent_type a) (best_agent decision)) available
    = Some target
    /\ agent_type target = best_agent decision
    /\ fst (route_request eps reg i s d client)
       = <[new_routing_id i :=
             {| routing_id := new_routing_id i; request_data := d;
                target_agent := target; ar_client_id := client;
                started_at := now i; responses := None |}]> s
    /\ (forall text,
          json_dumps lib false
            (PDict (_prepare_data_package lib (now i) d client)) = Some text ->
          snd (route_request eps reg i s d client)
          = Routed (new_routing_id i) (agent_id target) (agent_type target)
              (reasoning decision) (rand_time i)
              (Z.of_nat (String.length text)) (now i)
              (send_to_agent eps (agent_type target)
                 (dispatch_data (new_routing_id i) d
                    (_prepare_data_package lib (now i) d client) decision)
                 (outcome i)))
    /\ (PyStr.any_word_in ["roi"; "budget"; "financial"; "revenue"; "cost"]
          (PyStr.lower (query d)) = true ->
        existsb (fun a => String.eqb (agent_type a) "finance") available
        = true ->
        agent_type target = "finance").
Proof.
  intros available decision Hne.
  pose proof (route_to_agent_available (rand_time i) (rand_conf i) (query d)
                available Hne) as Hex.
  fold decision in Hex.
  destruct (find (fun a => String.eqb (agent_type a) (best_agent decision))
              available) as [target|] eqn:Hfind.
  2:{ apply existsb_exists in Hex. destruct Hex as (a & Hin & Ha).
      pose proof (find_none _ _ Hfind a Hin) as Hno. simpl in Hno.
      congruence. }
  exists target.
  assert (Hty : agent_type target = best_agent decision).
  { apply find_some in Hfind. destruct Hfind as [_ H].
    apply String.eqb_eq. exact H. }
  split; [reflexivity|]. split; [exact Hty|].
  unfold OrchestrationEngine.route_request. fold available.
  destruct available as [|first rest] eqn:Hav; [contradiction|].
  fold decision. unfold pick_target. rewrite Hfind.
  split; [destruct (json_dumps lib false _); reflexivity|].
  split.
  - intros text Htext. rewrite Htext. simpl. unfold decision at 2.
    rewrite route_to_agent_time. reflexivity.
  - intros Hq Hfin. rewrite Hty. unfold decision.
    apply route_to_agent_finance; assumption.
Qed.

(** ** Calls touch the entries of their own routing ids only *)

(** X18.  No call removes or changes an entry of another request:
    [route_request] leaves every entry but that of the id it assigns as
    it was, and [process_collaboration_response] for a routing id leaves
    every entry but that id's, and that of the id a re-routing assigns,
    as it was.  An entry stays in the table until a response for its own
    id completes it or a later request is assigned the same id. *)
Theorem calls_keep_other_entries (eps : gmap string string) (reg : registry)
    (i : route_inputs) (s : gmap string active_request) :
  (forall d client k,
     k <> new_routing_id i ->
     fst (route_request eps reg i s d client) !! k = s !! k)
  /\ (forall rid d k,
        k <> rid -> k <> new_routing_id i ->
        fst (process_collaboration_response eps reg i s rid d) !! k = s !! k)
  /\ (forall rid d,
        s !! rid = None ->
        process_collaboration_response eps reg i s rid d
        = (s, UnknownRoutingId)).
Proof.
  assert (Hroute : forall s0 d client k,
            k <> new_routing_id i ->
            fst (route_request eps reg i s0 d client) !! k = s0 !! k).
  { intros s0 d client k Hk.
    destruct (route_request_cases lib eps reg i s0 d client)
      as [[_ ->]|(target & decision & _ & -> & _)]; [reflexivity|].
    apply lookup_insert_ne. congruence. }
  split; [apply Hroute|]. split.
  - intros rid d k Hk Hnew.
    pose proof (process_cases lib eps reg i s rid d) as H.
    destruct (s !! rid) as [a0|] eqn:Ha0; [|rewrite H; reflexivity].
    cbv zeta in H.
    destruct H as [->|[(syn & _ & ->)|(_ & ->)]]; simpl.
    + apply lookup_insert_ne. congruence.
    + rewrite lookup_delete_ne by congruence.
      apply lookup_insert_ne. congruence.
    + rewrite (Hroute _ _ _ k Hnew). apply lookup_insert_ne. congruence.
  - intros rid d Hnone.
    pose proof (process_cases lib eps reg i s rid d) as H.
    rewrite Hnone in H. exact H.
Qed.

(** ** The first response *)



End WithLibraries.

Import Scenario.

(** The table after the request of [escalated] has been routed. *)
Lemma target_is_first_of_named_type_witness :
  exists target,
    find (fun a =>
            String.eqb (agent_type a)
              (best_agent
                 (route_to_agent (rand_time inputs1) (rand_conf inputs1)
                    (query roi_request)
                    (candidates acme2 (requesting_agent roi_request) "acme"))))
         (candidates acme2 (requesting_agent roi_request) "acme")
    = Some target
    /\ agent_type target = "finance".
Proof.
  destruct (target_is_first_of_named_type Ref.lib endpoints acme2 inputs1 ∅
              roi_request "acme") as (target & Hfind & Hty & _ & _ & Hfin).
  { vm_compute. discriminate. }
  exists target. split; [exact Hfind|].
  apply Hfin; vm_compute; reflexivity.
Defined.


End OrchestrationProperties.

(* ===================================================================== *)
(** * Properties of the hub's endpoint table and of the categorizer *)
(* ===================================================================== *)

Module HubServicesProperties.

Import VMCommunication SpokeEndpoints DocumentCategorization.

(** ** Endpoints *)

Lemma set_endpoint_lookup (kind k : string) (endpoint : option string)
    (m : gmap string string) :
  set_endpoint kind endpoint m !! k
  = if decide (kind = k)
    then match supplied endpoint with Some e => Some e | None => m !! k end
    else m !! k.
Proof.
  unfold set_endpoint, supplied. destruct endpoint as [e|].
  - destruct (String.eqb e ""); destruct (decide (kind = k)) as [->|Hne];
      rewrite ?lookup_insert_eq, ?lookup_insert_ne by exact Hne; reflexivity.
  - destruct (decide (kind = k)); reflexivity.
Qed.

Lemma set_default_lookup (kind e k : string) (m : gmap string string) :
  set_default kind e m !! k
  = if decide (kind = k)
    then match m !! k with Some x => Some x | None => Some e end
    else m !! k.
Proof.
  unfold set_default. destruct (decide (kind = k)) as [->|Hne].
  - destruct (m !! k) eqn:Hk; [exact Hk | apply lookup_insert_eq].
  - destruct (m !! kind); [reflexivity|]. apply lookup_insert_ne. exact Hne.
Qed.

(** X20.  The endpoint table is decided by four environment variables.
    The finance and the marketing endpoint are the value of their
    variable when it is set and not empty, and otherwise the local
    default in development mode and absent in production; the sales
    endpoint is the value of its variable and has no default.  No other
    agent type ever has an endpoint: for it [send_to_agent] makes no
    request and answers [not configured], whatever the environment. *)
Theorem endpoints_from_environment (env : environment) :
  load_spoke_endpoints_from_env env !! "finance"
  = match supplied (FINANCE_ENDPOINT env) with
    | Some e => Some e
    | None => if development_mode env then Some "http://localhost:8081"
              else None
    end
  /\ load_spoke_endpoints_from_env env !! "marketing"
     = match supplied (MARKETING_ENDPOINT env) with
       | Some e => Some e
       | None => if development_mode env then Some "http://localhost:8082"
                 else None
       end
  /\ load_spoke_endpoints_from_env env !! "sales"
     = supplied (SALES_ENDPOINT env)
  /\ forall agent_type,
       agent_type <> "finance" -> agent_type <> "marketing" ->
       agent_type <> "sales" ->
       load_spoke_endpoints_from_env env !! agent_type = None
       /\ is_agent_configured (load_spoke_endpoints_from_env env) agent_type
          = false
       /\ forall data outcome,
            send_to_agent (load_spoke_endpoints_from_env env) agent_type data
              outcome
            = PDict [("error",
                      PStr ("Agent VM " +:+ agent_type +:+ " not configured"))]
            /\ dispatch_failed (load_spoke_endpoints_from_env env) agent_type
                 outcome = true.
Proof.
  unfold load_spoke_endpoints_from_env.
  split; [|split; [|split]].
  - destruct (development_mode env);
      rewrite ?set_default_lookup, !set_endpoint_lookup; simpl;
      rewrite lookup_empty;
      destruct (supplied (FINANCE_ENDPOINT env)); reflexivity.
  - destruct (development_mode env);
      rewrite ?set_default_lookup, !set_endpoint_lookup; simpl;
      rewrite lookup_empty;
      destruct (supplied (MARKETING_ENDPOINT env)); reflexivity.
  - destruct (development_mode env);
      rewrite ?set_default_lookup, !set_endpoint_lookup; simpl;
      rewrite lookup_empty;
      destruct (supplied (SALES_ENDPOINT env)); reflexivity.
  - intros t Hf Hm Hs.
    assert (Hnone : (if development_mode env
                     then set_default "marketing" "http://localhost:8082"
                            (set_default "finance" "http://localhost:8081"
                               (set_endpoint "sales" (SALES_ENDPOINT env)
                                  (set_endpoint "marketing"
                                     (MARKETING_ENDPOINT env)
                                     (set_endpoint "finance"
                                        (FINANCE_ENDPOINT env) ∅))))
                     else set_endpoint "sales" (SALES_ENDPOINT env)
                            (set_endpoint "marketing" (MARKETING_ENDPOINT env)
                               (set_endpoint "finance" (FINANCE_ENDPOINT env)
                                  ∅))) !! t = None).
    { destruct (development_mode env);
        rewrite ?set_default_lookup, !set_endpoint_lookup;
        rewrite !decide_False by congruence; apply lookup_empty. }
    split; [exact Hnone|]. split.
    + unfold is_agent_configured. rewrite Hnone.
      apply bool_decide_eq_false_2. intros [x Hx]. discriminate.
    + intros data outcome. unfold send_to_agent, dispatch_failed.
      rewrite Hnone. split; reflexivity.
Qed.

(** ** The categorizer *)

Lemma lower_ascii_not_Q (a : ascii) : PyStr.lower_ascii a <> "Q"%char.
Proof.
  unfold PyStr.lower_ascii.
  destruct ((65 <=? nat_of_ascii a)%nat && (nat_of_ascii a <=? 90)%nat) eqn:E.
  - apply andb_true_iff in E. destruct E as [H1 H2].
    apply Nat.leb_le in H1, H2. intros H.
    apply (f_equal nat_of_ascii) in H.
    rewrite nat_ascii_embedding in H by lia.
    change (nat_of_ascii "Q") with 81%nat in H. lia.
  - intros ->. discriminate.
Qed.

Lemma prefix_Q4_head (c : ascii) (rest : string) :
  c <> "Q"%char -> String.prefix "Q4" (String c rest) = false.
Proof.
  intros H. cbn [String.prefix].
  destruct (ascii_dec "Q" c) as [E|E]; [congruence | reflexivity].
Qed.

(** A lower-cased text does not contain [Q4]. *)
Lemma lower_has_no_Q4 (s : string) :
  PyStr.contains "Q4" (PyStr.lower s) = false.
Proof.
  induction s as [|a s IH]; [reflexivity|].
  change (PyStr.contains "Q4" (PyStr.lower (String a s)))
    with (String.prefix "Q4" (String (PyStr.lower_ascii a) (PyStr.lower s))
          || PyStr.contains "Q4" (PyStr.lower s)).
  rewrite IH, (prefix_Q4_head _ _ (lower_ascii_not_Q a)). reflexivity.
Qed.

(** X21.  Whatever the text and the file name, the categorization names
    one of four departments and one of five document types and has
    between one and five key terms, all from a fixed vocabulary.  The
    term [Q4] is never among them, because it is looked for in the
    lower-cased text: a text that mentions [Q4] gets a time period and
    no such key term. *)
Theorem categorization_is_well_formed (rand_conf : Q)
    (text_content filename : string) :
  let c := categorize_document rand_conf text_content filename in
  department c ∈ ["Finance"; "Marketing"; "Sales"; "Operations"]
  /\ (document_type c
      ∈ ["Data/Spreadsheet"; "Report"; "Document"; "Email"; "Other"])
  /\ (1 <= length (key_terms c) <= 5)%nat
  /\ ("Q4" ∉ key_terms c)
  /\ (forall t, t ∈ key_terms c ->
        t ∈ ["budget"; "revenue"; "campaign"; "analysis"; "report";
             "forecast"; "business"; "data"])
  /\ (PyStr.contains "Q4" text_content = true -> is_Some (time_period c))
  /\ confidence_score c = rand_conf.
Proof.
  cbv zeta. unfold categorize_document, _mock_categorize_document.
  cbn [department document_type key_terms time_period confidence_score].
  set (text_lower := PyStr.lower text_content).
  set (found := List.filter (fun term => PyStr.contains term text_lower)
                  candidate_terms).
  assert (Hfound : forall t, In t found ->
            In t ["budget"; "revenue"; "campaign"; "analysis"; "report";
                  "forecast"]).
  { intros t Ht. unfold found in Ht.
    apply filter_In in Ht. destruct Ht as [Hin Hc].
    unfold candidate_terms in Hin. simpl in Hin. simpl.
    destruct Hin as [<-|[<-|[<-|[<-|[<-|[<-|[<-|[]]]]]]]]; try tauto.
    unfold text_lower in Hc. rewrite lower_has_no_Q4 in Hc. discriminate. }
  assert (Hterms : forall t,
            t ∈ take 5 (match found with
                        | [] => ["business"; "data"; "analysis"]
                        | _ => found
                        end) ->
            In t ["budget"; "revenue"; "campaign"; "analysis"; "report";
                  "forecast"; "business"; "data"]).
  { intros t Ht. apply subseteq_take in Ht. apply list_elem_of_In in Ht.
    destruct found as [|x l] eqn:Hf; [simpl in *; tauto|].
    specialize (Hfound t Ht). simpl in *. tauto. }
  split; [|split; [|split; [|split; [|split; [|split]]]]].
  - repeat (destruct (PyStr.any_word_in _ text_lower));
      apply list_elem_of_In; simpl; tauto.
  - repeat (destruct (PyStr.contains _ (PyStr.lower filename))); simpl;
      apply list_elem_of_In; simpl; tauto.
  - rewrite length_take. split; [|apply Nat.le_min_l].
    apply Nat.min_glb; [lia|]. destruct found as [|x l]; simpl; lia.
  - intros Hin. specialize (Hterms _ Hin). simpl in Hterms.
    repeat (destruct Hterms as [Hterms|Hterms]; [discriminate|]).
    exact Hterms.
  - intros t Ht. apply list_elem_of_In. exact (Hterms t Ht).
  - intros HQ4. simpl.
    destruct (PyStr.contains "Q1" text_content); [eexists; reflexivity|].
    destruct (PyStr.contains "Q2" text_content); [eexists; reflexivity|].
    destruct (PyStr.contains "Q3" text_content); [eexists; reflexivity|].
    rewrite HQ4. eexists. reflexivity.
  - reflexivity.
Qed.

End HubServicesProperties.

(* ===================================================================== *)
(** * Properties of the document store and of its routes *)
(* ===================================================================== *)

Module DocumentProperties.

Import DocumentCategorization DocumentProcessor.

Lemma db_get_set_eq (id : string) (doc : document) (db : documents_db) :
  db_get id (db_set id doc db) = Some doc.
Proof.
  induction db as [|[k x] db IH]; simpl.
  - rewrite String.eqb_refl. reflexivity.
  - destruct (String.eqb id k) eqn:E; simpl; rewrite ?String.eqb_refl, ?E;
      [reflexivity | exact IH].
Qed.

Lemma db_get_set_ne (id id' : string) (doc : document) (db : documents_db) :
  id <> id' -> db_get id (db_set id' doc db) = db_get id db.
Proof.
  intros Hne. induction db as [|[k x] db IH]; simpl.
  - rewrite (proj2 (String.eqb_neq id id') Hne). reflexivity.
  - destruct (String.eqb_spec id' k) as [->|Hne2]; simpl.
    + rewrite (proj2 (String.eqb_neq id k) Hne). reflexivity.
    + destruct (String.eqb id k); [reflexivity | exact IH].
Qed.

Lemma db_get_elem (id : string) (doc : document) (db : documents_db) :
  db_get id db = Some doc -> (id, doc) ∈ db.
Proof.
  induction db as [|[k x] db IH]; simpl; [discriminate|].
  destruct (String.eqb_spec id k) as [->|Hne].
  - intros H. injection H as ->. apply list_elem_of_here.
  - intros H. apply list_elem_of_further. exact (IH H).
Qed.

(** A text is smaller than every proper extension of it. *)
Lemma ltb_proper_prefix (d rest : string) :
  rest <> "" -> String.ltb d (d +:+ rest) = true.
Proof.
  intros Hne. unfold String.ltb.
  assert (H : String.compare d (d +:+ rest) = Lt).
  { induction d as [|a d IH]; simpl.
    - destruct rest; [contradiction | reflexivity].
    - assert (Ha : Ascii.compare a a = Eq).
      { unfold Ascii.compare. apply N.compare_refl. }
      rewrite Ha. exact IH. }
  rewrite H. reflexivity.
Qed.

Section WithLibraries.

Context (lib : PyLib) (sha256_hex : string -> string)
        (path_join : string -> string -> string -> string)
        (storage_path_root : string).

Local Abbreviation process_upload :=
  (process_upload lib sha256_hex path_join storage_path_root).

(** X22.  An upload that fails stores nothing.  An upload completes only
    when the file was written, some text was extracted and the processed
    data was written; it then stores one record under the new document
    id, owned by the uploading client and categorized from the extracted
    text, and leaves the records of all other ids as they were.  The
    document route then returns that record to the uploading client,
    answers 403 to every other client and 400 without a client header. *)
Theorem upload_stores_for_uploader (db : documents_db) (i : upload_inputs)
    (file_content filename : string) (metadata : pydict) (client : string) :
  let out := process_upload db i file_content filename metadata client in
  (forall e u t, snd out = UploadFailed e u t -> fst out = db)
  /\ (forall u did c t,
        snd out = UploadCompleted u did c t ->
        upload_saved i = true /\ extracted_text i <> ""
        /\ processed_saved i = true
        /\ did = "doc_" +:+ String.substring 0 12 (document_uuid i)
        /\ c = categorize_document (rand_conf i) (extracted_text i) filename
        /\ exists doc,
             get_document (fst out) did = Some doc
             /\ client_id doc = client /\ document_id doc = did
             /\ DocumentProcessor.filename doc = filename
             /\ file_type doc = _detect_file_type filename
             /\ file_size doc = Z.of_nat (String.length file_content)
             /\ doc_categorization doc = c
             /\ (forall id, id <> did ->
                   get_document (fst out) id = get_document db id)
             /\ (client <> "" ->
                 DocumentRoutes.get_document (fst out) did (Some client)
                 = DocumentRoutes.Ok doc)
             /\ (forall other,
                   other <> "" -> other <> client ->
                   DocumentRoutes.get_document (fst out) did (Some other)
                   = DocumentRoutes.HttpError 403 "Access denied")
             /\ DocumentRoutes.get_document (fst out) did None
                = DocumentRoutes.HttpError 400 "X-Client-ID header required").
Proof.
  cbv zeta. unfold DocumentProcessor.process_upload.
  destruct (upload_saved i); simpl;
    [|split; [reflexivity | discriminate]].
  destruct (String.eqb_spec (extracted_text i) "") as [He|He]; simpl;
    [split; [reflexivity | discriminate]|].
  destruct (processed_saved i); simpl;
    [|split; [reflexivity | discriminate]].
  split; [discriminate|].
  intros u did c t H. injection H as <- <- <- <-.
  do 5 (split; [reflexivity || exact He|]).
  eexists. split; [apply db_get_set_eq|]. simpl.
  do 6 (split; [reflexivity|]).
  split; [intros id Hne; apply db_get_set_ne; exact Hne|].
  unfold DocumentRoutes.get_document, DocumentRoutes.get_client_id,
    get_document.
  rewrite !db_get_set_eq. simpl. split; [|split; [|reflexivity]].
  - intros Hc. rewrite (proj2 (String.eqb_neq client "") Hc).
    rewrite String.eqb_refl. reflexivity.
  - intros other Ho Hne. rewrite (proj2 (String.eqb_neq other "") Ho).
    simpl.
    rewrite (proj2 (String.eqb_neq client other)) by congruence. reflexivity.
Qed.

End WithLibraries.

(** X23.  The document routes never hand a document to another client:
    the document route answers with a record only when the header names
    the client that owns it, and every record the search route returns
    is owned by the client the header names.  Without the header both
    routes answer 400, and the document route answers 404 for an unknown
    id whoever asks. *)
Theorem document_routes_isolate_clients (db : documents_db) :
  (forall id h doc,
     DocumentRoutes.get_document db id h = DocumentRoutes.Ok doc ->
     h = Some (client_id doc) /\ client_id doc <> ""
     /\ get_document db id = Some doc)
  /\ (forall dep ty from to h docs,
        DocumentRoutes.search_documents db dep ty from to h
        = DocumentRoutes.Ok docs ->
        exists c, h = Some c /\ c <> ""
                  /\ forall doc, doc ∈ docs ->
                       client_id doc = c /\ exists id, (id, doc) ∈ db)
  /\ (forall id dep ty from to,
        DocumentRoutes.get_document db id None
        = DocumentRoutes.HttpError 400 "X-Client-ID header required"
        /\ DocumentRoutes.search_documents db dep ty from to None
           = DocumentRoutes.HttpError 400 "X-Client-ID header required")
  /\ (forall id c,
        c <> "" -> get_document db id = None ->
        DocumentRoutes.get_document db id (Some c)
        = DocumentRoutes.HttpError 404 "Document not found").
Proof.
  split; [|split; [|split]].
  - intros id h doc.
    unfold DocumentRoutes.get_document, DocumentRoutes.get_client_id.
    destruct h as [c|]; [|discriminate].
    destruct (String.eqb_spec c "") as [|Hc]; [discriminate|].
    destruct (get_document db id) as [x|]; [|discriminate].
    destruct (String.eqb_spec (client_id x) c) as [Hx|]; [|discriminate].
    simpl. intros H. injection H as <-. subst c. auto.
  - intros dep ty from to h docs.
    unfold DocumentRoutes.search_documents, DocumentRoutes.get_client_id.
    destruct h as [c|]; [|discriminate].
    destruct (String.eqb_spec c "") as [|Hc]; [discriminate|].
    intros H. injection H as <-. exists c. split; [reflexivity|].
    split; [exact Hc|]. intros doc Hdoc.
    unfold search_documents in Hdoc. apply list_elem_of_In in Hdoc.
    apply filter_In in Hdoc. destruct Hdoc as [Hin Happ].
    split.
    + unfold appended in Happ.
      destruct (String.eqb_spec (client_id doc) c) as [E|]; [exact E|].
      discriminate.
    + apply list_elem_of_In in Hin. apply list_elem_of_fmap in Hin.
      destruct Hin as ([id x] & -> & Hx). exists id. exact Hx.
  - intros. split; reflexivity.
  - intros id c Hc Hnone.
    unfold DocumentRoutes.get_document, DocumentRoutes.get_client_id.
    rewrite (proj2 (String.eqb_neq c "") Hc), Hnone. reflexivity.
Qed.

Lemma rejected_by_false (f : option string) (bad : string -> bool) :
  rejected_by f bad = false
  <-> forall v, f = Some v -> v <> "" -> bad v = false.
Proof.
  unfold rejected_by. destruct f as [v|].
  - destruct (String.eqb_spec v "") as [->|Hne]; simpl.
    + split; [|reflexivity]. intros _ v' H. injection H as <-. tauto.
    + split; [intros H v' Hv _; injection Hv as <-; exact H|].
      intros H. exact (H v eq_refl Hne).
  - split; [discriminate | reflexivity].
Qed.

(** X24.  [search_documents] returns the stored records, in the order of
    their first insertion, that belong to the client and pass every
    filter that is given and not empty: equal department, equal document
    type, and an upload date that is not before [date_from] and not
    after [date_to] in the order of texts.  Because dates are compared
    as texts, an upper bound that is a proper prefix of the upload date,
    such as a day without a time, excludes the document. *)
Theorem search_applies_the_filters (db : documents_db) (client : string)
    (f : filters) :
  (forall doc,
     doc ∈ search_documents db client f
     <-> doc ∈ snd <$> db
         /\ client_id doc = client
         /\ (forall v, f_department f = Some v -> v <> "" ->
               department (doc_categorization doc) = v)
         /\ (forall v, f_document_type f = Some v -> v <> "" ->
               document_type (doc_categorization doc) = v)
         /\ (forall v, f_date_from f = Some v -> v <> "" ->
               String.ltb (upload_date doc) v = false)
         /\ (forall v, f_date_to f = Some v -> v <> "" ->
               String.ltb v (upload_date doc) = false))
  /\ search_documents db client
       {| f_department := None; f_document_type := None;
          f_date_from := None; f_date_to := None |}
     = List.filter (fun doc => String.eqb (client_id doc) client) (snd <$> db)
  /\ (forall doc day rest,
        f_date_to f = Some day -> day <> "" -> rest <> "" ->
        upload_date doc = day +:+ rest ->
        doc ∉ search_documents db client f).
Proof.
  assert (Hchar : forall doc,
            appended client f doc = true
            <-> client_id doc = client
                /\ (forall v, f_department f = Some v -> v <> "" ->
                      department (doc_categorization doc) = v)
                /\ (forall v, f_document_type f = Some v -> v <> "" ->
                      document_type (doc_categorization doc) = v)
                /\ (forall v, f_date_from f = Some v -> v <> "" ->
                      String.ltb (upload_date doc) v = false)
                /\ (forall v, f_date_to f = Some v -> v <> "" ->
                      String.ltb v (upload_date doc) = false)).
  { intros doc. unfold appended.
    destruct (String.eqb_spec (client_id doc) client) as [Hc|Hc]; simpl;
      [|split; [discriminate | tauto]].
    destruct (rejected_by (f_department f) _) eqn:H1.
    { split; [discriminate|]. intros (_ & H & _).
      assert (rejected_by (f_department f)
                (fun v => negb (String.eqb
                                  (department (doc_categorization doc)) v))
              = false); [|congruence].
      apply rejected_by_false. intros v Hv Hne.
      rewrite (H v Hv Hne), String.eqb_refl. reflexivity. }
    destruct (rejected_by (f_document_type f) _) eqn:H2.
    { split; [discriminate|]. intros (_ & _ & H & _).
      assert (rejected_by (f_document_type f)
                (fun v => negb (String.eqb
                                  (document_type (doc_categorization doc)) v))
              = false); [|congruence].
      apply rejected_by_false. intros v Hv Hne.
      rewrite (H v Hv Hne), String.eqb_refl. reflexivity. }
    destruct (rejected_by (f_date_from f) _) eqn:H3.
    { split; [discriminate|]. intros (_ & _ & _ & H & _).
      apply rejected_by_false in H.
      pose proof (eq_trans (eq_sym H3) H). discriminate. }
    destruct (rejected_by (f_date_to f) _) eqn:H4.
    { split; [discriminate|]. intros (_ & _ & _ & _ & H).
      apply rejected_by_false in H.
      pose proof (eq_trans (eq_sym H4) H). discriminate. }
    split; [|reflexivity]. intros _. split; [exact Hc|].
    split.
    { intros v Hv Hne.
      pose proof (proj1 (rejected_by_false _ _) H1 v Hv Hne) as Hb.
      apply negb_false_iff in Hb. apply String.eqb_eq. exact Hb. }
    split.
    { intros v Hv Hne.
      pose proof (proj1 (rejected_by_false _ _) H2 v Hv Hne) as Hb.
      apply negb_false_iff in Hb. apply String.eqb_eq. exact Hb. }
    split; apply rejected_by_false; assumption. }
  split; [|split].
  - intros doc. unfold search_documents.
    rewrite list_elem_of_In, filter_In, <- list_elem_of_In, Hchar.
    reflexivity.
  - unfold search_documents. apply filter_ext. intros doc.
    unfold appended. simpl.
    destruct (String.eqb (client_id doc) client); reflexivity.
  - intros doc day rest Hto Hday Hrest Hdate Hin.
    unfold search_documents in Hin.
    apply list_elem_of_In in Hin. apply filter_In in Hin.
    destruct Hin as [_ Happ]. apply Hchar in Happ.
    destruct Happ as (_ & _ & _ & _ & H).
    specialize (H day Hto Hday). rewrite Hdate in H.
    rewrite (ltb_proper_prefix day rest Hrest) in H. discriminate.
Qed.

End DocumentProperties.

(* ===================================================================== *)
(** * Discovery against the hub's directory *)
(* ===================================================================== *)

Module DiscoveryProperties.

Import VMCommunication AgentDiscovery.

Section WithLibraries.

Context (lib : PyLib) (key_manager : KeyManager) (env_agent_id : string).

(** A reply whose body is a dictionary teaches [discover_agents]
    nothing: the loop visits its keys, which are texts. *)
Lemma discover_dict_body (hub_endpoint : option string)
    (registered : registered_agents) (k : string) (v : pyval)
    (rest : pydict) :
  discover_agents hub_endpoint registered (HttpOk (PDict ((k, v) :: rest)))
  = (registered, PList []).
Proof.
  unfold discover_agents. destruct hub_endpoint as [ep|]; [|reflexivity].
  destruct (String.eqb ep ""); reflexivity.
Qed.

Lemma discover_from_hub (hub_endpoint : option string)
    (registered : registered_agents) (reg : AgentRegistry.registry)
    (now : Z) (capability x_client_id : option string) :
  discover_agents hub_endpoint registered
    (DirectoryRoute.over_http lib
       (DirectoryRoute.get_agent_directory lib reg now capability
          x_client_id))
  = (registered, PList []).
Proof.
  unfold DirectoryRoute.get_agent_directory.
  destruct (DocumentRoutes.get_client_id x_client_id) as [client|code detail];
    simpl.
  - apply discover_dict_body.
  - unfold discover_agents. destruct hub_endpoint as [ep|]; [|reflexivity].
    destruct (String.eqb ep ""); reflexivity.
Qed.

(** X26.  [discover_agents] expects the directory reply to be a list of
    agent dictionaries, and stores each under its id.  The hub's
    directory route answers with a dictionary that holds the list under
    the key [agents], or with an error: from either, discovery stores
    nothing and returns the empty list, with or without a client header
    and whatever the registry holds.  An agent whose table of known
    agents is empty therefore answers every [send_collaboration_request]
    with [Target agent ... not found], sends nothing, and knows no more
    agents afterwards. *)
Theorem discovery_learns_nothing_from_hub (hub_endpoint : option string)
    (reg : AgentRegistry.registry) (now : Z)
    (capability x_client_id : option string) :
  let reply :=
    DirectoryRoute.over_http lib
      (DirectoryRoute.get_agent_directory lib reg now capability x_client_id)
  in
  (forall registered,
     discover_agents hub_endpoint registered reply = (registered, PList []))
  /\ (forall draws x t text target task context reqs,
        send_collaboration_request lib key_manager env_agent_id hub_endpoint
          []
          {| discovery := reply; request_draws := draws; exchange := x;
             received_at := t; raised_text := text |}
          target task context reqs
        = ([], error_dict ("Target agent " +:+ target +:+ " not found")))
  /\ (forall ep d id,
        ep <> "" -> lookup_key "agent_id" d = Some (PStr id) ->
        discover_agents (Some ep) [] (HttpOk (PList [PDict d]))
        = ([(PStr id, PDict d)], PList [PDict d])).
Proof.
  cbv zeta. split; [|split].
  - intros registered. apply discover_from_hub.
  - intros draws x t text target task context reqs.
    unfold send_collaboration_request. simpl.
    rewrite discover_from_hub. reflexivity.
  - intros ep d id Hep Hid. unfold discover_agents.
    rewrite (proj2 (String.eqb_neq ep "") Hep). simpl. rewrite Hid.
    reflexivity.
Qed.

End WithLibraries.

End DiscoveryProperties.

(* ===================================================================== *)
(** * Registration against the hub's route *)
(* ===================================================================== *)

Module HubRegistrationProperties.

Import AgentRegistry HubRegistration.

Section WithAttestation.

Context (ac : AttestationClient).

(** X27.  The registration request of [register_with_hub] carries the
    agent id, the quote and the key as headers, and no client id.  The
    hub's registration route requires the [X-Client-ID] header before it
    looks at anything else: it refuses the request with status 400 and
    registers nothing, whatever the quote, so [register_with_hub] returns
    [False].  The same body sent with a client header and a quote the
    attestation client accepts is admitted for that client. *)
Theorem agent_registration_is_refused (r : registry) (now : Z)
    (raised_text agent_id agent_type : string) (capabilities : list string)
    (quote : pyval) (pem : string) :
  let rq := registration_request_of agent_id agent_type capabilities quote
              pem in
  header "X-Client-ID" (rq_headers rq) = None
  /\ register_agent ac r now raised_text (rq_body rq)
       (header "X-Client-ID" (rq_headers rq))
       (header "X-Attestation-Quote" (rq_headers rq))
       (header "X-Public-Key" (rq_headers rq))
     = (r, Refused 400 (PStr "X-Client-ID header required"))
  /\ register_with_hub ac r now raised_text agent_id agent_type capabilities
       quote pem = (r, false)
  /\ forall client q vr,
       client <> "" -> quote = PStr q -> q <> "" -> pem <> "" ->
       verify_attestation_quote ac (PStr q) = Some (true, vr) ->
       exists r',
         register_agent ac r now raised_text (rq_body rq) (Some client)
           (header "X-Attestation-Quote" (rq_headers rq))
           (header "X-Public-Key" (rq_headers rq))
         = (r', Created agent_id
                  (get_default "measurements" (PDict []) vr))
         /\ exists a, get_agent r' agent_id client = Some a
                      /\ status a = VERIFIED
                      /\ attestation_quote a = PStr q
                      /\ public_key a = PStr pem.
Proof.
  cbv zeta. split; [reflexivity|]. split; [reflexivity|].
  split; [reflexivity|].
  intros client q vr Hc -> Hq Hpem Hv.
  unfold register_agent, DocumentRoutes.get_client_id.
  rewrite (proj2 (String.eqb_neq client "") Hc).
  unfold header, with_headers. simpl.
  rewrite (proj2 (String.eqb_neq q "") Hq), (proj2 (String.eqb_neq pem "") Hpem).
  simpl. unfold AgentRegistry.register_agent. simpl.
  unfold get, get_default. simpl.
  rewrite (proj2 (String.eqb_neq q "") Hq), (proj2 (String.eqb_neq pem "") Hpem).
  simpl. rewrite Hv. eexists. split; [reflexivity|].
  eexists. split.
  - unfold get_agent. simpl. rewrite lookup_insert_eq. simpl.
    rewrite String.eqb_refl. reflexivity.
  - repeat split.
Qed.

End WithAttestation.

End HubRegistrationProperties.
